(** * dlmhelper, examples/WFMD_v1.8_complete.ipynb: [load_grid_from_netcdf]

    A shallow embedding of the one function the example notebook defines,
    the NetCDF grid loader, together with the parts of the Python standard
    library ([datetime]) and of xarray/numpy (attribute and variable
    dictionaries, comparisons, boolean masks, outer indexing) that it calls.

    Conventions.
    - Python integers are [Z]. The numbers stored in the file (coordinates,
      bounds, steps, grid cells) are rationals [Q]: every finite float is a
      rational. The one rounding that decides what the loader selects, the
      conversion of a Python number to the single precision of a coordinate
      it is compared with, is modelled; the arithmetic on the declared
      extent and on the edges of the plot is exact.
    - Python dictionaries ([ds.attrs], [ds.variables], the returned
      [grid_dim]) are finite maps [gmap string _].
    - Variables have rank one (the coordinates) or rank three (the gridded
      quantities), the ranks the loader can index without raising.
    - Exceptions, the open/closed state of the file and the memory that
      [np.zeros] may take are explicit: a computation is a function from the
      world to an outcome and a world.

    The file has three parts: the embedding of the code; the notions the
    statements are written with (what the loader reads from a file, the
    slice it then returns, sample files); the lemmas and the claims. *)

From Stdlib Require Import ZArith QArith Qabs Qround Qpower Lia Sorted Ascii.
From stdpp Require Import gmap strings list fin_maps.

Local Open Scope Z_scope.
#[local] Set Warnings "-clear-no-such-hyp".

(** ** Exceptions *)

Inductive exn : Type :=
  | FileNotFoundError
  | OSError
  | KeyError (key : string)
  | TypeError
  | ValueError
  | OverflowError
  | MemoryError
  | IndexError.

(** Python's [isinstance(e, OSError)]: [FileNotFoundError] is a subclass of
    [OSError]; the other exceptions are not. *)
Definition is_OSError (e : exn) : bool :=
  match e with
  | FileNotFoundError | OSError => true
  | _ => false
  end.

(** ** [datetime]: proleptic Gregorian ordinals

    [datetime.datetime(y, m, d)] takes its fields as C ints and raises
    [OverflowError] for a Python integer that is none; it then checks them
    and raises [ValueError] outside [MINYEAR..MAXYEAR], [1..12] and
    [1..days_in_month]; the difference of two midnights has [.days] equal
    to the difference of the ordinals. *)
Module Datetime.

Definition MINYEAR : Z := 1.
Definition MAXYEAR : Z := 9999.

Definition DAYS_IN_MONTH : list Z :=
  [-1; 31; 28; 31; 30; 31; 30; 31; 31; 30; 31; 30; 31].

Definition DAYS_BEFORE_MONTH : list Z :=
  [-1; 0; 31; 59; 90; 120; 151; 181; 212; 243; 273; 304; 334].

Definition is_leap (year : Z) : bool :=
  (year mod 4 =? 0) && (negb (year mod 100 =? 0) || (year mod 400 =? 0)).

(** The extra day of a leap year. *)
Definition leap_day (year : Z) : Z := if is_leap year then 1 else 0.

Definition days_before_year (year : Z) : Z :=
  let y := year - 1 in
  y * 365 + y / 4 - y / 100 + y / 400.

Definition days_in_month (year month : Z) : Z :=
  if (month =? 2) && is_leap year then 29
  else nth (Z.to_nat month) DAYS_IN_MONTH (-1).

Definition days_before_month (year month : Z) : Z :=
  nth (Z.to_nat month) DAYS_BEFORE_MONTH (-1)
  + (if (2 <? month) && is_leap year then 1 else 0).

Definition ymd2ord (year month day : Z) : Z :=
  days_before_year year + days_before_month year month + day.

Definition check_date_fields (year month day : Z) : bool :=
  (MINYEAR <=? year) && (year <=? MAXYEAR)
  && (1 <=? month) && (month <=? 12)
  && (1 <=? day) && (day <=? days_in_month year month).

Definition INT_MIN : Z := -2147483648.
Definition INT_MAX : Z := 2147483647.

Definition fits_int (z : Z) : bool := (INT_MIN <=? z) && (z <=? INT_MAX).

(** [datetime.datetime(year, month, day).toordinal()], or the exception of
    the constructor. *)
Definition datetime (year month day : Z) : exn + Z :=
  if fits_int year && fits_int month && fits_int day then
    if check_date_fields year month day
    then inr (ymd2ord year month day)
    else inl ValueError
  else inl OverflowError.

End Datetime.

(** [datetime.datetime(y1, m1, d1) < datetime.datetime(y2, m2, d2)]: the
    fields are compared in the order year, month, day. *)
Definition date_lt (y1 m1 d1 y2 m2 d2 : Z) : Prop :=
  y1 < y2 ∨ (y1 = y2 ∧ (m1 < m2 ∨ (m1 = m2 ∧ d1 < d2))).

(** [(datetime.datetime(y, m, d) - datetime.datetime(1970, 1, 1)).days] *)
Definition days_since_epoch (y m d : Z) : exn + Z :=
  match Datetime.datetime y m d, Datetime.datetime 1970 1 1 with
  | inr o, inr e => inr (o - e)
  | inl x, _ => inl x
  | _, inl x => inl x
  end.

(** ** Python values and their arithmetic *)

(** What an attribute of the file, or an element of the [grid_dim] argument,
    can be: a string, a numpy scalar ([VNum], what a numeric attribute of a
    file is read as) or a Python number ([VPy], what a caller writes:
    [0.7], [10]). *)
Inductive pyval : Type :=
  | VStr (s : string)
  | VNum (q : Q)
  | VPy (q : Q).

(** Fallible pure steps live in [exn + A]. *)
Definition ebind {A B : Type} (x : exn + A) (f : A → exn + B) : exn + B :=
  match x with
  | inl e => inl e
  | inr a => f a
  end.

Definition Qge_bool (x y : Q) : bool := Qle_bool y x.
Definition Qlt_bool (x y : Q) : bool := negb (Qle_bool y x).

(** The arithmetic of the loader is on attributes of the file: strings and
    numpy scalars. No file holds a Python number; the model gives one the
    error of a string. *)

(** [a - b] *)
Definition py_sub (a b : pyval) : exn + Q :=
  match a, b with
  | VNum x, VNum y => inr (x - y)%Q
  | _, _ => inl TypeError
  end.

(** A quotient of numpy scalars: dividing by zero raises nothing and gives
    an infinity, or NaN for [0 / 0]. *)
Inductive quotient : Type :=
  | Finite (q : Q)
  | Infinite
  | NotANumber.

(** [a / b] *)
Definition py_div (a : Q) (b : pyval) : exn + quotient :=
  match b with
  | VNum y =>
      if Qeq_bool y 0
      then inr (if Qeq_bool a 0 then NotANumber else Infinite)
      else inr (Finite (a / y))
  | _ => inl TypeError
  end.

(** Truncation towards zero. *)
Definition py_int (q : Q) : Z := Z.quot (Qnum q) (Z.pos (Qden q)).

(** [int(x)] *)
Definition int_of (x : quotient) : exn + Z :=
  match x with
  | Finite q => inr (py_int q)
  | Infinite => inl OverflowError
  | NotANumber => inl ValueError
  end.

(** ** Single precision

    The coordinates of a file are stored in double or in single precision.
    [to_float32 q] is the float32 nearest to [q], ties to the even
    significand: 24 bits above [2^-126], multiples of [2^-149] below. A
    number that rounds beyond the largest float32 becomes an infinity; one
    only ever compares it with the finite entries of an array, which it
    exceeds as the infinity does, and the model leaves it as it is. *)
Inductive dtype : Type :=
  | float32
  | float64.

Definition pow2 (e : Z) : Q := (2 ^ e)%Q.

Definition round_half_even (x : Q) : Z :=
  let f := Qfloor x in
  match (x - inject_Z f ?= 1 # 2)%Q with
  | Lt => f
  | Eq => if Z.even f then f else f + 1
  | Gt => f + 1
  end.

(** For [0 < x]: the [e] with [2^23 <= x / 2^e < 2^24], and [-149] where
    that would be lower. *)
Definition float32_exponent (x : Q) : Z :=
  let e := Z.log2 (Qnum x) - Z.log2 (Z.pos (Qden x)) - 24 in
  Z.max (-149) (if Qlt_bool x (pow2 (e + 24)) then e else e + 1).

Definition to_float32 (q : Q) : Q :=
  if Qeq_bool q 0 then q
  else
    let x := Qabs q in
    let e := float32_exponent x in
    let r := (inject_Z (round_half_even (x / pow2 e)) * pow2 e)%Q in
    if Qle_bool (pow2 128) r then q
    else if Qle_bool 0 q then r else (- r)%Q.

(** The conversion of a Python number to the type of an array. *)
Definition cast (dt : dtype) (q : Q) : Q :=
  match dt with
  | float32 => to_float32 q
  | float64 => q
  end.

(** [d[key]] on a dictionary. *)
Definition getitem {V : Type} (d : gmap string V) (key : string) : exn + V :=
  match d !! key with
  | Some v => inr v
  | None => inl (KeyError key)
  end.

(** [a, b, c, d = seq] *)
Definition unpack4 {A : Type} (seq : list A) : exn + (A * A * A * A) :=
  match seq with
  | [a; b; c; d] => inr (a, b, c, d)
  | _ => inl ValueError
  end.

(** ** numpy arrays and xarray variables

    A three-dimensional array carries its shape next to its cells, as numpy
    does: an axis of length zero leaves no cell to read the other lengths
    from. The loader meets arrays of rank one (coordinates) and of rank
    three (the gridded quantities). *)
Record ndarray3 (A : Type) : Type := mk_ndarray3 {
  shape : nat * nat * nat;
  cells : list (list (list A))
}.
Arguments mk_ndarray3 {A} _ _.
Arguments shape {A} _.
Arguments cells {A} _.

Inductive ndarray (A : Type) : Type :=
  | Arr1 (l : list A)
  | Arr3 (a : ndarray3 A).
Arguments Arr1 {A} _.
Arguments Arr3 {A} _.

Inductive XrVariable (A : Type) : Type :=
  | Var1 (dim : string) (data : list A)
  | Var3 (dims : string * string * string) (data : ndarray3 A).
Arguments Var1 {A} _ _.
Arguments Var3 {A} _ _.

(** [v.values] *)
Definition values {A : Type} (v : XrVariable A) : ndarray A :=
  match v with
  | Var1 _ l => Arr1 l
  | Var3 _ a => Arr3 a
  end.

(** [a.shape] and [v.shape] *)
Definition arr_shape {A : Type} (a : ndarray A) : list nat :=
  match a with
  | Arr1 l => [length l]
  | Arr3 a => let '(n1, n2, n3) := shape a in [n1; n2; n3]
  end.

Definition var_shape {A : Type} (v : XrVariable A) : list nat :=
  arr_shape (values v).

(** The cells of a rank-three array fill its shape. *)
Definition rectangular {A : Type} (a : ndarray3 A) : bool :=
  let '(n1, n2, n3) := shape a in
  (length (cells a) =? n1)%nat
  && forallb (λ plane,
       (length plane =? n2)%nat
       && forallb (λ row, (length row =? n3)%nat) plane) (cells a).

Definition var_rectangular {A : Type} (v : XrVariable A) : bool :=
  match v with
  | Var1 _ _ => true
  | Var3 _ a => rectangular a
  end.

(** [np.zeros((n, m))], an array of doubles. numpy refuses a negative
    length, and a size in bytes (counted with every zero length taken as
    one) beyond the largest [intp], with [ValueError]; an array that the
    machine has no memory for is a [MemoryError]. *)
Definition NPY_MAX_INTP : Z := 9223372036854775807.

Definition np_zeros (memory : Z) (n m : Z) : exn + list (list Q) :=
  if (n <? 0) || (m <? 0) || (NPY_MAX_INTP <? 8 * Z.max n 1 * Z.max m 1)
  then inl ValueError
  else if memory <? 8 * n * m then inl MemoryError
  else inr (replicate (Z.to_nat n) (replicate (Z.to_nat m) 0%Q)).

(** Elementwise application, the shape of every numpy ufunc. *)
Definition var_map {A B : Type} (f : A → B) (v : XrVariable A) : XrVariable B :=
  match v with
  | Var1 d l => Var1 d (map f l)
  | Var3 ds a => Var3 ds (mk_ndarray3 (shape a) (map (map (map f)) (cells a)))
  end.

(** What a scalar enters a comparison with an array of type [dt] as.
    numpy compares in the common type of the two: a numpy scalar has a type
    of its own and the common type holds it and the array exactly; a Python
    number has none and is converted to the type of the array (numpy 2;
    numpy 1 converted a numpy scalar of the same kind likewise). *)
Definition operand (dt : dtype) (c : pyval) : option Q :=
  match c with
  | VStr _ => None
  | VNum q => Some q
  | VPy q => Some (cast dt q)
  end.

(** Elementwise comparison of a variable of type [dt] with a scalar,
    [v >= c] and the like; comparing numbers with a string has no numpy
    loop. *)
Definition var_cmp (dt : dtype) (op : Q → Q → bool) (v : XrVariable Q)
    (c : pyval) : exn + XrVariable bool :=
  match operand dt c with
  | None => inl TypeError
  | Some q => inr (var_map (λ e, op e q) v)
  end.

(** [m1 & m2]. The loader only ever joins two masks computed from one and
    the same variable; operands over different dimensions (which xarray
    would broadcast) are outside what it reaches and are given the error
    of operands of unequal length. *)
Definition var_and (m1 m2 : XrVariable bool) : exn + XrVariable bool :=
  match m1, m2 with
  | Var1 d1 l1, Var1 d2 l2 =>
      if bool_decide (d1 = d2) && (length l1 =? length l2)%nat
      then inr (Var1 d1 (zip_with andb l1 l2))
      else inl ValueError
  | Var3 ds1 a1, Var3 ds2 a2 =>
      if bool_decide (ds1 = ds2) && bool_decide (shape a1 = shape a2)
      then inr (Var3 ds1 (mk_ndarray3 (shape a1)
                  (zip_with (zip_with (zip_with andb)) (cells a1) (cells a2))))
      else inl ValueError
  | _, _ => inl ValueError
  end.

(** Boolean indexing along one axis: keep the entries whose mask is set
    (numpy turns the mask into the positions of its true entries). *)
Fixpoint mask_select {A : Type} (m : list bool) (l : list A) : list A :=
  match m, l with
  | b :: m', x :: l' =>
      if b then x :: mask_select m' l' else mask_select m' l'
  | _, _ => []
  end.

Fixpoint count_true (m : list bool) : nat :=
  match m with
  | [] => 0
  | b :: m' => if b then S (count_true m') else count_true m'
  end.

(** Outer indexing of a rank-three array by one mask per axis. *)
Definition select3 {A : Type} (ma mb mc : list bool) (a : ndarray3 A)
  : ndarray3 A :=
  mk_ndarray3 (count_true ma, count_true mb, count_true mc)
    (map (λ plane, map (mask_select mc) (mask_select mb plane))
         (mask_select ma (cells a))).

(** [v[a, b, c]] with boolean variables as keys. xarray refuses a boolean
    key whose length differs from the axis it indexes, or that is labelled
    with another dimension, or that is not one-dimensional, and refuses
    three keys on a variable of rank one; all with [IndexError]. *)
Definition getitem3 {A : Type} (v : XrVariable A) (a b c : XrVariable bool)
  : exn + XrVariable A :=
  match v, a, b, c with
  | Var3 (d1, d2, d3) arr, Var1 da ma, Var1 db mb, Var1 dc mc =>
      let '(n1, n2, n3) := shape arr in
      if (length ma =? n1)%nat && bool_decide (da = d1)
         && (length mb =? n2)%nat && bool_decide (db = d2)
         && (length mc =? n3)%nat && bool_decide (dc = d3)
      then inr (Var3 (d1, d2, d3) (select3 ma mb mc arr))
      else inl IndexError
  | _, _, _, _ => inl IndexError
  end.

(** [v[m]] with one boolean variable as key. *)
Definition getitem1 {A : Type} (v : XrVariable A) (m : XrVariable bool)
  : exn + XrVariable A :=
  match v, m with
  | Var1 d l, Var1 dm bits =>
      if (length bits =? length l)%nat && bool_decide (dm = d)
      then inr (Var1 d (mask_select bits l))
      else inl IndexError
  | _, _ => inl IndexError
  end.

(** ** Files, datasets and the world *)

(** What a NetCDF file holds: global attributes, named variables, and
    which of the variables are stored in single precision (the others hold
    doubles, or integers, which compare as doubles do). *)
Record NetCDF : Type := mk_NetCDF {
  nc_attrs : gmap string pyval;
  nc_variables : gmap string (XrVariable Q);
  nc_float32 : gset string
}.

(** [v.dtype] of the variable named [key]. *)
Definition var_dtype (single : gset string) (key : string) : dtype :=
  if bool_decide (key ∈ single) then float32 else float64.

(** A path names nothing, or a file that cannot be opened (no permission, a
    directory, a damaged NetCDF file), or a file that no backend of xarray
    recognises (a text file, say), or a NetCDF file. *)
Inductive file_entry : Type :=
  | Unreadable
  | Unrecognised
  | Readable (nc : NetCDF).

(** The dataset object: its contents and the handle it was opened with. *)
Record Dataset : Type := mk_Dataset {
  handle : nat;
  attrs : gmap string pyval;
  variables : gmap string (XrVariable Q);
  single : gset string
}.

(** The world: the files, the handles handed out and those still open, the
    bytes the machine grants an allocation, and the endings of file names
    that the installed backends of xarray take for theirs ([.nc], [.nc4]
    and [.cdf] with netCDF4 or h5netcdf, [.gz] besides with scipy). *)
Record world : Type := mk_world {
  files : gmap string file_entry;
  next_handle : nat;
  open_handles : gset nat;
  memory : Z;
  suffixes : list string
}.

(** Computations that may raise and that see and change the world. *)
Definition M (A : Type) : Type := world → (exn + A) * world.

Global Instance M_ret : MRet M := λ A x w, (inr x, w).
Global Instance M_bind : MBind M := λ A B f m w,
  match m w with
  | (inl e, w') => (inl e, w')
  | (inr x, w') => f x w'
  end.

Definition lift {A : Type} (x : exn + A) : M A := λ w, (x, w).

(** [os.path.splitext(path)[1]]: the last dot of the last component and
    what follows it, unless only dots precede it there. *)
Fixpoint has_name (rev_path : list Ascii.ascii) : bool :=
  match rev_path with
  | [] => false
  | c :: rest =>
      if bool_decide (c = "/"%char) then false
      else if bool_decide (c = "."%char) then has_name rest
      else true
  end.

Fixpoint splitext_rev (rev_path ext : list Ascii.ascii) : list Ascii.ascii :=
  match rev_path with
  | [] => []
  | c :: rest =>
      if bool_decide (c = "/"%char) then []
      else if bool_decide (c = "."%char) then
        if has_name rest then c :: ext else []
      else splitext_rev rest (c :: ext)
  end.

Definition splitext (path : string) : string :=
  String.string_of_list_ascii
    (splitext_rev (rev (String.list_ascii_of_string path)) []).

(** Whether a backend takes a path by its name alone, which is what xarray
    goes by when there is no file to look into. *)
Definition netcdf_name (w : world) (path : string) : bool :=
  bool_decide (splitext path ∈ suffixes w).

(** [xr.open_dataset(path)], for a local path. With nothing at the path a
    backend that takes the name fails to open it ([FileNotFoundError]) and
    without such a backend xarray gives up ([ValueError]), as it does on a
    file whose first bytes no backend recognises. *)
Definition open_dataset (path : string) : M Dataset := λ w,
  match files w !! path with
  | None =>
      (inl (if netcdf_name w path then FileNotFoundError else ValueError), w)
  | Some Unreadable => (inl OSError, w)
  | Some Unrecognised => (inl ValueError, w)
  | Some (Readable nc) =>
      let h := next_handle w in
      (inr (mk_Dataset h (nc_attrs nc) (nc_variables nc) (nc_float32 nc)),
       mk_world (files w) (S h) ({[h]} ∪ open_handles w) (memory w)
                (suffixes w))
  end.

(** [ds.close()]: releases the handle if it is still held. *)
Definition close (ds : Dataset) : M unit := λ w,
  (inr tt, mk_world (files w) (next_handle w) (open_handles w ∖ {[handle ds]})
                    (memory w) (suffixes w)).

(** [xr.load_dataset(path)]:
    [with open_dataset(path) as ds: return ds.load()]. The variables are in
    memory and the file is closed when the dataset is returned. *)
Definition load_dataset (path : string) : M Dataset :=
  ds ← open_dataset path;
  _ ← close ds;
  mret ds.

(** [np.zeros((n, m))] on this machine. *)
Definition zeros (n m : Z) : M (list (list Q)) := λ w,
  (np_zeros (memory w) n m, w).

(** ** The loader *)

(** The nine values [load_grid_from_netcdf] returns, in the order of its
    [return] statement, and the type that the returned variable [d] brings
    with it. *)
Record GridSlice : Type := mk_GridSlice {
  ret_xch4 : XrVariable Q;
  ret_sdev : XrVariable Q;
  ret_N : XrVariable Q;
  ret_x : ndarray Q;
  ret_y : ndarray Q;
  ret_d : XrVariable Q;
  ret_grid_dim : gmap string pyval;
  ret_product_type : pyval;
  ret_ref_time : pyval;
  ret_d_dtype : dtype
}.

(** [(d >= date_min) & (d <= date_max)], the offsets being Python
    integers. *)
Definition day_mask (dt : dtype) (d : XrVariable Q) (date_min date_max : Z)
  : exn + XrVariable bool :=
  ebind (var_cmp dt Qge_bool d (VPy (inject_Z date_min))) (λ lo,
  ebind (var_cmp dt Qle_bool d (VPy (inject_Z date_max))) (λ hi,
  var_and lo hi)).

Definition load_grid_from_netcdf (d1 m1 y1 d2 m2 y2 : Z) (path : string)
    (grid_dim : option (list pyval)) : M GridSlice :=
  date_min ← lift (days_since_epoch y1 m1 d1);
  date_max ← lift (days_since_epoch y2 m2 d2);
  ds ← load_dataset path;
  product_type ← lift (getitem (attrs ds) "product_type");
  LAT_LOW ← lift (getitem (attrs ds) "lat_low");
  LAT_HIGH ← lift (getitem (attrs ds) "lat_high");
  LON_LOW ← lift (getitem (attrs ds) "lon_low");
  LON_HIGH ← lift (getitem (attrs ds) "lon_high");
  LAT_STEP ← lift (getitem (attrs ds) "lat_res");
  LON_STEP ← lift (getitem (attrs ds) "lon_res");
  latd ← lift (ebind (py_sub LAT_HIGH LAT_LOW) (λ ext,
               ebind (py_div ext LAT_STEP) int_of));
  lond ← lift (ebind (py_sub LON_HIGH LON_LOW) (λ ext,
               ebind (py_div ext LON_STEP) int_of));
  sdev ← zeros latd lond;
  xch4 ← zeros latd lond;
  x ← lift (getitem (variables ds) "lon");
  y ← lift (getitem (variables ds) "lat");
  d ← lift (getitem (variables ds) "day");
  ref_time ← lift (getitem (attrs ds) "reference_time");
  '(lat_min, lat_max, lon_min, lon_max) ←
    match grid_dim with
    | Some g => lift (unpack4 g)
    | None => mret (LAT_LOW, LAT_HIGH, LON_LOW, LON_HIGH)
    end;
  let lat_t := var_dtype (single ds) "lat" in
  let lon_t := var_dtype (single ds) "lon" in
  let day_t := var_dtype (single ds) "day" in
  a ← lift (ebind (var_cmp lat_t Qge_bool y lat_min) (λ lo,
            ebind (var_cmp lat_t Qlt_bool y lat_max) (λ hi, var_and lo hi)));
  b ← lift (ebind (var_cmp lon_t Qge_bool x lon_min) (λ lo,
            ebind (var_cmp lon_t Qlt_bool x lon_max) (λ hi, var_and lo hi)));
  xch4 ← lift (ebind (getitem (variables ds) "xch4") (λ v,
               ebind (day_mask day_t d date_min date_max)
                     (λ c, getitem3 v a b c)));
  sdev ← lift (ebind (getitem (variables ds) "xch4_err") (λ v,
               ebind (day_mask day_t d date_min date_max)
                     (λ c, getitem3 v a b c)));
  N ← lift (ebind (getitem (variables ds) "N") (λ v,
            ebind (day_mask day_t d date_min date_max)
                  (λ c, getitem3 v a b c)));
  d ← lift (ebind (day_mask day_t d date_min date_max) (λ c, getitem1 d c));
  x ← lift (getitem1 x b);
  y ← lift (getitem1 y a);
  _ ← close ds;
  let grid_dim : gmap string pyval :=
    <["LAT_LOW" := lat_min]> (
    <["LAT_HIGH" := lat_max]> (
    <["LON_LOW" := lon_min]> (
    <["LON_HIGH" := lon_max]> (
    <["LAT_STEP" := LAT_STEP]> (
    <["LON_STEP" := LON_STEP]> ∅))))) in
  mret (mk_GridSlice xch4 sdev N (values x) (values y) d grid_dim
                     product_type ref_time day_t).

(** * The notions of the statements

    None of what follows is code of the notebook: these are the notions the
    lemmas relate the loader to. [load_grid_returns_iff] shows that the
    loader returns exactly on the files described by [accepts] and that it
    then returns [slice_of]; [load_grid_raises] shows what it raises
    otherwise. *)

(** ** What a successful load is

    A file that the loader accepts, read off into its parts: the numeric
    attributes, the three coordinate variables, the three gridded
    variables, and the variables stored in single precision. *)
Record file_view : Type := mk_file_view {
  fv_product_type : pyval;
  fv_ref_time : pyval;
  fv_lat_low : Q;
  fv_lat_high : Q;
  fv_lon_low : Q;
  fv_lon_high : Q;
  fv_lat_res : Q;
  fv_lon_res : Q;
  fv_dlat : string;
  fv_dlon : string;
  fv_dday : string;
  fv_lats : list Q;
  fv_lons : list Q;
  fv_days : list Q;
  fv_xch4 : ndarray3 Q;
  fv_xch4_err : ndarray3 Q;
  fv_N : ndarray3 Q;
  fv_float32 : gset string
}.

Definition lat_dtype (fv : file_view) : dtype := var_dtype (fv_float32 fv) "lat".
Definition lon_dtype (fv : file_view) : dtype := var_dtype (fv_float32 fv) "lon".
Definition day_dtype (fv : file_view) : dtype := var_dtype (fv_float32 fv) "day".

Definition fv_dims (fv : file_view) : string * string * string :=
  (fv_dlat fv, fv_dlon fv, fv_dday fv).

Definition fv_shape (fv : file_view) : nat * nat * nat :=
  (length (fv_lats fv), length (fv_lons fv), length (fv_days fv)).

(** The attributes and coordinate variables are there and the arithmetic
    on the declared extent goes through. *)
Record reads (nc : NetCDF) (fv : file_view) : Prop := mk_reads {
  rd_product_type : nc_attrs nc !! "product_type" = Some (fv_product_type fv);
  rd_lat_low : nc_attrs nc !! "lat_low" = Some (VNum (fv_lat_low fv));
  rd_lat_high : nc_attrs nc !! "lat_high" = Some (VNum (fv_lat_high fv));
  rd_lon_low : nc_attrs nc !! "lon_low" = Some (VNum (fv_lon_low fv));
  rd_lon_high : nc_attrs nc !! "lon_high" = Some (VNum (fv_lon_high fv));
  rd_lat_res : nc_attrs nc !! "lat_res" = Some (VNum (fv_lat_res fv));
  rd_lon_res : nc_attrs nc !! "lon_res" = Some (VNum (fv_lon_res fv));
  rd_lat_res_nz : Qeq_bool (fv_lat_res fv) 0 = false;
  rd_lon_res_nz : Qeq_bool (fv_lon_res fv) 0 = false;
  rd_latd :
    0 ≤ py_int ((fv_lat_high fv - fv_lat_low fv) / fv_lat_res fv);
  rd_lond :
    0 ≤ py_int ((fv_lon_high fv - fv_lon_low fv) / fv_lon_res fv);
  rd_lon : nc_variables nc !! "lon" = Some (Var1 (fv_dlon fv) (fv_lons fv));
  rd_lat : nc_variables nc !! "lat" = Some (Var1 (fv_dlat fv) (fv_lats fv));
  rd_day : nc_variables nc !! "day" = Some (Var1 (fv_dday fv) (fv_days fv));
  rd_ref_time : nc_attrs nc !! "reference_time" = Some (fv_ref_time fv);
  rd_float32 : nc_float32 nc = fv_float32 fv
}.

(** Moreover the gridded variables are there, over the dimensions of the
    coordinates and as long as them along each axis. *)
Record accepts (nc : NetCDF) (fv : file_view) : Prop := mk_accepts {
  acc_reads : reads nc fv;
  acc_xch4 : nc_variables nc !! "xch4" = Some (Var3 (fv_dims fv) (fv_xch4 fv));
  acc_xch4_err :
    nc_variables nc !! "xch4_err" = Some (Var3 (fv_dims fv) (fv_xch4_err fv));
  acc_N : nc_variables nc !! "N" = Some (Var3 (fv_dims fv) (fv_N fv));
  acc_xch4_shape : shape (fv_xch4 fv) = fv_shape fv;
  acc_xch4_err_shape : shape (fv_xch4_err fv) = fv_shape fv;
  acc_N_shape : shape (fv_N fv) = fv_shape fv
}.

(** The cells that the attributes declare, and whether [np.zeros] grants
    them on the machine. *)
Definition declared_cells (fv : file_view) : Z * Z :=
  (py_int ((fv_lat_high fv - fv_lat_low fv) / fv_lat_res fv),
   py_int ((fv_lon_high fv - fv_lon_low fv) / fv_lon_res fv)).

Definition allocates (w : world) (fv : file_view) : Prop :=
  ∃ z, np_zeros (memory w) (declared_cells fv).1 (declared_cells fv).2 = inr z.

(** The bounds the selection uses, as they enter the comparisons: the
    caller's four values, each as the operand it makes with the type of the
    coordinate it is compared with, or the extent the file declares. *)
Definition effective_bounds (grid_dim : option (list pyval)) (fv : file_view)
    (b : Q * Q * Q * Q) : Prop :=
  let '(lat_min, lat_max, lon_min, lon_max) := b in
  match grid_dim with
  | Some g =>
      ∃ b1 b2 b3 b4,
        g = [b1; b2; b3; b4]
        ∧ operand (lat_dtype fv) b1 = Some lat_min
        ∧ operand (lat_dtype fv) b2 = Some lat_max
        ∧ operand (lon_dtype fv) b3 = Some lon_min
        ∧ operand (lon_dtype fv) b4 = Some lon_max
  | None =>
      lat_min = fv_lat_low fv ∧ lat_max = fv_lat_high fv
      ∧ lon_min = fv_lon_low fv ∧ lon_max = fv_lon_high fv
  end.

(** The same without a view of the file: the bounds that a call with
    [grid_dim] on the file [nc] compares the coordinates with. *)
Definition bounds_in_force (grid_dim : option (list pyval)) (nc : NetCDF)
    (b : Q * Q * Q * Q) : Prop :=
  let '(lat_min, lat_max, lon_min, lon_max) := b in
  match grid_dim with
  | Some g =>
      ∃ b1 b2 b3 b4,
        g = [b1; b2; b3; b4]
        ∧ operand (var_dtype (nc_float32 nc) "lat") b1 = Some lat_min
        ∧ operand (var_dtype (nc_float32 nc) "lat") b2 = Some lat_max
        ∧ operand (var_dtype (nc_float32 nc) "lon") b3 = Some lon_min
        ∧ operand (var_dtype (nc_float32 nc) "lon") b4 = Some lon_max
  | None =>
      nc_attrs nc !! "lat_low" = Some (VNum lat_min)
      ∧ nc_attrs nc !! "lat_high" = Some (VNum lat_max)
      ∧ nc_attrs nc !! "lon_low" = Some (VNum lon_min)
      ∧ nc_attrs nc !! "lon_high" = Some (VNum lon_max)
  end.

(** The four values that go into the metadata: the caller's as the caller
    gave them, or the declared extent. *)
Definition given_bounds (grid_dim : option (list pyval)) (fv : file_view)
  : pyval * pyval * pyval * pyval :=
  match grid_dim with
  | Some [b1; b2; b3; b4] => (b1, b2, b3, b4)
  | _ => (VNum (fv_lat_low fv), VNum (fv_lat_high fv),
          VNum (fv_lon_low fv), VNum (fv_lon_high fv))
  end.

(** Half-open on the spatial axes, closed on the day axis. *)
Definition in_range (lo hi : Q) (v : Q) : bool := Qge_bool v lo && Qlt_bool v hi.
Definition in_days (date_min date_max : Z) (v : Q) : bool :=
  Qge_bool v (inject_Z date_min) && Qle_bool v (inject_Z date_max).

Definition slice_of (fv : file_view) (date_min date_max : Z)
    (grid_dim : option (list pyval)) (b : Q * Q * Q * Q) : GridSlice :=
  let '(lat_min, lat_max, lon_min, lon_max) := b in
  let given := given_bounds grid_dim fv in
  let ma := map (in_range lat_min lat_max) (fv_lats fv) in
  let mb := map (in_range lon_min lon_max) (fv_lons fv) in
  let mc := map (in_days date_min date_max) (fv_days fv) in
  mk_GridSlice
    (Var3 (fv_dims fv) (select3 ma mb mc (fv_xch4 fv)))
    (Var3 (fv_dims fv) (select3 ma mb mc (fv_xch4_err fv)))
    (Var3 (fv_dims fv) (select3 ma mb mc (fv_N fv)))
    (Arr1 (List.filter (in_range lon_min lon_max) (fv_lons fv)))
    (Arr1 (List.filter (in_range lat_min lat_max) (fv_lats fv)))
    (Var1 (fv_dday fv) (List.filter (in_days date_min date_max) (fv_days fv)))
    (<["LAT_LOW" := given.1.1.1]> (
     <["LAT_HIGH" := given.1.1.2]> (
     <["LON_LOW" := given.1.2]> (
     <["LON_HIGH" := given.2]> (
     <["LAT_STEP" := VNum (fv_lat_res fv)]> (
     <["LON_STEP" := VNum (fv_lon_res fv)]> ∅))))))
    (fv_product_type fv)
    (fv_ref_time fv)
    (day_dtype fv).

(** The world after [xr.load_dataset] returned: one handle was handed out,
    and it is no longer open. The loader changes the world no further,
    whether it then returns or raises. *)
Definition after_load (w : world) : world :=
  mk_world (files w) (S (next_handle w))
           (({[next_handle w]} ∪ open_handles w) ∖ {[next_handle w]})
           (memory w) (suffixes w).


(** ** What a failed load is *)

(** The keys the loader looks up in [ds.attrs] and in [ds.variables]. *)
Definition attr_keys : list string :=
  ["product_type"; "lat_low"; "lat_high"; "lon_low"; "lon_high";
   "lat_res"; "lon_res"; "reference_time"].

Definition var_keys : list string :=
  ["lon"; "lat"; "day"; "xch4"; "xch4_err"; "N"].

(** What the loader can raise once the dataset is loaded: a [KeyError] for
    a key the file lacks, or an error of the arithmetic, of the allocation,
    of the unpacking, of the comparisons or of the indexing. *)
Inductive raises_after_load (nc : NetCDF) : exn → Prop :=
  | rao_attr (k : string) :
      In k attr_keys → nc_attrs nc !! k = None →
      raises_after_load nc (KeyError k)
  | rao_var (k : string) :
      In k var_keys → nc_variables nc !! k = None →
      raises_after_load nc (KeyError k)
  | rao_type : raises_after_load nc TypeError
  | rao_overflow : raises_after_load nc OverflowError
  | rao_value : raises_after_load nc ValueError
  | rao_memory : raises_after_load nc MemoryError
  | rao_index : raises_after_load nc IndexError.


(** The grid that the attributes declare: [latd] and [lond] as the loader
    computes them. *)
Definition declared_grid (nc : NetCDF) : exn + (Z * Z) :=
  ebind (getitem (nc_attrs nc) "lat_low") (λ LAT_LOW,
  ebind (getitem (nc_attrs nc) "lat_high") (λ LAT_HIGH,
  ebind (getitem (nc_attrs nc) "lon_low") (λ LON_LOW,
  ebind (getitem (nc_attrs nc) "lon_high") (λ LON_HIGH,
  ebind (getitem (nc_attrs nc) "lat_res") (λ LAT_STEP,
  ebind (getitem (nc_attrs nc) "lon_res") (λ LON_STEP,
  ebind (ebind (py_sub LAT_HIGH LAT_LOW) (λ ext,
         ebind (py_div ext LAT_STEP) int_of)) (λ latd,
  ebind (ebind (py_sub LON_HIGH LON_LOW) (λ ext,
         ebind (py_div ext LON_STEP) int_of)) (λ lond,
  inr (latd, lond))))))))).


(** ** Sample files

    Files laid out as the notebook's input is: a regular grid of cells
    [step] degrees wide whose coordinates are the lower boundaries of the
    cells, and one day after the other from [day0] on. *)
Definition grid_coords (lo step : Z) (n : nat) : list Q :=
  map (λ i, inject_Z (lo + step * Z.of_nat i)) (seq 0 n).

Definition make_array3 (n1 n2 n3 : nat) (f : nat → nat → nat → Q) : ndarray3 Q :=
  mk_ndarray3 (n1, n2, n3)
    (map (λ i, map (λ j, map (f i j) (seq 0 n3)) (seq 0 n2)) (seq 0 n1)).

Definition grid_file (lat_low : Z) (nlat : nat) (lon_low : Z) (nlon : nat)
    (step : Z) (day0 : Z) (ndays : nat) (cell : nat → nat → nat → Q) : NetCDF :=
  mk_NetCDF
    (<["product_type" := VStr "WFMD"]> (
     <["lat_low" := VNum (inject_Z lat_low)]> (
     <["lat_high" := VNum (inject_Z (lat_low + step * Z.of_nat nlat))]> (
     <["lon_low" := VNum (inject_Z lon_low)]> (
     <["lon_high" := VNum (inject_Z (lon_low + step * Z.of_nat nlon))]> (
     <["lat_res" := VNum (inject_Z step)]> (
     <["lon_res" := VNum (inject_Z step)]> (
     <["reference_time" := VStr "1970-01-01"]> ∅))))))))
    (<["lon" := Var1 "lon" (grid_coords lon_low step nlon)]> (
     <["lat" := Var1 "lat" (grid_coords lat_low step nlat)]> (
     <["day" := Var1 "day" (grid_coords day0 1 ndays)]> (
     <["xch4" := Var3 ("lat", "lon", "day") (make_array3 nlat nlon ndays cell)]> (
     <["xch4_err" := Var3 ("lat", "lon", "day")
                       (make_array3 nlat nlon ndays (λ _ _ _, 10%Q))]> (
     <["N" := Var3 ("lat", "lon", "day")
                (make_array3 nlat nlon ndays (λ _ _ _, 5%Q))]> ∅))))))
    ∅.

(** The cell at indices [(i, j, k)] holds [10000 i + 100 j + k]. *)
Definition index_cell (i j k : nat) : Q :=
  inject_Z (10000 * Z.of_nat i + 100 * Z.of_nat j + Z.of_nat k).

(** A small file: latitudes [-4, -2, 0, 2], longitudes [-6 .. 4], the five
    days from 2018-01-01 on. *)
Definition small_file : NetCDF := grid_file (-4) 4 (-6) 6 2 17532 5 index_cell.


(** The small file without its [lat_res] attribute, and without its
    [xch4_err] variable. *)
Definition no_res_file : NetCDF :=
  mk_NetCDF (delete "lat_res" (nc_attrs small_file)) (nc_variables small_file)
            ∅.

Definition no_err_file : NetCDF :=
  mk_NetCDF (nc_attrs small_file) (delete "xch4_err" (nc_variables small_file))
            ∅.

(** The small file declaring the global extent: 90 by 180 cells of two
    degrees, over arrays of 4 by 6 cells. *)
Definition skewed_file : NetCDF :=
  mk_NetCDF
    (<["lat_low" := VNum (-90)]> (<["lat_high" := VNum 90]> (
     <["lon_low" := VNum (-180)]> (<["lon_high" := VNum 180]> (
     nc_attrs small_file)))))
    (nc_variables small_file)
    ∅.

(** The small file with an [xch4] of four days under a day coordinate of
    five. *)
Definition short_file : NetCDF :=
  mk_NetCDF (nc_attrs small_file)
    (<["xch4" := Var3 ("lat", "lon", "day") (make_array3 4 6 4 index_cell)]>
       (nc_variables small_file))
    ∅.

(** The sample worlds: no handle handed out yet, and a gigabyte for an
    allocation. *)
Definition netcdf_suffixes : list string := [".nc"; ".nc4"; ".cdf"].

Definition small_world : world :=
  mk_world (<["small.nc" := Readable small_file]> ∅) 0 ∅ 1073741824
           netcdf_suffixes.

(** [notes.txt] is a text file; [locked.nc] cannot be opened; scipy is
    installed. *)
Definition broken_world : world :=
  mk_world (<["no_res.nc" := Readable no_res_file]> (
            <["no_err.nc" := Readable no_err_file]> (
            <["skewed.nc" := Readable skewed_file]> (
            <["short.nc" := Readable short_file]> (
            <["notes.txt" := Unrecognised]> (
            <["locked.nc" := Unreadable]> ∅)))))) 0 ∅ 1073741824
           (netcdf_suffixes ++ [".gz"]).

(** The global 2 x 2 degree file: 90 latitude bins from -90, 180 longitude
    bins from -180, the days 17532 to 17600. *)
Definition global_file : NetCDF :=
  grid_file (-90) 90 (-180) 180 2 17532 69 (λ _ _ _, 1800%Q).

Definition global_world : world :=
  mk_world (<["global_2x2.nc" := Readable global_file]> ∅) 0 ∅ 1073741824
           netcdf_suffixes.

(** * The notebook's cells around the loader *)

(** ** The cell "Load data"

    The cell computes the offsets of the time series, calls the loader with
    the area of the settings, and blanks with [np.nan] the cells of [vmr]
    and [sdev] on the days outside the dates the data shall be used for.
    The settings the cell reads from the globals are its arguments here. *)

(** A float: a finite number or NaN. *)
Definition float : Type := option Q.
Definition nan : float := None.

Definition Qgt_bool (x y : Q) : bool := negb (Qle_bool x y).

(** [m1 | m2], with [var_and]'s restriction to masks of one variable. *)
Definition var_or (m1 m2 : XrVariable bool) : exn + XrVariable bool :=
  match m1, m2 with
  | Var1 d1 l1, Var1 d2 l2 =>
      if bool_decide (d1 = d2) && (length l1 =? length l2)%nat
      then inr (Var1 d1 (zip_with orb l1 l2))
      else inl ValueError
  | Var3 ds1 a1, Var3 ds2 a2 =>
      if bool_decide (ds1 = ds2) && bool_decide (shape a1 = shape a2)
      then inr (Var3 ds1 (mk_ndarray3 (shape a1)
                  (zip_with (zip_with (zip_with orb)) (cells a1) (cells a2))))
      else inl ValueError
  | _, _ => inl ValueError
  end.

(** Assignment under a mask along one axis: the entries whose mask is set
    become [x]. *)
Fixpoint mask_assign {A : Type} (m : list bool) (x : A) (l : list A) : list A :=
  match m, l with
  | b :: m', y :: l' => (if b then x else y) :: mask_assign m' x l'
  | _, _ => l
  end.

(** [v[:, :, idx] = x] with a boolean variable as the third key; the key is
    checked as in [getitem3]. *)
Definition setitem_last {A : Type} (v : XrVariable A) (idx : XrVariable bool)
    (x : A) : exn + XrVariable A :=
  match v, idx with
  | Var3 (d1, d2, d3) arr, Var1 di bits =>
      let '(n1, n2, n3) := shape arr in
      if (length bits =? n3)%nat && bool_decide (di = d3)
      then inr (Var3 (d1, d2, d3)
                  (mk_ndarray3 (shape arr)
                     (map (map (mask_assign bits x)) (cells arr))))
      else inl IndexError
  | _, _ => inl IndexError
  end.

(** The globals the cell leaves behind. *)
Record LoadedData : Type := mk_LoadedData {
  ld_date_min : Z;
  ld_date_max : Z;
  ld_vmr : XrVariable float;
  ld_sdev : XrVariable float;
  ld_N : XrVariable Q;
  ld_lons : ndarray Q;
  ld_lats : ndarray Q;
  ld_d : XrVariable Q;
  ld_grid_dim : gmap string pyval;
  ld_product_type : pyval;
  ld_ref_time : pyval;
  ld_data_min : Z;
  ld_data_max : Z
}.

Definition load_data_cell (d1 m1 y1 d2 m2 y2 dd1 md1 yd1 dd2 md2 yd2 : Z)
    (path_in : string) (grid : option (list pyval)) : M LoadedData :=
  date_min ← lift (days_since_epoch y1 m1 d1);
  date_max ← lift (days_since_epoch y2 m2 d2);
  g ← load_grid_from_netcdf d1 m1 y1 d2 m2 y2 path_in grid;
  let vmr : XrVariable float := var_map Some (ret_xch4 g) in
  let sdev : XrVariable float := var_map Some (ret_sdev g) in
  let N := ret_N g in
  let lons := ret_x g in
  let lats := ret_y g in
  let d := ret_d g in
  let grid_dim := ret_grid_dim g in
  let product_type := ret_product_type g in
  let ref_time := ret_ref_time g in
  data_min ← lift (days_since_epoch yd1 md1 dd1);
  data_max ← lift (days_since_epoch yd2 md2 dd2);
  let day_t := ret_d_dtype g in
  _idx ← lift (ebind (var_cmp day_t Qlt_bool d (VPy (inject_Z data_min))) (λ lo,
               ebind (var_cmp day_t Qgt_bool d (VPy (inject_Z data_max))) (λ hi,
               var_or lo hi)));
  vmr ← lift (setitem_last vmr _idx nan);
  sdev ← lift (setitem_last sdev _idx nan);
  mret (mk_LoadedData date_min date_max vmr sdev N lons lats d grid_dim
                      product_type ref_time data_min data_max).

(** ** The cell that plots the temporal inhomogeneity

    What the cell computes before it draws: the six entries it reads back
    from [grid_dim], the edges of the cells along both axes, and the mesh
    of the edges. The calls into matplotlib, which do not enter these
    values, are left out. Both branches of the cell compute the same. *)

(** [a + b] *)
Definition py_add (a : Q) (b : pyval) : exn + Q :=
  match b with
  | VNum y | VPy y => inr (a + y)%Q
  | VStr _ => inl TypeError
  end.

(** [l[-1]] *)
Definition last_item {A : Type} (l : list A) : exn + A :=
  match last l with
  | Some x => inr x
  | None => inl IndexError
  end.

(** [np.meshgrid(x, y)]: two arrays of [len(y)] rows and [len(x)] columns,
    the first repeating [x] along the rows, the second [y] along the
    columns. *)
Definition meshgrid {A : Type} (x y : list A) : list (list A) * list (list A) :=
  (map (λ _, x) y, map (λ yi, map (λ _, yi) x) y).

Record PlotMesh : Type := mk_PlotMesh {
  pm_X2 : list Q;
  pm_Y2 : list Q;
  pm_XX : list (list Q);
  pm_YY : list (list Q)
}.

Definition inhomogeneity_plot_mesh (lats lons : list Q)
    (grid_dim : gmap string pyval) : exn + PlotMesh :=
  ebind (getitem grid_dim "LAT_LOW") (λ LAT_LOW,
  ebind (getitem grid_dim "LAT_HIGH") (λ LAT_HIGH,
  ebind (getitem grid_dim "LON_LOW") (λ LON_LOW,
  ebind (getitem grid_dim "LON_HIGH") (λ LON_HIGH,
  ebind (getitem grid_dim "LAT_STEP") (λ LAT_STEP,
  ebind (getitem grid_dim "LON_STEP") (λ LON_STEP,
  let X2 := lats in
  ebind (ebind (last_item X2) (λ e, py_add e LON_STEP)) (λ e,
  let X2 := X2 ++ [e] in
  let Y2 := lons in
  ebind (ebind (last_item Y2) (λ e, py_add e LAT_STEP)) (λ e,
  let Y2 := Y2 ++ [e] in
  let '(XX, YY) := meshgrid Y2 X2 in
  inr (mk_PlotMesh X2 Y2 XX YY))))))))).

(** * More notions of the statements *)

(** [np.nonzero(m)]: the positions of the entries of a mask that are set. *)
Fixpoint nonzero_from (i : nat) (m : list bool) : list nat :=
  match m with
  | [] => []
  | b :: m' => if b then i :: nonzero_from (S i) m' else nonzero_from (S i) m'
  end.

Definition nonzero (m : list bool) : list nat := nonzero_from 0 m.

(** [a[i, j, k]], when the position exists. *)
Definition cell_at {A : Type} (a : ndarray3 A) (i j k : nat) : option A :=
  plane ← cells a !! i; row ← plane !! j; row !! k.

(** The array of a variable of rank three. *)
Definition var_cell {A : Type} (v : XrVariable A) (i j k : nat) : option A :=
  match v with
  | Var1 _ _ => None
  | Var3 _ a => cell_at a i j k
  end.

(** The calendar day after a date. *)
Definition next_day (y m d : Z) : Z * Z * Z :=
  if d <? Datetime.days_in_month y m then (y, m, d + 1)
  else if m <? 12 then (y, m + 1, 1)
  else (y + 1, 1, 1).

(** A day is outside the dates the data shall be used for. *)
Definition outside_days (data_min data_max : Z) (v : Q) : bool :=
  Qlt_bool v (inject_Z data_min) || Qgt_bool v (inject_Z data_max).

(** What [v[:, :, idx] = np.nan] makes of a variable of finite numbers. *)
Definition blanked (bits : list bool) (v : XrVariable Q) : XrVariable float :=
  match v with
  | Var1 d l => Var1 d (map Some l)
  | Var3 ds a =>
      Var3 ds (mk_ndarray3 (shape a)
                 (map (map (mask_assign bits nan))
                      (map (map (map Some)) (cells a))))
  end.

(** ** More sample files *)

(** The small file with its days out of order and with gaps. *)
Definition shuffled_file : NetCDF :=
  mk_NetCDF (nc_attrs small_file)
    (<["day" := Var1 "day" [17536; 17532; 17534; 17540; 17533]%Q]>
       (nc_variables small_file))
    ∅.

(** The small file with a zero latitude step, and with its latitude
    bounds the wrong way round. *)
Definition zero_step_file : NetCDF :=
  mk_NetCDF (<["lat_res" := VNum 0]> (nc_attrs small_file))
            (nc_variables small_file) ∅.

Definition reversed_file : NetCDF :=
  mk_NetCDF
    (<["lat_low" := VNum 4]> (<["lat_high" := VNum (-4)]> (nc_attrs small_file)))
    (nc_variables small_file)
    ∅.

Definition odd_world : world :=
  mk_world (<["shuffled.nc" := Readable shuffled_file]> (
            <["zero_step.nc" := Readable zero_step_file]> (
            <["reversed.nc" := Readable reversed_file]> ∅))) 0 ∅ 1073741824
           netcdf_suffixes.



(** A file whose coordinates are stored in single precision: the
    latitudes are the float32 next to 0.7, then 1.5, 2 and 4.5. *)
Definition single_0_7 : Q := 11744051 # 16777216.

Definition single_file : NetCDF :=
  mk_NetCDF
    (<["product_type" := VStr "WFMD"]> (
     <["lat_low" := VNum 0]> (<["lat_high" := VNum 5]> (
     <["lon_low" := VNum 0]> (<["lon_high" := VNum 3]> (
     <["lat_res" := VNum 1]> (<["lon_res" := VNum 1]> (
     <["reference_time" := VStr "1970-01-01"]> ∅))))))))
    (<["lon" := Var1 "lon" [0; 1; 2]%Q]> (
     <["lat" := Var1 "lat" [single_0_7; 3 # 2; 2; 9 # 2]%Q]> (
     <["day" := Var1 "day" (grid_coords 17532 1 5)]> (
     <["xch4" := Var3 ("lat", "lon", "day") (make_array3 4 3 5 index_cell)]> (
     <["xch4_err" := Var3 ("lat", "lon", "day")
                       (make_array3 4 3 5 (λ _ _ _, 10%Q))]> (
     <["N" := Var3 ("lat", "lon", "day")
                (make_array3 4 3 5 (λ _ _ _, 5%Q))]> ∅))))))
    {["lat"; "lon"]}.

(** The double that the Python literal [0.7] denotes. *)
Definition double_0_7 : Q := 3152519739159347 # 4503599627370496.

(** A file that declares seven cells of two degrees from -2 on both axes
    and whose coordinates are the centres of the cells, not their lower
    boundaries. *)
Definition centre_file : NetCDF :=
  let g := grid_file (-2) 7 (-2) 7 2 17532 5 index_cell in
  mk_NetCDF (nc_attrs g)
    (<["lat" := Var1 "lat" (grid_coords (-1) 2 7)]> (
     <["lon" := Var1 "lon" (grid_coords (-1) 2 7)]> (nc_variables g)))
    ∅.

(** The small file declaring cells of a billionth of a degree (eight by
    twelve thousand million of them), and of a ten-thousandth. *)
Definition huge_file : NetCDF :=
  mk_NetCDF
    (<["lat_res" := VNum (1 # 1000000000)]> (
     <["lon_res" := VNum (1 # 1000000000)]> (nc_attrs small_file)))
    (nc_variables small_file) ∅.

Definition large_file : NetCDF :=
  mk_NetCDF
    (<["lat_res" := VNum (1 # 10000)]> (
     <["lon_res" := VNum (1 # 10000)]> (nc_attrs small_file)))
    (nc_variables small_file) ∅.

Definition varied_world : world :=
  mk_world (<["single.nc" := Readable single_file]> (
            <["centres.nc" := Readable centre_file]> (
            <["huge.nc" := Readable huge_file]> (
            <["large.nc" := Readable large_file]> ∅)))) 0 ∅ 1073741824
           netcdf_suffixes.

(** * Properties *)

Example epoch_ordinal : Datetime.datetime 1970 1 1 = inr 719163.
Proof. reflexivity. Qed.

Example offset_2018_01_01 : days_since_epoch 2018 1 1 = inr 17532.
Proof. reflexivity. Qed.

Example offset_2018_03_10 : days_since_epoch 2018 3 10 = inr 17600.
Proof. reflexivity. Qed.

Example offset_bad_day : days_since_epoch 2018 2 30 = inl ValueError.
Proof. reflexivity. Qed.

Example offset_no_int : days_since_epoch 2147483648 1 1 = inl OverflowError.
Proof. reflexivity. Qed.

Example leap_day_2020 : days_since_epoch 2020 2 29 = inr 18321.
Proof. reflexivity. Qed.

Example int_of_quotients :
  ebind (py_div 8 (VNum 0)) int_of = inl OverflowError
  ∧ ebind (py_div 0 (VNum 0)) int_of = inl ValueError
  ∧ ebind (py_div 8 (VNum 2)) int_of = inr 4.
Proof. split_and!; reflexivity. Qed.

Example zeros_refused :
  np_zeros 1073741824 8000000000 12000000000 = inl ValueError
  ∧ np_zeros 1073741824 80000 120000 = inl MemoryError
  ∧ np_zeros 1073741824 (-1) 3 = inl ValueError
  ∧ np_zeros 1073741824 0 9223372036854775807 = inl ValueError
  ∧ np_zeros 1073741824 2 2 = inr [[0; 0]; [0; 0]]%Q.
Proof. split_and!; reflexivity. Qed.

Example extensions :
  splitext "data/WFMD_2x2.nc" = ".nc" ∧ splitext "notes.txt" = ".txt"
  ∧ splitext "data.v1/grid" = "" ∧ splitext ".nc" = "".
Proof. split_and!; reflexivity. Qed.

Example int_truncates : py_int (-7 # 2) = -3 ∧ py_int (7 # 2) = 3.
Proof. split; reflexivity. Qed.

Example mask_select_keeps :
  mask_select [true; false; true; true] [10; 20; 30; 40] = [10; 30; 40].
Proof. reflexivity. Qed.

Example unpack_three : unpack4 [1; 2; 3] = inl ValueError.
Proof. reflexivity. Qed.

Example select3_outer :
  select3 [false; true] [true; true] [true; false; true]
    (mk_ndarray3 (2, 2, 3)%nat
       [[[1; 2; 3]; [4; 5; 6]]; [[7; 8; 9]; [10; 11; 12]]])
  = mk_ndarray3 (1, 2, 2)%nat [[[7; 9]; [10; 12]]].
Proof. reflexivity. Qed.

Example getitem3_wrong_length :
  getitem3 (Var3 ("lat", "lon", "day")
              (mk_ndarray3 (1, 1, 2)%nat [[[1; 2]]]))
           (Var1 "lat" [true]) (Var1 "lon" [true]) (Var1 "day" [true])
  = inl IndexError.
Proof. reflexivity. Qed.

Example getitem3_wrong_dimension :
  getitem3 (Var3 ("day", "lat", "lon")
              (mk_ndarray3 (1, 1, 1)%nat [[[1]]]))
           (Var1 "lat" [true]) (Var1 "lon" [true]) (Var1 "day" [true])
  = inl IndexError.
Proof. reflexivity. Qed.


(** ** Lists, masks and arrays *)

Lemma zip_with_andb_map {A : Type} (p q : A → bool) (l : list A) :
  zip_with andb (map p l) (map q l) = map (λ x, p x && q x) l.
Proof. induction l as [|x l IH]; simpl; [done | by rewrite IH]. Qed.

Lemma mask_select_map {A : Type} (p : A → bool) (l : list A) :
  mask_select (map p l) l = List.filter p l.
Proof.
  induction l as [|x l IH]; simpl; [done |].
  destruct (p x); by rewrite IH.
Qed.



Lemma count_true_map {A : Type} (p : A → bool) (l : list A) :
  count_true (map p l) = length (List.filter p l).
Proof.
  induction l as [|x l IH]; simpl; [done |].
  destruct (p x); simpl; by rewrite IH.
Qed.


(** ** The fallible steps, inverted *)

Lemma getitem_inr {V : Type} (d : gmap string V) (key : string) (v : V) :
  getitem d key = inr v ↔ d !! key = Some v.
Proof. unfold getitem. destruct (d !! key); naive_solver. Qed.

Lemma getitem_inl {V : Type} (d : gmap string V) (key : string) (e : exn) :
  getitem d key = inl e ↔ d !! key = None ∧ e = KeyError key.
Proof. unfold getitem. destruct (d !! key); naive_solver. Qed.

(** [int((hi - lo) / step)] *)
Lemma grid_size_inr (hi lo step : pyval) (n : Z) :
  ebind (py_sub hi lo) (λ ext, ebind (py_div ext step) int_of) = inr n ↔
  ∃ h l s, hi = VNum h ∧ lo = VNum l ∧ step = VNum s
           ∧ Qeq_bool s 0 = false ∧ n = py_int ((h - l) / s).
Proof.
  split.
  - destruct hi as [s1|h|h], lo as [s2|l|l], step as [s3|s|s]; simpl;
      try done.
    destruct (Qeq_bool s 0) eqn:Hs; simpl.
    { by destruct (Qeq_bool (h - l) 0). }
    intros [= <-]. by exists h, l, s.
  - intros (h & l & s & -> & -> & -> & Hs & ->). simpl. by rewrite Hs.
Qed.

(** [np.zeros] grants what is not negative, not beyond [intp] and within
    the memory. *)
Lemma np_zeros_inr (memory n m : Z) :
  (∃ z, np_zeros memory n m = inr z) ↔
  0 ≤ n ∧ 0 ≤ m ∧ 8 * Z.max n 1 * Z.max m 1 ≤ NPY_MAX_INTP
  ∧ 8 * n * m ≤ memory.
Proof.
  unfold np_zeros.
  destruct (n <? 0) eqn:Hn, (m <? 0) eqn:Hm,
    (NPY_MAX_INTP <? 8 * Z.max n 1 * Z.max m 1) eqn:Hbig,
    (memory <? 8 * n * m) eqn:Hmem; simpl;
    rewrite ?Z.ltb_lt, ?Z.ltb_ge in *;
    (split; [intros [z Hz]; try discriminate Hz; lia
            | intros ?; try lia; eauto]).
Qed.

Lemma var_and_map {A : Type} (p q : A → bool) (v : XrVariable A) :
  var_and (var_map p v) (var_map q v) = inr (var_map (λ e, p e && q e) v).
Proof.
  destruct v as [d l | ds a]; simpl.
  - rewrite bool_decide_eq_true_2, !length_map, Nat.eqb_refl by done. simpl.
    by rewrite zip_with_andb_map.
  - rewrite !bool_decide_eq_true_2 by done. simpl. do 3 f_equal.
    induction (cells a) as [|plane cs IH]; simpl; [done |]. f_equal; [| done].
    clear IH. induction plane as [|row plane IH]; simpl; [done |].
    f_equal; [| done]. apply zip_with_andb_map.
Qed.

(** [(v op1 c1) & (v op2 c2)] *)
Lemma mask_inr (dt : dtype) (op1 op2 : Q → Q → bool) (v : XrVariable Q)
    (c1 c2 : pyval) (m : XrVariable bool) :
  ebind (var_cmp dt op1 v c1)
        (λ lo, ebind (var_cmp dt op2 v c2) (λ hi, var_and lo hi))
    = inr m ↔
  ∃ q1 q2, operand dt c1 = Some q1 ∧ operand dt c2 = Some q2
           ∧ m = var_map (λ e, op1 e q1 && op2 e q2) v.
Proof.
  unfold var_cmp.
  destruct (operand dt c1) as [q1|], (operand dt c2) as [q2|]; simpl;
    try naive_solver.
  rewrite var_and_map. naive_solver.
Qed.

Lemma getitem3_inr {A : Type} (v : XrVariable A) (a b c : XrVariable bool)
    (r : XrVariable A) :
  getitem3 v a b c = inr r ↔
  ∃ d1 d2 d3 arr ma mb mc,
    v = Var3 (d1, d2, d3) arr ∧ a = Var1 d1 ma ∧ b = Var1 d2 mb ∧ c = Var1 d3 mc
    ∧ shape arr = (length ma, length mb, length mc)
    ∧ r = Var3 (d1, d2, d3) (select3 ma mb mc arr).
Proof.
  split.
  - destruct v as [|[[d1 d2] d3] arr]; [done |].
    destruct a as [da ma|]; [| done]. destruct b as [db mb|]; [| done].
    destruct c as [dc mc|]; [| done]. simpl.
    destruct (shape arr) as [[n1 n2] n3] eqn:Hshape.
    case_match eqn:Hok; [| done]. intros [= <-].
    repeat (apply andb_prop in Hok as [Hok ?]).
    repeat match goal with
           | H : bool_decide _ = true |- _ => apply bool_decide_eq_true_1 in H
           | H : (_ =? _)%nat = true |- _ => apply Nat.eqb_eq in H
           end. subst.
    by exists d1, d2, d3, arr, ma, mb, mc.
  - intros (d1 & d2 & d3 & arr & ma & mb & mc & -> & -> & -> & -> & Hs & ->).
    simpl. rewrite Hs, !Nat.eqb_refl, !bool_decide_eq_true_2 by done. done.
Qed.

Lemma getitem1_map {A : Type} (d : string) (l : list A) (p : A → bool) :
  getitem1 (Var1 d l) (Var1 d (map p l)) = inr (Var1 d (List.filter p l)).
Proof.
  simpl. rewrite length_map, Nat.eqb_refl, bool_decide_eq_true_2 by done.
  simpl. by rewrite mask_select_map.
Qed.

(** ** Single precision *)

Example float32_of_0_7 : to_float32 (7 # 10) = (11744051 # 16777216)%Q.
Proof. reflexivity. Qed.

Example float32_ties_to_even :
  to_float32 16777217 = 16777216%Q ∧ to_float32 16777219 = 16777220%Q.
Proof. split; reflexivity. Qed.

Example float32_subnormal :
  (to_float32 (3 * pow2 (-150)) == pow2 (-148))%Q
  ∧ (to_float32 (pow2 (-150)) == 0)%Q.
Proof. split; reflexivity. Qed.

#[global] Instance round_half_even_proper : Proper (Qeq ==> eq) round_half_even.
Proof.
  intros x y Hxy. unfold round_half_even.
  rewrite (Qfloor_comp _ _ Hxy).
  by rewrite (Qcompare_comp _ _ (Qminus_comp _ _ Hxy _ _ (Qeq_refl _))
                _ _ (Qeq_refl (1 # 2))).
Qed.

Lemma round_half_even_Z (z : Z) : round_half_even (inject_Z z) = z.
Proof.
  unfold round_half_even. rewrite Qfloor_Z.
  assert ((inject_Z z - inject_Z z ?= 1 # 2)%Q = Lt) as ->; [| done].
  apply Qlt_alt.
  assert ((inject_Z z - inject_Z z == 0)%Q) as -> by ring. reflexivity.
Qed.

Lemma pow2_nonneg (k : Z) : 0 ≤ k → (pow2 k == inject_Z (2 ^ k))%Q.
Proof. intros Hk. unfold pow2. by rewrite Zpower_Qpower. Qed.

Lemma pow2_opp (k : Z) : 0 ≤ k → (pow2 (- k) == / inject_Z (2 ^ k))%Q.
Proof.
  intros Hk. unfold pow2. by rewrite Qpower_opp, Zpower_Qpower.
Qed.

Lemma float32_exponent_Z (a : Z) :
  0 < a → float32_exponent (inject_Z a) = Z.max (-149) (Z.log2 a - 23).
Proof.
  intros Ha. unfold float32_exponent. cbn [Qnum Qden inject_Z].
  change (Z.log2 (Z.pos 1)) with 0.
  replace (Z.log2 a - 0 - 24 + 24) with (Z.log2 a) by lia.
  pose proof (Z.log2_nonneg a) as Hla.
  destruct (Z.log2_spec a Ha) as [Hlo _].
  assert (Qlt_bool (inject_Z a) (pow2 (Z.log2 a)) = false) as ->.
  { unfold Qlt_bool. apply negb_false_iff, Qle_bool_iff.
    rewrite pow2_nonneg by done. by rewrite <- Zle_Qle. }
  f_equal. lia.
Qed.

(** An integer of at most 24 bits is a float32. *)
Lemma to_float32_Z (n : Z) :
  Z.abs n < 2 ^ 24 → (to_float32 (inject_Z n) == inject_Z n)%Q.
Proof.
  intros Hn. unfold to_float32.
  destruct (Qeq_bool (inject_Z n) 0) eqn:Hzero; [reflexivity |].
  assert (n ≠ 0) as Hn0.
  { intros ->. by vm_compute in Hzero. }
  change (Qabs (inject_Z n)) with (inject_Z (Z.abs n)).
  set (a := Z.abs n) in *.
  assert (0 < a) as Ha by (unfold a; lia).
  rewrite float32_exponent_Z by done.
  assert (Z.log2 a < 24) as Hla by (by apply Z.log2_lt_pow2).
  pose proof (Z.log2_nonneg a) as Hla0.
  set (k := 23 - Z.log2 a).
  replace (Z.max (-149) (Z.log2 a - 23)) with (- k) by (unfold k; lia).
  assert (0 ≤ k) as Hk by (unfold k; lia).
  assert (0 < 2 ^ k) as Hpos by (by apply Z.pow_pos_nonneg).
  assert (¬ (inject_Z (2 ^ k) == 0)%Q) as Hnz.
  { intros Heq. unfold Qeq in Heq. simpl in Heq. lia. }
  assert ((inject_Z a / pow2 (- k) == inject_Z (a * 2 ^ k))%Q) as Hscaled.
  { rewrite pow2_opp by done. unfold Qdiv.
    by rewrite Qinv_involutive, inject_Z_mult. }
  assert ((inject_Z (round_half_even (inject_Z a / pow2 (- k))) * pow2 (- k)
           == inject_Z a)%Q) as Hback.
  { rewrite Hscaled, round_half_even_Z.
    rewrite pow2_opp, inject_Z_mult by done.
    rewrite <- Qmult_assoc, Qmult_inv_r by done. ring. }
  destruct (Qle_bool (pow2 128) _); [reflexivity |].
  destruct (Qle_bool 0 (inject_Z n)) eqn:Hsign.
  - rewrite Hback. apply Qle_bool_iff in Hsign.
    change 0%Q with (inject_Z 0) in Hsign. rewrite <- Zle_Qle in Hsign.
    unfold a. by rewrite Z.abs_eq.
  - rewrite Hback.
    assert (n < 0) as Hneg.
    { destruct (Z.lt_ge_cases n 0) as [? | Hge]; [done |].
      rewrite Zle_Qle in Hge. apply Qle_bool_iff in Hge.
      change (inject_Z 0) with 0%Q in Hge. congruence. }
    unfold a. rewrite Z.abs_neq by lia.
    rewrite inject_Z_opp. ring.
Qed.

Lemma cast_Z (dt : dtype) (n : Z) :
  Z.abs n < 2 ^ 24 → (cast dt (inject_Z n) == inject_Z n)%Q.
Proof. destruct dt; simpl; [apply to_float32_Z | reflexivity]. Qed.

(** Numbers of one value compare alike. *)
Lemma Qle_bool_proper_l (x y z : Q) : (x == y)%Q → Qle_bool x z = Qle_bool y z.
Proof. intros Hxy. by rewrite Hxy. Qed.

Lemma Qle_bool_proper_r (x y z : Q) : (x == y)%Q → Qle_bool z x = Qle_bool z y.
Proof. intros Hxy. by rewrite Hxy. Qed.

Lemma var_map_ext {A B : Type} (f g : A → B) (v : XrVariable A) :
  (∀ x, f x = g x) → var_map f v = var_map g v.
Proof.
  intros Hfg. destruct v as [d l | ds a]; simpl; f_equal.
  - by apply map_ext.
  - f_equal. apply map_ext. intros plane. apply map_ext. intros row.
    by apply map_ext.
Qed.

(** ** The day mask

    The offsets are Python integers, converted to the type of the day
    coordinate; integers of their size are kept by the conversion, so the
    mask is the same for a day coordinate in single precision. *)
Lemma day_operand (dt : dtype) (n : Z) :
  Z.abs n < 2 ^ 24 →
  ∃ q, operand dt (VPy (inject_Z n)) = Some q ∧ (q == inject_Z n)%Q.
Proof. intros Hn. eexists. split; [reflexivity |]. by apply cast_Z. Qed.

Lemma day_mask_eq (dt : dtype) (d : XrVariable Q) (date_min date_max : Z) :
  Z.abs date_min < 2 ^ 24 → Z.abs date_max < 2 ^ 24 →
  day_mask dt d date_min date_max
  = inr (var_map (λ e, Qge_bool e (inject_Z date_min)
                       && Qle_bool e (inject_Z date_max)) d).
Proof.
  intros Hmin%(cast_Z dt) Hmax%(cast_Z dt).
  unfold day_mask, var_cmp. simpl. rewrite var_and_map. f_equal.
  apply var_map_ext. intros e. unfold Qge_bool.
  by rewrite (Qle_bool_proper_l _ _ _ Hmin), (Qle_bool_proper_r _ _ _ Hmax).
Qed.

(** ** Dates and their offsets *)

Module DatetimeFacts.
Import Datetime.

Lemma month_cases (m : Z) :
  1 ≤ m ≤ 12 →
  m = 1 ∨ m = 2 ∨ m = 3 ∨ m = 4 ∨ m = 5 ∨ m = 6
  ∨ m = 7 ∨ m = 8 ∨ m = 9 ∨ m = 10 ∨ m = 11 ∨ m = 12.
Proof. lia. Qed.

Lemma check_date_fields_spec (y m d : Z) :
  check_date_fields y m d = true ↔
  MINYEAR ≤ y ≤ MAXYEAR ∧ 1 ≤ m ≤ 12 ∧ 1 ≤ d ≤ days_in_month y m.
Proof. unfold check_date_fields. rewrite !andb_true_iff, !Z.leb_le. tauto. Qed.

(** A year is 365 or 366 days long. *)
Lemma days_before_next_year (y : Z) :
  days_before_year (y + 1) = days_before_year y + 365 + leap_day y.
Proof.
  unfold days_before_year, leap_day, is_leap.
  replace (y + 1 - 1) with y by lia.
  destruct (y mod 4 =? 0) eqn:H4, (y mod 100 =? 0) eqn:H100,
    (y mod 400 =? 0) eqn:H400; simpl;
    rewrite ?Z.eqb_eq, ?Z.eqb_neq in *;
    Z.div_mod_to_equations; lia.
Qed.

Lemma days_before_year_mono (y1 y2 : Z) :
  y1 ≤ y2 → days_before_year y1 ≤ days_before_year y2.
Proof.
  intros Hle. unfold days_before_year. Z.div_mod_to_equations. lia.
Qed.

(** Within its year a valid date is day 1 to 365, or 366 in a leap year. *)
Lemma day_of_year_bounds (y m d : Z) :
  1 ≤ m ≤ 12 → 1 ≤ d ≤ days_in_month y m →
  1 ≤ days_before_month y m + d ≤ 365 + leap_day y.
Proof.
  intros Hm%month_cases. unfold days_in_month, days_before_month, leap_day.
  repeat destruct Hm as [-> | Hm]; try subst m;
    destruct (is_leap y); simpl; lia.
Qed.

(** The days before a later month include the whole of an earlier one. *)
Lemma days_before_later_month (y m1 m2 : Z) :
  1 ≤ m1 ≤ 12 → 1 ≤ m2 ≤ 12 → m1 < m2 →
  days_before_month y m1 + days_in_month y m1 ≤ days_before_month y m2.
Proof.
  intros Hm1%month_cases Hm2%month_cases.
  unfold days_in_month, days_before_month.
  repeat destruct Hm1 as [-> | Hm1]; try subst m1;
    repeat destruct Hm2 as [-> | Hm2]; try subst m2;
    try lia; destruct (is_leap y); simpl; lia.
Qed.

(** The ordinal grows with the date. *)
Lemma ymd2ord_lt (y1 m1 d1 y2 m2 d2 : Z) :
  check_date_fields y1 m1 d1 = true →
  check_date_fields y2 m2 d2 = true →
  date_lt y1 m1 d1 y2 m2 d2 →
  ymd2ord y1 m1 d1 < ymd2ord y2 m2 d2.
Proof.
  intros (_ & Hm1 & Hd1)%check_date_fields_spec
         (_ & Hm2 & Hd2)%check_date_fields_spec Hlt.
  unfold ymd2ord.
  pose proof (day_of_year_bounds y1 m1 d1 Hm1 Hd1).
  pose proof (day_of_year_bounds y2 m2 d2 Hm2 Hd2).
  destruct Hlt as [Hy | [<- [Hm | [<- Hd]]]].
  - pose proof (days_before_next_year y1).
    pose proof (days_before_year_mono (y1 + 1) y2). lia.
  - pose proof (days_before_later_month y1 m1 m2 Hm1 Hm2 Hm). lia.
  - lia.
Qed.

Lemma days_in_month_le (y m : Z) : 1 ≤ m ≤ 12 → days_in_month y m ≤ 31.
Proof.
  intros Hm%month_cases. unfold days_in_month.
  repeat destruct Hm as [-> | Hm]; try subst m;
    destruct (is_leap y); simpl; lia.
Qed.

(** The fields of a valid date are C ints. *)
Lemma check_date_fields_fits (y m d : Z) :
  check_date_fields y m d = true →
  fits_int y && fits_int m && fits_int d = true.
Proof.
  intros (Hy & Hm & Hd)%check_date_fields_spec.
  pose proof (days_in_month_le y m Hm).
  unfold fits_int, INT_MIN, INT_MAX, MINYEAR, MAXYEAR in *.
  rewrite !andb_true_iff, !Z.leb_le. lia.
Qed.

(** The ordinals of the valid dates: from 1 to 3652059. *)
Lemma ymd2ord_bounds (y m d : Z) :
  check_date_fields y m d = true → 1 ≤ ymd2ord y m d ≤ 3652059.
Proof.
  intros (Hy & Hm & Hd)%check_date_fields_spec.
  pose proof (day_of_year_bounds y m d Hm Hd) as Hday.
  unfold MINYEAR, MAXYEAR in Hy.
  pose proof (days_before_year_mono 1 y ltac:(lia)) as Hlo.
  unfold ymd2ord. change (days_before_year 1) with 0 in Hlo.
  destruct (decide (y = 9999)) as [-> | Hlast].
  - change (days_before_year 9999) with 3651694 in *.
    change (leap_day 9999) with 0 in Hday. lia.
  - pose proof (days_before_year_mono (y + 1) 9999 ltac:(lia)) as Hhi.
    rewrite days_before_next_year in Hhi.
    change (days_before_year 9999) with 3651694 in Hhi. lia.
Qed.

End DatetimeFacts.

Lemma days_since_epoch_inr (y m d k : Z) :
  days_since_epoch y m d = inr k ↔
  Datetime.check_date_fields y m d = true
  ∧ k = Datetime.ymd2ord y m d - 719163.
Proof.
  unfold days_since_epoch, Datetime.datetime.
  destruct (Datetime.check_date_fields y m d) eqn:Hok.
  - rewrite (DatetimeFacts.check_date_fields_fits _ _ _ Hok). simpl.
    naive_solver.
  - destruct (_ && _); simpl; naive_solver.
Qed.

(** What the constructor raises: [OverflowError] for a field that is no C
    int, [ValueError] for fields that are and make no date. *)
Lemma days_since_epoch_inl (y m d : Z) (x : exn) :
  days_since_epoch y m d = inl x ↔
  (Datetime.fits_int y && Datetime.fits_int m && Datetime.fits_int d = false
   ∧ x = OverflowError)
  ∨ (Datetime.fits_int y && Datetime.fits_int m && Datetime.fits_int d = true
     ∧ Datetime.check_date_fields y m d = false ∧ x = ValueError).
Proof.
  unfold days_since_epoch, Datetime.datetime.
  destruct (_ && _); [destruct (Datetime.check_date_fields y m d) |]; simpl;
    naive_solver.
Qed.

(** The offsets of the valid dates are integers of fewer than 24 bits. *)
Lemma days_since_epoch_range (y m d k : Z) :
  days_since_epoch y m d = inr k → Z.abs k < 2 ^ 24.
Proof.
  intros [Hok%DatetimeFacts.ymd2ord_bounds ->]%days_since_epoch_inr.
  change (2 ^ 24) with 16777216. lia.
Qed.

(** An earlier date has a smaller offset. *)
Lemma days_since_epoch_lt (y1 m1 d1 y2 m2 d2 k1 k2 : Z) :
  days_since_epoch y1 m1 d1 = inr k1 →
  days_since_epoch y2 m2 d2 = inr k2 →
  date_lt y1 m1 d1 y2 m2 d2 →
  k1 < k2.
Proof.
  intros [H1 ->]%days_since_epoch_inr [H2 ->]%days_since_epoch_inr Hlt.
  pose proof (DatetimeFacts.ymd2ord_lt _ _ _ _ _ _ H1 H2 Hlt). lia.
Qed.
(** ** Stepping through the loader *)

Lemma bind_lift {A B : Type} (e : exn + A) (f : A → M B) (w : world) :
  (lift e ≫= f) w = match e with inl x => (inl x, w) | inr a => f a w end.
Proof. unfold mbind, M_bind, lift. by destruct e. Qed.

Lemma bind_ret {A B : Type} (a : A) (f : A → M B) (w : world) :
  (mret a ≫= f) w = f a w.
Proof. reflexivity. Qed.

(** [xr.load_dataset] changes the world by a handle that it has released
    when it returns. *)
Lemma bind_load_dataset {B : Type} (path : string) (f : Dataset → M B)
    (w : world) :
  (load_dataset path ≫= f) w =
  match files w !! path with
  | None =>
      (inl (if netcdf_name w path then FileNotFoundError else ValueError), w)
  | Some Unreadable => (inl OSError, w)
  | Some Unrecognised => (inl ValueError, w)
  | Some (Readable nc) =>
      f (mk_Dataset (next_handle w) (nc_attrs nc) (nc_variables nc)
                    (nc_float32 nc))
        (after_load w)
  end.
Proof.
  unfold mbind, M_bind, load_dataset, open_dataset, mbind, M_bind.
  destruct (files w !! path) as [[| |nc]|]; reflexivity.
Qed.

Lemma bind_zeros {B : Type} (n m : Z) (f : list (list Q) → M B) (w : world) :
  (zeros n m ≫= f) w =
  match np_zeros (memory w) n m with
  | inl x => (inl x, w)
  | inr z => f z w
  end.
Proof. unfold mbind, M_bind, zeros. by destruct (np_zeros _ _ _). Qed.

Lemma bind_zeros_inr {B : Type} (n m : Z) (f : list (list Q) → M B)
    (w w' : world) (r : B) :
  (zeros n m ≫= f) w = (inr r, w') →
  ∃ z, np_zeros (memory w) n m = inr z ∧ f z w = (inr r, w').
Proof. rewrite bind_zeros. destruct (np_zeros _ _ _) as [x|z]; [done | eauto]. Qed.

(** The loader's own [ds.close()] finds the handle released. *)
Lemma bind_close_loaded {B : Type} (ds : Dataset) (f : unit → M B) (w : world) :
  handle ds = next_handle w →
  (close ds ≫= f) (after_load w) = f tt (after_load w).
Proof.
  intros Hds. unfold mbind, M_bind, close. rewrite Hds. f_equal.
  unfold after_load. simpl. f_equal. set_solver.
Qed.

Lemma bind_lift_inr {A B : Type} (e : exn + A) (f : A → M B) (w w' : world)
    (r : B) :
  (lift e ≫= f) w = (inr r, w') → ∃ a, e = inr a ∧ f a w = (inr r, w').
Proof. rewrite bind_lift. destruct e as [x|a]; [done | eauto]. Qed.

Lemma unpack4_inr {A : Type} (seq : list A) (a b c d : A) :
  unpack4 seq = inr (a, b, c, d) ↔ seq = [a; b; c; d].
Proof.
  split; [| by intros ->].
  destruct seq as [|? [|? [|? [|? [|? ?]]]]]; simpl; congruence.
Qed.

Lemma unpack4_inl {A : Type} (seq : list A) (e : exn) :
  unpack4 seq = inl e ↔ length seq ≠ 4%nat ∧ e = ValueError.
Proof.
  destruct seq as [|? [|? [|? [|? [|? ?]]]]]; simpl; naive_solver.
Qed.

(** [ds.variables[key][a, b, (d >= date_min) & (d <= date_max)]] *)
Lemma grid_var_inr (dt : dtype) (vars : gmap string (XrVariable Q))
    (key : string) (d : XrVariable Q) (date_min date_max : Z)
    (a b : XrVariable bool) (r : XrVariable Q) :
  Z.abs date_min < 2 ^ 24 → Z.abs date_max < 2 ^ 24 →
  ebind (getitem vars key)
        (λ v, ebind (day_mask dt d date_min date_max) (λ c, getitem3 v a b c))
    = inr r ↔
  ∃ v, vars !! key = Some v
       ∧ getitem3 v a b (var_map (in_days date_min date_max) d) = inr r.
Proof.
  intros Hmin Hmax. unfold getitem. rewrite day_mask_eq by done.
  destruct (vars !! key) as [v|]; simpl; naive_solver.
Qed.

(** The part of the loader after the bounds are settled: masks, the three
    gridded variables, the three coordinates, [close] and [return]. *)
Ltac load_tail H Hr1 Hr2 :=
  let a := fresh "a" in let b := fresh "b" in
  let q1 := fresh "lat_min" in let q2 := fresh "lat_max" in
  let q3 := fresh "lon_min" in let q4 := fresh "lon_max" in
  let Hq1 := fresh "Hq" in let Hq2 := fresh "Hq" in
  let Hq3 := fresh "Hq" in let Hq4 := fresh "Hq" in
  cbv zeta in H;
  apply bind_lift_inr in H as (a & (q1 & q2 & Hq1 & Hq2 & ->)%mask_inr & H);
  apply bind_lift_inr in H as (b & (q3 & q4 & Hq3 & Hq4 & ->)%mask_inr & H);
  let xch4 := fresh "xch4" in let sdev := fresh "sdev" in let N := fresh "N" in
  let v1 := fresh in let v2 := fresh in let v3 := fresh in
  let Hv1 := fresh "Hxch4" in let Hv2 := fresh "Hsdev" in let Hv3 := fresh "HN" in
  let Hg1 := fresh in let Hg2 := fresh in let Hg3 := fresh in
  apply bind_lift_inr in H
    as (xch4 & (v1 & Hv1 & Hg1)%(grid_var_inr _ _ _ _ _ _ _ _ _ Hr1 Hr2) & H);
  apply bind_lift_inr in H
    as (sdev & (v2 & Hv2 & Hg2)%(grid_var_inr _ _ _ _ _ _ _ _ _ Hr1 Hr2) & H);
  apply bind_lift_inr in H
    as (N & (v3 & Hv3 & Hg3)%(grid_var_inr _ _ _ _ _ _ _ _ _ Hr1 Hr2) & H);
  apply getitem3_inr in Hg1 as (?&?&?&?&?&?&?&?&?&?&?&?&?);
  apply getitem3_inr in Hg2 as (?&?&?&?&?&?&?&?&?&?&?&?&?);
  apply getitem3_inr in Hg3 as (?&?&?&?&?&?&?&?&?&?&?&?&?);
  repeat match goal with
         | v : XrVariable Q |- _ => destruct v; simpl var_map in *; simplify_eq
         end;
  let d' := fresh in let Hd' := fresh in
  apply bind_lift_inr in H as (d' & Hd' & H);
  rewrite day_mask_eq in Hd' by done; cbn [ebind var_map] in Hd';
  rewrite getitem1_map in Hd';
  let x' := fresh in let Hx' := fresh in
  apply bind_lift_inr in H as (x' & Hx' & H);
  rewrite getitem1_map in Hx';
  let y' := fresh in let Hy' := fresh in
  apply bind_lift_inr in H as (y' & Hy' & H);
  rewrite getitem1_map in Hy';
  rewrite bind_close_loaded in H by reflexivity;
  unfold mret, M_ret in H;
  cbn [operand] in *;
  simplify_eq.

Lemma conj_order (A B C D E : Prop) : C → B → A → E → D → A ∧ B ∧ C ∧ D ∧ E.
Proof. tauto. Qed.

Ltac load_done :=
  rewrite ?length_map in *;
  do 3 eexists;
  eexists (mk_file_view _ _ _ _ _ _ _ _ _ _ _ _ _ _ _ _ _ _), (_, _, _, _);
  split; [eassumption |]; split; [eassumption |]; split; [reflexivity |];
  apply conj_order;
  [ unfold slice_of, in_range, in_days, day_dtype; simpl; reflexivity
  | unfold effective_bounds, lat_dtype, lon_dtype; simpl;
    first [ do 4 eexists; split_and!; [reflexivity | eassumption ..]
          | by repeat split ]
  | constructor; [constructor |..]; simpl; first [eassumption | reflexivity]
  | eexists; unfold declared_cells; simpl; eassumption
  | reflexivity ].

Lemma load_grid_returns (d1 m1 y1 d2 m2 y2 : Z) (path : string)
    (grid_dim : option (list pyval)) (w w' : world) (g : GridSlice) :
  load_grid_from_netcdf d1 m1 y1 d2 m2 y2 path grid_dim w = (inr g, w') →
  ∃ date_min date_max nc fv b,
    days_since_epoch y1 m1 d1 = inr date_min
    ∧ days_since_epoch y2 m2 d2 = inr date_max
    ∧ files w !! path = Some (Readable nc)
    ∧ accepts nc fv
    ∧ effective_bounds grid_dim fv b
    ∧ g = slice_of fv date_min date_max grid_dim b
    ∧ w' = after_load w
    ∧ allocates w fv.
Proof.
  intros H. unfold load_grid_from_netcdf in H.
  apply bind_lift_inr in H as (date_min & Hmin & H).
  apply bind_lift_inr in H as (date_max & Hmax & H).
  pose proof (days_since_epoch_range _ _ _ _ Hmin) as Hr1.
  pose proof (days_since_epoch_range _ _ _ _ Hmax) as Hr2.
  rewrite bind_load_dataset in H.
  destruct (files w !! path) as [[| |nc]|] eqn:Hfile; try discriminate H.
  simpl attrs in H; simpl variables in H; simpl single in H.
  apply bind_lift_inr in H as (product_type & Hpt%getitem_inr & H).
  apply bind_lift_inr in H as (LAT_LOW & Hlat_low%getitem_inr & H).
  apply bind_lift_inr in H as (LAT_HIGH & Hlat_high%getitem_inr & H).
  apply bind_lift_inr in H as (LON_LOW & Hlon_low%getitem_inr & H).
  apply bind_lift_inr in H as (LON_HIGH & Hlon_high%getitem_inr & H).
  apply bind_lift_inr in H as (LAT_STEP & Hlat_res%getitem_inr & H).
  apply bind_lift_inr in H as (LON_STEP & Hlon_res%getitem_inr & H).
  apply bind_lift_inr in H as (latd & Hlatd%grid_size_inr & H).
  apply bind_lift_inr in H as (lond & Hlond%grid_size_inr & H).
  apply bind_zeros_inr in H as (z1 & Hz1 & H).
  apply bind_zeros_inr in H as (z2 & _ & H).
  change (memory (after_load w)) with (memory w) in Hz1.
  apply bind_lift_inr in H as (x & Hx%getitem_inr & H).
  apply bind_lift_inr in H as (y & Hy%getitem_inr & H).
  apply bind_lift_inr in H as (d & Hd%getitem_inr & H).
  apply bind_lift_inr in H as (ref_time & Href%getitem_inr & H).
  destruct Hlatd as (lat_high & lat_low & lat_res & -> & -> & -> & Hlat_nz & ->).
  destruct Hlond as (lon_high & lon_low & lon_res & -> & -> & -> & Hlon_nz & ->).
  pose proof (proj1 (np_zeros_inr _ _ _) (ex_intro _ z1 Hz1))
    as (Hlatd & Hlond & _).
  destruct grid_dim as [seq|].
  - apply bind_lift_inr in H
      as ([[[lat_min lat_max] lon_min] lon_max] & Hseq%unpack4_inr & H).
    load_tail H Hr1 Hr2. load_done.
  - rewrite bind_ret in H. cbv beta iota in H.
    load_tail H Hr1 Hr2. load_done.
Qed.

Lemma bind_lift_eq {A B : Type} (e : exn + A) (a : A) (f : A → M B) (w : world) :
  e = inr a → (lift e ≫= f) w = f a w.
Proof. intros ->. apply bind_lift. Qed.

(** The loader up to and including the choice of bounds, on a file whose
    attributes and coordinates it reads and whose declared grid [np.zeros]
    grants. *)
Ltac load_prefix Hmin Hmax Hfile Hrd Halloc :=
  let z := fresh "z" in let Hz := fresh "Hz" in
  destruct Halloc as [z Hz]; unfold declared_cells in Hz; cbn [fst snd] in Hz;
  destruct Hrd;
  unfold load_grid_from_netcdf;
  do 2 (erewrite bind_lift_eq by eassumption);
  rewrite bind_load_dataset, Hfile; simpl attrs; simpl variables; simpl single;
  do 7 (erewrite bind_lift_eq by (apply getitem_inr; eassumption));
  do 2 (erewrite bind_lift_eq by (apply grid_size_inr; eauto 10));
  do 2 (rewrite bind_zeros; cbn [memory after_load]; rewrite Hz);
  do 4 (erewrite bind_lift_eq by (apply getitem_inr; eassumption));
  match goal with Hf : nc_float32 _ = _ |- _ => rewrite !Hf end.

Lemma bounds_choice (grid_dim : option (list pyval)) (fv : file_view)
    (lat_min lat_max lon_min lon_max : Q) :
  effective_bounds grid_dim fv (lat_min, lat_max, lon_min, lon_max) →
  ∃ b1 b2 b3 b4,
    (match grid_dim with
     | Some g => lift (unpack4 g)
     | None => mret (VNum (fv_lat_low fv), VNum (fv_lat_high fv),
                     VNum (fv_lon_low fv), VNum (fv_lon_high fv))
     end : M _)
    = mret (b1, b2, b3, b4)
    ∧ given_bounds grid_dim fv = (b1, b2, b3, b4)
    ∧ operand (lat_dtype fv) b1 = Some lat_min
    ∧ operand (lat_dtype fv) b2 = Some lat_max
    ∧ operand (lon_dtype fv) b3 = Some lon_min
    ∧ operand (lon_dtype fv) b4 = Some lon_max.
Proof.
  intros Hb. destruct grid_dim as [g|]; simpl in Hb.
  - destruct Hb as (b1 & b2 & b3 & b4 & -> & ? & ? & ? & ?).
    by exists b1, b2, b3, b4.
  - destruct Hb as (-> & -> & -> & ->). by do 4 eexists.
Qed.

(** The converse: on a file it accepts and whose declared grid [np.zeros]
    grants, with valid dates and four numeric bounds (or none), the loader
    returns. *)
Lemma load_grid_accepted (d1 m1 y1 d2 m2 y2 : Z) (path : string)
    (grid_dim : option (list pyval)) (w : world) (date_min date_max : Z)
    (nc : NetCDF) (fv : file_view) (b : Q * Q * Q * Q) :
  days_since_epoch y1 m1 d1 = inr date_min →
  days_since_epoch y2 m2 d2 = inr date_max →
  files w !! path = Some (Readable nc) →
  accepts nc fv →
  effective_bounds grid_dim fv b →
  allocates w fv →
  load_grid_from_netcdf d1 m1 y1 d2 m2 y2 path grid_dim w
  = (inr (slice_of fv date_min date_max grid_dim b), after_load w).
Proof.
  intros Hmin Hmax Hfile [Hrd] Hb Halloc.
  pose proof (days_since_epoch_range _ _ _ _ Hmin) as Hr1.
  pose proof (days_since_epoch_range _ _ _ _ Hmax) as Hr2.
  destruct b as [[[lat_min lat_max] lon_min] lon_max].
  destruct (bounds_choice _ _ _ _ _ _ Hb)
    as (b1 & b2 & b3 & b4 & Hchoice & Hgiven & Ho1 & Ho2 & Ho3 & Ho4).
  load_prefix Hmin Hmax Hfile Hrd Halloc.
  rewrite Hchoice, bind_ret. cbv beta iota zeta.
  do 2 (erewrite bind_lift_eq by (apply mask_inr; eauto)).
  do 3 (erewrite bind_lift_eq
          by (apply grid_var_inr; [done | done |];
              eexists; split; [eassumption |];
              apply getitem3_inr; unfold fv_dims; simpl;
              do 7 eexists; split_and!; try reflexivity;
              by rewrite ?length_map)).
  rewrite day_mask_eq by done. cbn [ebind var_map].
  do 3 (erewrite bind_lift_eq by apply getitem1_map).
  rewrite bind_close_loaded by reflexivity.
  unfold slice_of. rewrite Hgiven. reflexivity.
Qed.

(** The loader returns exactly on the files it accepts and can allocate
    the declared grid for, and then returns the slice that the file, the
    offsets and the bounds determine. *)
Lemma load_grid_returns_iff (d1 m1 y1 d2 m2 y2 : Z) (path : string)
    (grid_dim : option (list pyval)) (w w' : world) (g : GridSlice) :
  load_grid_from_netcdf d1 m1 y1 d2 m2 y2 path grid_dim w = (inr g, w') ↔
  ∃ date_min date_max nc fv b,
    days_since_epoch y1 m1 d1 = inr date_min
    ∧ days_since_epoch y2 m2 d2 = inr date_max
    ∧ files w !! path = Some (Readable nc)
    ∧ accepts nc fv
    ∧ effective_bounds grid_dim fv b
    ∧ g = slice_of fv date_min date_max grid_dim b
    ∧ w' = after_load w
    ∧ allocates w fv.
Proof.
  split; [apply load_grid_returns |].
  intros (date_min & date_max & nc & fv & b & ? & ? & ? & ? & ? & -> & -> & ?).
  by eapply load_grid_accepted.
Qed.

(** ** The fallible steps, when they raise *)

Lemma grid_size_inl (hi lo step : pyval) (x : exn) :
  ebind (py_sub hi lo) (λ ext, ebind (py_div ext step) int_of) = inl x →
  x = TypeError ∨ x = OverflowError ∨ x = ValueError.
Proof.
  destruct hi as [s1|h|h], lo as [s2|l|l], step as [s3|s|s]; simpl;
    try destruct (Qeq_bool s 0); try destruct (Qeq_bool (h - l) 0); simpl;
    naive_solver.
Qed.

Lemma np_zeros_inl (memory n m : Z) (x : exn) :
  np_zeros memory n m = inl x → x = ValueError ∨ x = MemoryError.
Proof.
  unfold np_zeros. destruct (_ || _); [naive_solver |].
  destruct (memory <? _); naive_solver.
Qed.

Lemma mask_inl (dt : dtype) (op1 op2 : Q → Q → bool) (v : XrVariable Q)
    (c1 c2 : pyval) (x : exn) :
  ebind (var_cmp dt op1 v c1)
        (λ lo, ebind (var_cmp dt op2 v c2) (λ hi, var_and lo hi))
    = inl x →
  x = TypeError.
Proof.
  unfold var_cmp.
  destruct (operand dt c1) as [q1|], (operand dt c2) as [q2|]; simpl;
    try congruence.
  by rewrite var_and_map.
Qed.

Lemma getitem3_inl {A : Type} (v : XrVariable A) (a b c : XrVariable bool)
    (x : exn) :
  getitem3 v a b c = inl x → x = IndexError.
Proof.
  unfold getitem3. repeat case_match; congruence.
Qed.

Lemma getitem1_inl {A : Type} (v : XrVariable A) (m : XrVariable bool) (x : exn) :
  getitem1 v m = inl x → x = IndexError.
Proof. unfold getitem1. repeat case_match; congruence. Qed.

Lemma grid_var_inl (dt : dtype) (vars : gmap string (XrVariable Q))
    (key : string) (d : XrVariable Q) (date_min date_max : Z)
    (a b : XrVariable bool) (x : exn) :
  Z.abs date_min < 2 ^ 24 → Z.abs date_max < 2 ^ 24 →
  ebind (getitem vars key)
        (λ v, ebind (day_mask dt d date_min date_max) (λ c, getitem3 v a b c))
    = inl x →
  (vars !! key = None ∧ x = KeyError key) ∨ x = IndexError.
Proof.
  intros Hmin Hmax. unfold getitem. rewrite day_mask_eq by done.
  destruct (vars !! key) as [v|]; simpl; [| naive_solver].
  intros ?%getitem3_inl. by right.
Qed.

Lemma day_getitem1_inl (dt : dtype) (d : XrVariable Q) (date_min date_max : Z)
    (x : exn) :
  Z.abs date_min < 2 ^ 24 → Z.abs date_max < 2 ^ 24 →
  ebind (day_mask dt d date_min date_max) (λ c, getitem1 d c) = inl x →
  x = IndexError.
Proof.
  intros Hmin Hmax. rewrite day_mask_eq by done. simpl. apply getitem1_inl.
Qed.

Lemma bind_zeros_inl {B : Type} (n m : Z) (f : list (list Q) → M B)
    (w w' : world) (x : exn) :
  (zeros n m ≫= f) w = (inl x, w') →
  (np_zeros (memory w) n m = inl x ∧ w' = w)
  ∨ ∃ z, np_zeros (memory w) n m = inr z ∧ f z w = (inl x, w').
Proof.
  rewrite bind_zeros. destruct (np_zeros _ _ _) as [y|z]; naive_solver.
Qed.

Lemma bind_lift_inl {A B : Type} (e : exn + A) (f : A → M B) (w w' : world)
    (x : exn) :
  (lift e ≫= f) w = (inl x, w') →
  (e = inl x ∧ w' = w) ∨ ∃ a, e = inr a ∧ f a w = (inl x, w').
Proof. rewrite bind_lift. destruct e as [y|a]; naive_solver. Qed.

(** The part of the loader after the bounds are settled, when it raises. *)
Ltac raise_tail H Hgrid Hr1 Hr2 :=
  let He := fresh "He" in
  cbv zeta in H;
  do 2 (apply bind_lift_inl in H as [[He ->] | (? & _ & H)];
        [split; [done |]; apply mask_inl in He as ->; constructor |]);
  do 3 (apply bind_lift_inl in H as [[He ->] | (? & _ & H)];
        [split; [done |]; eapply Hgrid; [| exact He]; simpl; tauto |]);
  apply bind_lift_inl in H as [[He ->] | (? & _ & H)];
    [split; [done |];
     apply (day_getitem1_inl _ _ _ _ _ Hr1 Hr2) in He as ->; constructor |];
  do 2 (apply bind_lift_inl in H as [[He ->] | (? & _ & H)];
        [split; [done |]; apply getitem1_inl in He as ->; constructor |]);
  rewrite bind_close_loaded in H by reflexivity;
  discriminate H.

(** Every way the loader can raise. Until the dataset is loaded the world
    is as it was; afterwards it is the world that [xr.load_dataset] left,
    with no handle open. *)
Lemma load_grid_raises (d1 m1 y1 d2 m2 y2 : Z) (path : string)
    (grid_dim : option (list pyval)) (w w' : world) (e : exn) :
  load_grid_from_netcdf d1 m1 y1 d2 m2 y2 path grid_dim w = (inl e, w') →
  (w' = w
   ∧ (days_since_epoch y1 m1 d1 = inl e ∨ days_since_epoch y2 m2 d2 = inl e))
  ∨ (w' = w ∧ files w !! path = None
     ∧ e = if netcdf_name w path then FileNotFoundError else ValueError)
  ∨ (w' = w ∧ files w !! path = Some Unreadable ∧ e = OSError)
  ∨ (w' = w ∧ files w !! path = Some Unrecognised ∧ e = ValueError)
  ∨ (∃ nc, files w !! path = Some (Readable nc) ∧ w' = after_load w
           ∧ raises_after_load nc e).
Proof.
  intros H. unfold load_grid_from_netcdf in H.
  apply bind_lift_inl in H as [[He ->] | (date_min & Hmin & H)].
  { left. auto. }
  apply bind_lift_inl in H as [[He ->] | (date_max & Hmax & H)].
  { left. auto. }
  pose proof (days_since_epoch_range _ _ _ _ Hmin) as Hr1.
  pose proof (days_since_epoch_range _ _ _ _ Hmax) as Hr2.
  rewrite bind_load_dataset in H.
  destruct (files w !! path) as [[| |nc]|] eqn:Hfile.
  { injection H as <- <-. do 2 right. left. auto. }
  { injection H as <- <-. do 3 right. left. auto. }
  2: { injection H as <- <-. right. left. auto. }
  do 4 right. exists nc. split; [done |].
  simpl attrs in H; simpl variables in H; simpl single in H.
  assert (∀ k, In k attr_keys → getitem (nc_attrs nc) k = inl e →
               raises_after_load nc e) as Hattr.
  { intros k Hk [Hnone ->]%getitem_inl. by apply rao_attr. }
  assert (∀ k, In k var_keys → getitem (nc_variables nc) k = inl e →
               raises_after_load nc e) as Hvar.
  { intros k Hk [Hnone ->]%getitem_inl. by apply rao_var. }
  assert (∀ dt k d a b, In k var_keys →
            ebind (getitem (nc_variables nc) k)
              (λ v, ebind (day_mask dt d date_min date_max)
                          (λ c, getitem3 v a b c)) = inl e →
            raises_after_load nc e) as Hgrid.
  { intros dt k d a b Hk
      [[Hnone ->] | ->]%(grid_var_inl _ _ _ _ _ _ _ _ _ Hr1 Hr2);
      [by apply rao_var | constructor]. }
  do 7 (apply bind_lift_inl in H as [[He ->] | (? & _ & H)];
        [split; [done |]; eapply Hattr; [| exact He]; simpl; tauto |]).
  do 2 (apply bind_lift_inl in H as [[He ->] | (? & _ & H)];
        [split; [done |];
         apply grid_size_inl in He as [-> | [-> | ->]]; constructor |]).
  do 2 (apply bind_zeros_inl in H as [[He ->] | (? & _ & H)];
        [split; [done |]; apply np_zeros_inl in He as [-> | ->]; constructor |]).
  do 3 (apply bind_lift_inl in H as [[He ->] | (? & _ & H)];
        [split; [done |]; eapply Hvar; [| exact He]; simpl; tauto |]).
  apply bind_lift_inl in H as [[He ->] | (? & _ & H)];
    [split; [done |]; eapply Hattr; [| exact He]; simpl; tauto |].
  destruct grid_dim as [seq|].
  - apply bind_lift_inl in H
      as [[[_ ->]%unpack4_inl ->] | ([[[lat_min lat_max] lon_min] lon_max] & _ & H)];
      [split; [done | constructor] |].
    raise_tail H Hgrid Hr1 Hr2.
  - rewrite bind_ret in H. cbv beta iota in H.
    raise_tail H Hgrid Hr1 Hr2.
Qed.


(** ** Particular failures *)




(** ** The selection predicates *)

Lemma in_days_spec (date_min date_max : Z) (v : Q) :
  in_days date_min date_max v = true
  ↔ (inject_Z date_min <= v ∧ v <= inject_Z date_max)%Q.
Proof.
  unfold in_days, Qge_bool. rewrite andb_true_iff, !Qle_bool_iff. done.
Qed.

Lemma in_range_spec (lo hi v : Q) :
  in_range lo hi v = true ↔ (lo <= v ∧ v < hi)%Q.
Proof.
  unfold in_range, Qge_bool, Qlt_bool.
  rewrite andb_true_iff, negb_true_iff, Qle_bool_iff.
  split; intros [Hlo Hhi]; split; try done.
  - apply Qnot_le_lt. intros Hle%Qle_bool_iff. congruence.
  - apply not_true_is_false. intros Hle%Qle_bool_iff.
    by apply Qlt_not_le in Hhi.
Qed.

Lemma Forall_filter_true {A : Type} (p : A → bool) (l : list A) :
  Forall (λ x, p x = true) (List.filter p l).
Proof. apply List.Forall_forall. by intros x [_ Hx]%filter_In. Qed.

Lemma filter_none {A : Type} (p : A → bool) (l : list A) :
  (∀ x, In x l → p x = false) → List.filter p l = [].
Proof.
  induction l as [|x l IH]; simpl; [done |]. intros Hl.
  rewrite (Hl x) by auto. apply IH. auto.
Qed.

Lemma Qle_bool_inject_Z (a b : Z) :
  Qle_bool (inject_Z a) (inject_Z b) = (a <=? b).
Proof. unfold Qle_bool. simpl. by rewrite !Z.mul_1_r. Qed.

Lemma in_range_inject_Z (lo hi z : Z) :
  in_range (inject_Z lo) (inject_Z hi) (inject_Z z) = (lo <=? z) && (z <? hi).
Proof.
  unfold in_range, Qge_bool, Qlt_bool. rewrite !Qle_bool_inject_Z.
  by rewrite Z.ltb_antisym.
Qed.

Lemma filter_in_range_grid (lo hi z0 step : Z) (n : nat) :
  List.filter (in_range (inject_Z lo) (inject_Z hi)) (grid_coords z0 step n)
  = map inject_Z
      (List.filter (λ z, (lo <=? z) && (z <? hi))
                   (map (λ i, z0 + step * Z.of_nat i) (seq 0 n))).
Proof.
  unfold grid_coords. induction (seq 0 n) as [|i l IH]; simpl; [done |].
  rewrite in_range_inject_Z.
  destruct ((lo <=? _) && (_ <? hi)); simpl; by rewrite IH.
Qed.

(** On a grid of cells two wide that starts at an even number at or below
    0 and reaches 10, the lower boundaries in [0, 10) are 0, 2, 4, 6, 8. *)
Lemma two_degree_cells (lo : Z) (n : nat) :
  Z.even lo = true → lo ≤ 0 → 10 ≤ lo + 2 * Z.of_nat n →
  List.filter (λ z, (0 <=? z) && (z <? 10))
              (map (λ i, lo + 2 * Z.of_nat i) (seq 0 n))
  = [0; 2; 4; 6; 8].
Proof.
  intros [m ->]%Z.even_spec Hlo Hhi.
  set (k := Z.to_nat (- m)).
  replace n with (k + (5 + (n - k - 5)))%nat by lia.
  rewrite !seq_app, !map_app, !List.filter_app.
  rewrite (filter_none _ (map _ (seq 0 k))), (filter_none _ (map _ (seq _ (n - k - 5)))).
  - cbn [seq map Nat.add]. rewrite app_nil_r. cbn [app].
    replace (2 * m + 2 * Z.of_nat k) with 0 by lia.
    replace (2 * m + 2 * Z.of_nat (S k)) with 2 by lia.
    replace (2 * m + 2 * Z.of_nat (S (S k))) with 4 by lia.
    replace (2 * m + 2 * Z.of_nat (S (S (S k)))) with 6 by lia.
    replace (2 * m + 2 * Z.of_nat (S (S (S (S k))))) with 8 by lia.
    reflexivity.
  - intros z (i & <- & Hi%in_seq)%in_map_iff.
    apply andb_false_iff. right. apply Z.ltb_ge. lia.
  - intros z (i & <- & Hi%in_seq)%in_map_iff.
    apply andb_false_iff. left. apply Z.leb_gt. lia.
Qed.

Lemma two_degree_selection (lo : Z) (n : nat) :
  Z.even lo = true → lo ≤ 0 → 10 ≤ lo + 2 * Z.of_nat n →
  List.filter (in_range 0 10) (grid_coords lo 2 n) = [0; 2; 4; 6; 8]%Q.
Proof.
  intros Heven Hlo Hhi.
  change (in_range 0 10) with (in_range (inject_Z 0) (inject_Z 10)).
  by rewrite filter_in_range_grid, two_degree_cells.
Qed.

(** Bounds of one value select alike. *)
Lemma in_range_proper (lo lo' hi hi' v : Q) :
  (lo == lo')%Q → (hi == hi')%Q → in_range lo hi v = in_range lo' hi' v.
Proof.
  intros Hlo Hhi. unfold in_range, Qge_bool, Qlt_bool.
  by rewrite (Qle_bool_proper_l _ _ v Hlo), (Qle_bool_proper_l _ _ v Hhi).
Qed.

Lemma filter_ext {A : Type} (p q : A → bool) (l : list A) :
  (∀ x, p x = q x) → List.filter p l = List.filter q l.
Proof.
  intros Hpq. induction l as [|x l IH]; simpl; [done |].
  by rewrite Hpq, IH.
Qed.

(** What the four bounds of a call are compared as. *)
Lemma operand_numpy (dt : dtype) (q : Q) : operand dt (VNum q) = Some q.
Proof. reflexivity. Qed.

Lemma operand_python (dt : dtype) (q : Q) : operand dt (VPy q) = Some (cast dt q).
Proof. reflexivity. Qed.

Lemma operand_Z (dt : dtype) (n : Z) (b : pyval) (q : Q) :
  Z.abs n < 2 ^ 24 → b = VNum (inject_Z n) ∨ b = VPy (inject_Z n) →
  operand dt b = Some q → (q == inject_Z n)%Q.
Proof. intros Hn [-> | ->] [= <-]; [done | by apply cast_Z]. Qed.

Lemma two_degree_selection_operands (dt : dtype) (lo : Z) (n : nat)
    (b0 b10 : pyval) (q0 q10 : Q) :
  Z.even lo = true → lo ≤ 0 → 10 ≤ lo + 2 * Z.of_nat n →
  b0 = VNum 0 ∨ b0 = VPy 0 → b10 = VNum 10 ∨ b10 = VPy 10 →
  operand dt b0 = Some q0 → operand dt b10 = Some q10 →
  List.filter (in_range q0 q10) (grid_coords lo 2 n) = [0; 2; 4; 6; 8]%Q.
Proof.
  intros Heven Hlo Hhi Hb0 Hb10 H0 H10.
  apply (operand_Z dt 0) in H0; [| done | done].
  apply (operand_Z dt 10) in H10; [| done | done].
  rewrite (filter_ext _ (in_range 0 10)).
  - by apply two_degree_selection.
  - intros v. by apply in_range_proper.
Qed.


(** The bounds in force, from the view of the file. *)
Lemma effective_bounds_in_force (grid_dim : option (list pyval)) (nc : NetCDF)
    (fv : file_view) (b : Q * Q * Q * Q) :
  reads nc fv → effective_bounds grid_dim fv b → bounds_in_force grid_dim nc b.
Proof.
  intros [] Hb. destruct b as [[[lat_min lat_max] lon_min] lon_max].
  unfold effective_bounds, bounds_in_force, lat_dtype, lon_dtype in *.
  destruct grid_dim as [seq|].
  - match goal with Hf : nc_float32 nc = _ |- _ => by rewrite Hf end.
  - destruct Hb as (-> & -> & -> & ->). done.
Qed.

(** An outcome is its two components. *)
Lemma outcome_eq {A : Type} (r : (exn + A) * world) (x : exn + A) :
  fst r = x → r = (x, snd r).
Proof. destruct r. simpl. by intros ->. Qed.





(** * The claims *)

(** C1. When the loader returns, the day array it returns is the day
    coordinate of the file restricted to the offsets of the two dates from
    1970-01-01, both ends included: every returned day lies between the
    start offset and the end offset, and a day of the file is returned
    exactly when it lies there. (No order between the two dates is
    needed.) *)
Theorem C1_day_selection_closed (d1 m1 y1 d2 m2 y2 : Z) (path : string)
    (grid_dim : option (list pyval)) (w w' : world) (g : GridSlice) :
  load_grid_from_netcdf d1 m1 y1 d2 m2 y2 path grid_dim w = (inr g, w') →
  ∃ start_offset end_offset nc dim file_days days,
    days_since_epoch y1 m1 d1 = inr start_offset
    ∧ days_since_epoch y2 m2 d2 = inr end_offset
    ∧ files w !! path = Some (Readable nc)
    ∧ nc_variables nc !! "day" = Some (Var1 dim file_days)
    ∧ ret_d g = Var1 dim days
    ∧ Forall (λ v, inject_Z start_offset <= v ∧ v <= inject_Z end_offset)%Q days
    ∧ ∀ v, In v days ↔
           In v file_days
           ∧ (inject_Z start_offset <= v ∧ v <= inject_Z end_offset)%Q.
Proof.
  intros (date_min & date_max & nc & fv & [[[lat_min lat_max] lon_min] lon_max]
          & Hmin & Hmax & Hfile & [Hrd] & _ & -> & _)%load_grid_returns.
  exists date_min, date_max, nc, (fv_dday fv), (fv_days fv),
    (List.filter (in_days date_min date_max) (fv_days fv)).
  split_and!; try done.
  - by destruct Hrd.
  - eapply Forall_impl; [apply Forall_filter_true |].
    intros v. by rewrite in_days_spec.
  - intros v. by rewrite filter_In, in_days_spec.
Qed.

Lemma C1_day_selection_closed_witness :
  ∃ g,
    fst (load_grid_from_netcdf 2 1 2018 4 1 2018 "small.nc" None small_world)
    = inr g
    ∧ ret_d g = Var1 "day" [17533; 17534; 17535]%Q
    ∧ ∃ start_offset end_offset nc dim file_days days,
        days_since_epoch 2018 1 2 = inr start_offset
        ∧ days_since_epoch 2018 1 4 = inr end_offset
        ∧ files small_world !! "small.nc" = Some (Readable nc)
        ∧ nc_variables nc !! "day" = Some (Var1 dim file_days)
        ∧ ret_d g = Var1 dim days
        ∧ Forall (λ v, inject_Z start_offset <= v ∧ v <= inject_Z end_offset)%Q
                 days
        ∧ ∀ v, In v days ↔
               In v file_days
               ∧ (inject_Z start_offset <= v ∧ v <= inject_Z end_offset)%Q.
Proof.
  eexists. split; [vm_compute; reflexivity |].
  split; [reflexivity |].
  eapply (C1_day_selection_closed 2 1 2018 4 1 2018 "small.nc" None small_world).
  apply outcome_eq. vm_compute. reflexivity.
Defined.

(** C2, as stated, fails twice. The file [single.nc] stores its latitudes
    in single precision; with the Python number 0.7 as the lower bound the
    loader returns the latitude next to 0.7 in single precision, which is
    below 0.7. The file [centres.nc] declares a grid of 2-degree cells and
    stores the centres of the cells; the bounds (0, 10, 0, 10) select 1, 3,
    5, 7, 9 on both axes. *)
Lemma C2_bounds_not_kept_as_stated :
  (∃ g,
     fst (load_grid_from_netcdf 1 1 2018 5 1 2018 "single.nc"
            (Some [VPy double_0_7; VPy 4; VPy 0; VPy 3]) varied_world)
     = inr g
     ∧ files varied_world !! "single.nc" = Some (Readable single_file)
     ∧ ret_y g = Arr1 [single_0_7; 3 # 2; 2]%Q
     ∧ (single_0_7 < double_0_7)%Q)
  ∧ (∃ g,
       fst (load_grid_from_netcdf 1 1 2018 5 1 2018 "centres.nc"
              (Some [VPy 0; VPy 10; VPy 0; VPy 10]) varied_world)
       = inr g
       ∧ files varied_world !! "centres.nc" = Some (Readable centre_file)
       ∧ declared_grid centre_file = inr (7, 7)
       ∧ nc_attrs centre_file !! "lat_res" = Some (VNum 2)
       ∧ nc_attrs centre_file !! "lon_res" = Some (VNum 2)
       ∧ ret_y g = Arr1 [1; 3; 5; 7; 9]%Q
       ∧ ret_x g = Arr1 [1; 3; 5; 7; 9]%Q).
Proof.
  split.
  - eexists. split; [vm_compute; reflexivity |].
    split_and!; by vm_compute.
  - eexists. split; [vm_compute; reflexivity |].
    split_and!; by vm_compute.
Qed.

(** C2, amended. With four bounds given, the returned latitudes are the
    latitudes of the file with lo <= v < hi and the returned longitudes the
    longitudes of the file likewise, where lo and hi are the bounds as numpy
    compares them with the coordinate: a numpy scalar as it is, a Python
    number converted to the type of the coordinate, which leaves it as it
    is for a coordinate in double precision and rounds it for one in single
    precision. And on a file whose coordinates are the lower boundaries of
    cells of two degrees, counted from an even lower bound at or below 0 up
    to at least 10, the bounds (0, 10, 0, 10), each a numpy scalar or a
    Python number, select the values 0, 2, 4, 6, 8 on both axes. *)
Theorem C2_spatial_selection_half_open :
  (∀ (d1 m1 y1 d2 m2 y2 : Z) (path : string) (b1 b2 b3 b4 : pyval)
     (w w' : world) (g : GridSlice),
     load_grid_from_netcdf d1 m1 y1 d2 m2 y2 path (Some [b1; b2; b3; b4]) w
     = (inr g, w') →
     ∃ nc dlat dlon file_lats file_lons lats lons
         lat_min lat_max lon_min lon_max,
       files w !! path = Some (Readable nc)
       ∧ nc_variables nc !! "lat" = Some (Var1 dlat file_lats)
       ∧ nc_variables nc !! "lon" = Some (Var1 dlon file_lons)
       ∧ operand (var_dtype (nc_float32 nc) "lat") b1 = Some lat_min
       ∧ operand (var_dtype (nc_float32 nc) "lat") b2 = Some lat_max
       ∧ operand (var_dtype (nc_float32 nc) "lon") b3 = Some lon_min
       ∧ operand (var_dtype (nc_float32 nc) "lon") b4 = Some lon_max
       ∧ ret_y g = Arr1 lats ∧ ret_x g = Arr1 lons
       ∧ Forall (λ v, lat_min <= v ∧ v < lat_max)%Q lats
       ∧ Forall (λ v, lon_min <= v ∧ v < lon_max)%Q lons
       ∧ (∀ v, In v lats ↔ In v file_lats ∧ (lat_min <= v ∧ v < lat_max)%Q)
       ∧ (∀ v, In v lons ↔ In v file_lons ∧ (lon_min <= v ∧ v < lon_max)%Q))
  ∧ (∀ (dt : dtype) (q : Q),
       operand dt (VNum q) = Some q
       ∧ operand float64 (VPy q) = Some q
       ∧ operand float32 (VPy q) = Some (to_float32 q))
  ∧
  (∀ (d1 m1 y1 d2 m2 y2 : Z) (path : string) (w w' : world) (g : GridSlice)
     (nc : NetCDF) (lat_low lon_low : Z) (nlat nlon : nat) (dlat dlon : string)
     (b1 b2 b3 b4 : pyval),
     b1 = VNum 0 ∨ b1 = VPy 0 → b2 = VNum 10 ∨ b2 = VPy 10 →
     b3 = VNum 0 ∨ b3 = VPy 0 → b4 = VNum 10 ∨ b4 = VPy 10 →
     files w !! path = Some (Readable nc) →
     nc_attrs nc !! "lat_res" = Some (VNum 2) →
     nc_attrs nc !! "lon_res" = Some (VNum 2) →
     nc_attrs nc !! "lat_low" = Some (VNum (inject_Z lat_low)) →
     nc_attrs nc !! "lon_low" = Some (VNum (inject_Z lon_low)) →
     nc_variables nc !! "lat" = Some (Var1 dlat (grid_coords lat_low 2 nlat)) →
     nc_variables nc !! "lon" = Some (Var1 dlon (grid_coords lon_low 2 nlon)) →
     Z.even lat_low = true → lat_low ≤ 0 → 10 ≤ lat_low + 2 * Z.of_nat nlat →
     Z.even lon_low = true → lon_low ≤ 0 → 10 ≤ lon_low + 2 * Z.of_nat nlon →
     load_grid_from_netcdf d1 m1 y1 d2 m2 y2 path (Some [b1; b2; b3; b4]) w
     = (inr g, w') →
     ret_y g = Arr1 [0; 2; 4; 6; 8]%Q ∧ ret_x g = Arr1 [0; 2; 4; 6; 8]%Q).
Proof.
  split_and!.
  - intros * (date_min & date_max & nc & fv & [[[a b] c] d]
              & _ & _ & Hfile & [Hrd] & Hb & -> & _)%load_grid_returns.
    apply (effective_bounds_in_force _ nc) in Hb; [| done].
    destruct Hb as (? & ? & ? & ? & [= <- <- <- <-] & Ho1 & Ho2 & Ho3 & Ho4).
    exists nc, (fv_dlat fv), (fv_dlon fv), (fv_lats fv), (fv_lons fv),
      (List.filter (in_range a b) (fv_lats fv)),
      (List.filter (in_range c d) (fv_lons fv)), a, b, c, d.
    destruct Hrd. split_and!; try done.
    + eapply Forall_impl; [apply Forall_filter_true |].
      intros v. by rewrite in_range_spec.
    + eapply Forall_impl; [apply Forall_filter_true |].
      intros v. by rewrite in_range_spec.
    + intros v. by rewrite filter_In, in_range_spec.
    + intros v. by rewrite filter_In, in_range_spec.
  - intros dt q. by split_and!.
  - intros * Hb1 Hb2 Hb3 Hb4 Hfile _ _ _ _ Hlat Hlon ? ? ? ? ? ?
      (date_min & date_max & nc' & fv & [[[a b] c] d]
       & _ & _ & Hfile' & [Hrd] & Hb & -> & _)%load_grid_returns.
    destruct Hb as (? & ? & ? & ? & [= <- <- <- <-] & Ho1 & Ho2 & Ho3 & Ho4).
    destruct Hrd.
    assert (nc' = nc) as -> by congruence.
    assert (fv_lats fv = grid_coords lat_low 2 nlat
            ∧ fv_lons fv = grid_coords lon_low 2 nlon) as [Hlats Hlons]
      by (split; congruence).
    simpl. rewrite Hlats, Hlons.
    by rewrite (two_degree_selection_operands (lat_dtype fv) _ _ b1 b2),
      (two_degree_selection_operands (lon_dtype fv) _ _ b3 b4).
Qed.

Lemma C2_spatial_selection_half_open_witness :
  ∃ g,
    fst (load_grid_from_netcdf 1 1 2018 1 2 2018 "global_2x2.nc"
           (Some [VPy 0; VPy 10; VPy 0; VPy 10]) global_world)
    = inr g
    ∧ (ret_y g = Arr1 [0; 2; 4; 6; 8]%Q ∧ ret_x g = Arr1 [0; 2; 4; 6; 8]%Q)
    ∧ ∃ nc dlat dlon file_lats file_lons lats lons
          lat_min lat_max lon_min lon_max,
        files global_world !! "global_2x2.nc" = Some (Readable nc)
        ∧ nc_variables nc !! "lat" = Some (Var1 dlat file_lats)
        ∧ nc_variables nc !! "lon" = Some (Var1 dlon file_lons)
        ∧ operand (var_dtype (nc_float32 nc) "lat") (VPy 0) = Some lat_min
        ∧ operand (var_dtype (nc_float32 nc) "lat") (VPy 10) = Some lat_max
        ∧ operand (var_dtype (nc_float32 nc) "lon") (VPy 0) = Some lon_min
        ∧ operand (var_dtype (nc_float32 nc) "lon") (VPy 10) = Some lon_max
        ∧ ret_y g = Arr1 lats ∧ ret_x g = Arr1 lons
        ∧ Forall (λ v, lat_min <= v ∧ v < lat_max)%Q lats
        ∧ Forall (λ v, lon_min <= v ∧ v < lon_max)%Q lons
        ∧ (∀ v, In v lats ↔ In v file_lats ∧ (lat_min <= v ∧ v < lat_max)%Q)
        ∧ (∀ v, In v lons ↔ In v file_lons ∧ (lon_min <= v ∧ v < lon_max)%Q).
Proof.
  destruct C2_spatial_selection_half_open as (Hsel & _ & Hgrid).
  eexists. split; [vm_compute; reflexivity |]. split.
  - eapply (Hgrid 1 1 2018 1 2 2018 "global_2x2.nc" global_world _ _
              global_file (-90) (-180) 90%nat 180%nat "lat" "lon"
              (VPy 0) (VPy 10) (VPy 0) (VPy 10));
      [by right | by right | by right | by right | reflexivity | reflexivity | reflexivity | reflexivity | reflexivity
      | reflexivity | reflexivity | reflexivity | lia | lia
      | reflexivity | lia | lia
      | apply outcome_eq; vm_compute; reflexivity ].
  - eapply (Hsel 1 1 2018 1 2 2018 "global_2x2.nc"
              (VPy 0) (VPy 10) (VPy 0) (VPy 10) global_world).
    apply outcome_eq. vm_compute. reflexivity.
Defined.










(** C7. When the loader returns, the metadata dictionary holds, under
    LAT_LOW, LAT_HIGH, LON_LOW and LON_HIGH, the four values the caller
    gave, as the caller gave them, when it gave any, and the extent the
    file declares otherwise, and under LAT_STEP and LON_STEP the steps the
    file declares; and these four values, as numpy compares them with the
    coordinates, are the bounds of the returned latitudes and
    longitudes. *)
Theorem C7_metadata_records_effective_bounds (d1 m1 y1 d2 m2 y2 : Z)
    (path : string) (grid_dim : option (list pyval)) (w w' : world)
    (g : GridSlice) :
  load_grid_from_netcdf d1 m1 y1 d2 m2 y2 path grid_dim w = (inr g, w') →
  ∃ nc b1 b2 b3 b4 lat_step lon_step lat_min lat_max lon_min lon_max
      dlat dlon file_lats file_lons,
    files w !! path = Some (Readable nc)
    ∧ match grid_dim with
      | Some seq => seq = [b1; b2; b3; b4]
      | None =>
          nc_attrs nc !! "lat_low" = Some b1
          ∧ nc_attrs nc !! "lat_high" = Some b2
          ∧ nc_attrs nc !! "lon_low" = Some b3
          ∧ nc_attrs nc !! "lon_high" = Some b4
      end
    ∧ nc_attrs nc !! "lat_res" = Some lat_step
    ∧ nc_attrs nc !! "lon_res" = Some lon_step
    ∧ ret_grid_dim g =
        <["LAT_LOW" := b1]> (
        <["LAT_HIGH" := b2]> (
        <["LON_LOW" := b3]> (
        <["LON_HIGH" := b4]> (
        <["LAT_STEP" := lat_step]> (
        <["LON_STEP" := lon_step]> ∅)))))
    ∧ operand (var_dtype (nc_float32 nc) "lat") b1 = Some lat_min
    ∧ operand (var_dtype (nc_float32 nc) "lat") b2 = Some lat_max
    ∧ operand (var_dtype (nc_float32 nc) "lon") b3 = Some lon_min
    ∧ operand (var_dtype (nc_float32 nc) "lon") b4 = Some lon_max
    ∧ nc_variables nc !! "lat" = Some (Var1 dlat file_lats)
    ∧ nc_variables nc !! "lon" = Some (Var1 dlon file_lons)
    ∧ ret_y g = Arr1 (List.filter (in_range lat_min lat_max) file_lats)
    ∧ ret_x g = Arr1 (List.filter (in_range lon_min lon_max) file_lons).
Proof.
  intros (date_min & date_max & nc & fv & [[[lat_min lat_max] lon_min] lon_max]
          & _ & _ & Hfile & [Hrd] & Hb & -> & _)%load_grid_returns.
  pose proof (rd_float32 _ _ Hrd) as Hf32.
  unfold effective_bounds, lat_dtype, lon_dtype in Hb. rewrite <- Hf32 in Hb.
  destruct grid_dim as [seq|].
  - destruct Hb as (b1 & b2 & b3 & b4 & -> & Ho1 & Ho2 & Ho3 & Ho4).
    exists nc, b1, b2, b3, b4, (VNum (fv_lat_res fv)), (VNum (fv_lon_res fv)),
      lat_min, lat_max, lon_min, lon_max,
      (fv_dlat fv), (fv_dlon fv), (fv_lats fv), (fv_lons fv).
    destruct Hrd. by split_and!.
  - destruct Hb as (-> & -> & -> & ->).
    exists nc, (VNum (fv_lat_low fv)), (VNum (fv_lat_high fv)),
      (VNum (fv_lon_low fv)), (VNum (fv_lon_high fv)),
      (VNum (fv_lat_res fv)), (VNum (fv_lon_res fv)),
      (fv_lat_low fv), (fv_lat_high fv), (fv_lon_low fv), (fv_lon_high fv),
      (fv_dlat fv), (fv_dlon fv), (fv_lats fv), (fv_lons fv).
    destruct Hrd. by split_and!.
Qed.

Lemma C7_metadata_records_effective_bounds_witness :
  ∃ g,
    fst (load_grid_from_netcdf 2 1 2018 4 1 2018 "small.nc"
           (Some [VPy (-2); VPy 2; VPy 0; VPy 10]) small_world) = inr g
    ∧ (ret_grid_dim g !! "LAT_LOW" = Some (VPy (-2))
       ∧ ret_grid_dim g !! "LAT_HIGH" = Some (VPy 2)
       ∧ ret_grid_dim g !! "LON_LOW" = Some (VPy 0)
       ∧ ret_grid_dim g !! "LON_HIGH" = Some (VPy 10)
       ∧ ret_grid_dim g !! "LAT_STEP" = Some (VNum 2)
       ∧ ret_grid_dim g !! "LON_STEP" = Some (VNum 2))
    ∧ ∃ nc b1 b2 b3 b4 lat_step lon_step lat_min lat_max lon_min lon_max
        dlat dlon file_lats file_lons,
        files small_world !! "small.nc" = Some (Readable nc)
        ∧ [VPy (-2); VPy 2; VPy 0; VPy 10] = [b1; b2; b3; b4]
        ∧ nc_attrs nc !! "lat_res" = Some lat_step
        ∧ nc_attrs nc !! "lon_res" = Some lon_step
        ∧ ret_grid_dim g =
            <["LAT_LOW" := b1]> (
            <["LAT_HIGH" := b2]> (
            <["LON_LOW" := b3]> (
            <["LON_HIGH" := b4]> (
            <["LAT_STEP" := lat_step]> (
            <["LON_STEP" := lon_step]> ∅)))))
        ∧ operand (var_dtype (nc_float32 nc) "lat") b1 = Some lat_min
        ∧ operand (var_dtype (nc_float32 nc) "lat") b2 = Some lat_max
        ∧ operand (var_dtype (nc_float32 nc) "lon") b3 = Some lon_min
        ∧ operand (var_dtype (nc_float32 nc) "lon") b4 = Some lon_max
        ∧ nc_variables nc !! "lat" = Some (Var1 dlat file_lats)
        ∧ nc_variables nc !! "lon" = Some (Var1 dlon file_lons)
        ∧ ret_y g = Arr1 (List.filter (in_range lat_min lat_max) file_lats)
        ∧ ret_x g = Arr1 (List.filter (in_range lon_min lon_max) file_lons).
Proof.
  eexists. split; [vm_compute; reflexivity |].
  split; [repeat split; vm_compute; reflexivity |].
  eapply (C7_metadata_records_effective_bounds 2 1 2018 4 1 2018 "small.nc"
            (Some [VPy (-2); VPy 2; VPy 0; VPy 10]) small_world).
  apply outcome_eq. vm_compute. reflexivity.
Defined.



(** C9. When the loader returns, the handle that the file was opened with
    is closed: it is not among the open handles of the world the loader
    leaves, in which the handles open before the call are the only ones
    open, and the files are as they were. *)
Theorem C9_handle_closed_on_return (d1 m1 y1 d2 m2 y2 : Z) (path : string)
    (grid_dim : option (list pyval)) (w w' : world) (g : GridSlice) :
  load_grid_from_netcdf d1 m1 y1 d2 m2 y2 path grid_dim w = (inr g, w') →
  next_handle w' = S (next_handle w)
  ∧ (next_handle w ∉ open_handles w')
  ∧ open_handles w' = (open_handles w ∖ {[next_handle w]})
  ∧ files w' = files w.
Proof.
  intros (_ & _ & _ & _ & _ & _ & _ & _ & _ & _ & _ & -> & _)%load_grid_returns.
  simpl. split_and!; [done | set_solver | set_solver | done].
Qed.

Lemma C9_handle_closed_on_return_witness :
  ∃ g,
    load_grid_from_netcdf 2 1 2018 4 1 2018 "small.nc" None small_world
    = (inr g, after_load small_world)
    ∧ next_handle (after_load small_world) = 1%nat
    ∧ (0%nat ∉ open_handles (after_load small_world))
    ∧ open_handles (after_load small_world)
      = (open_handles small_world ∖ {[0%nat]})
    ∧ files (after_load small_world) = files small_world.
Proof.
  eexists. split; [vm_compute; reflexivity |].
  eapply (C9_handle_closed_on_return
            2 1 2018 4 1 2018 "small.nc" None small_world).
  vm_compute. reflexivity.
Defined.



(** * Further properties of the loader *)

(** ** Positions of a selection *)

Lemma lookup_map {A B : Type} (f : A → B) (l : list A) (i : nat) :
  map f l !! i = f <$> l !! i.
Proof. revert i. induction l as [|x l IH]; intros [|i]; simpl; auto. Qed.

Lemma nonzero_from_ge (k : nat) (m : list bool) (i : nat) :
  i ∈ nonzero_from k m → (k ≤ i)%nat.
Proof.
  revert k. induction m as [|b m IH]; intros k; simpl; [by intros ?%elem_of_nil |].
  destruct b; [intros [-> | Hi%IH]%elem_of_cons | intros Hi%IH]; lia.
Qed.

Lemma nonzero_from_sorted (k : nat) (m : list bool) :
  StronglySorted lt (nonzero_from k m).
Proof.
  revert k. induction m as [|b m IH]; intros k; simpl; [constructor |].
  destruct b; [| apply IH]. constructor; [apply IH |].
  apply List.Forall_forall. intros i Hi%list_elem_of_In%nonzero_from_ge. lia.
Qed.

Lemma mask_select_lookup_from {A : Type} (m : list bool) (l : list A) (k r : nat) :
  mask_select m l !! r = nonzero_from k m !! r ≫= λ i, l !! (i - k)%nat.
Proof.
  revert l k r. induction m as [|b m IH]; intros l k r; simpl; [done |].
  destruct l as [|y l].
  { rewrite lookup_nil.
    destruct ((if b then _ else _) !! r) as [i|]; simpl; [| done].
    by rewrite lookup_nil. }
  assert (∀ r', nonzero_from (S k) m !! r' ≫= (λ i, (y :: l) !! (i - k)%nat)
               = nonzero_from (S k) m !! r' ≫= (λ i, l !! (i - S k)%nat)) as Hshift.
  { intros r'. destruct (nonzero_from (S k) m !! r') as [i|] eqn:Hi; [| done].
    simpl. apply list_elem_of_lookup_2, nonzero_from_ge in Hi.
    by replace (i - k)%nat with (S (i - S k)) by lia. }
  destruct b.
  - destruct r as [|r]; simpl.
    + by rewrite Nat.sub_diag.
    + by rewrite Hshift, <- IH.
  - by rewrite Hshift, <- IH.
Qed.

(** Boolean indexing reads the entries at the positions of the mask. *)
Lemma mask_select_lookup {A : Type} (m : list bool) (l : list A) (r : nat) :
  mask_select m l !! r = nonzero m !! r ≫= (l !!.).
Proof.
  unfold nonzero. rewrite (mask_select_lookup_from m l 0 r).
  destruct (nonzero_from 0 m !! r) as [i|]; simpl; [| done].
  by rewrite Nat.sub_0_r.
Qed.

Lemma select3_cell_at {A : Type} (ma mb mc : list bool) (a : ndarray3 A)
    (r1 r2 r3 : nat) :
  cell_at (select3 ma mb mc a) r1 r2 r3
  = i ← nonzero ma !! r1; j ← nonzero mb !! r2; k ← nonzero mc !! r3;
    cell_at a i j k.
Proof.
  unfold cell_at, select3. simpl.
  rewrite lookup_map, mask_select_lookup.
  destruct (nonzero ma !! r1) as [i|]; simpl; [| done].
  destruct (cells a !! i) as [plane|]; simpl.
  2: { destruct (nonzero mb !! r2); simpl; [| done].
       by destruct (nonzero mc !! r3). }
  rewrite lookup_map, mask_select_lookup.
  destruct (nonzero mb !! r2) as [j|]; simpl; [| done].
  destruct (plane !! j) as [row|]; simpl.
  2: { by destruct (nonzero mc !! r3). }
  by rewrite mask_select_lookup.
Qed.

(** X1. Whatever the loader returns stays aligned: there is, for each axis,
    a strictly increasing list of positions in the file such that the
    returned latitude, longitude and day at a position are the file's at
    the listed position, and the cell of each of the three returned arrays
    at a position is the file's cell at the three listed positions. *)
Theorem X1_cells_stay_with_their_coordinates (d1 m1 y1 d2 m2 y2 : Z)
    (path : string) (grid_dim : option (list pyval)) (w w' : world)
    (g : GridSlice) :
  load_grid_from_netcdf d1 m1 y1 d2 m2 y2 path grid_dim w = (inr g, w') →
  ∃ nc dlat dlon dday lats lons days fx fe fN pa pb pc ys xs ds,
    files w !! path = Some (Readable nc)
    ∧ nc_variables nc !! "lat" = Some (Var1 dlat lats)
    ∧ nc_variables nc !! "lon" = Some (Var1 dlon lons)
    ∧ nc_variables nc !! "day" = Some (Var1 dday days)
    ∧ nc_variables nc !! "xch4" = Some fx
    ∧ nc_variables nc !! "xch4_err" = Some fe
    ∧ nc_variables nc !! "N" = Some fN
    ∧ ret_y g = Arr1 ys ∧ ret_x g = Arr1 xs ∧ ret_d g = Var1 dday ds
    ∧ StronglySorted lt pa ∧ StronglySorted lt pb ∧ StronglySorted lt pc
    ∧ (∀ r, ys !! r = pa !! r ≫= (lats !!.))
    ∧ (∀ r, xs !! r = pb !! r ≫= (lons !!.))
    ∧ (∀ r, ds !! r = pc !! r ≫= (days !!.))
    ∧ (∀ r1 r2 r3,
         var_cell (ret_xch4 g) r1 r2 r3
         = i ← pa !! r1; j ← pb !! r2; k ← pc !! r3; var_cell fx i j k)
    ∧ (∀ r1 r2 r3,
         var_cell (ret_sdev g) r1 r2 r3
         = i ← pa !! r1; j ← pb !! r2; k ← pc !! r3; var_cell fe i j k)
    ∧ (∀ r1 r2 r3,
         var_cell (ret_N g) r1 r2 r3
         = i ← pa !! r1; j ← pb !! r2; k ← pc !! r3; var_cell fN i j k).
Proof.
  intros (date_min & date_max & nc & fv & [[[lat_min lat_max] lon_min] lon_max]
          & _ & _ & Hfile & [[] ? ? ?] & _ & -> & _)%load_grid_returns.
  exists nc, (fv_dlat fv), (fv_dlon fv), (fv_dday fv),
    (fv_lats fv), (fv_lons fv), (fv_days fv),
    (Var3 (fv_dims fv) (fv_xch4 fv)), (Var3 (fv_dims fv) (fv_xch4_err fv)),
    (Var3 (fv_dims fv) (fv_N fv)),
    (nonzero (map (in_range lat_min lat_max) (fv_lats fv))),
    (nonzero (map (in_range lon_min lon_max) (fv_lons fv))),
    (nonzero (map (in_days date_min date_max) (fv_days fv))).
  do 3 eexists. simpl.
  split_and!; try done; try apply nonzero_from_sorted;
    try (intros r; by rewrite <- mask_select_map, mask_select_lookup);
    intros r1 r2 r3; apply select3_cell_at.
Qed.

Lemma X1_cells_stay_with_their_coordinates_witness :
  ∃ g,
    fst (load_grid_from_netcdf 2 1 2018 4 1 2018 "small.nc"
           (Some [VNum (-2); VNum 2; VNum 0; VNum 10]) small_world) = inr g
    ∧ (ret_y g = Arr1 [-2; 0]%Q ∧ ret_x g = Arr1 [0; 2; 4]%Q
       ∧ ret_d g = Var1 "day" [17533; 17534; 17535]%Q
       ∧ var_cell (ret_xch4 g) 1 2 0 = Some (index_cell 2 5 1))
    ∧ ∃ nc dlat dlon dday lats lons days fx fe fN pa pb pc ys xs ds,
        files small_world !! "small.nc" = Some (Readable nc)
        ∧ nc_variables nc !! "lat" = Some (Var1 dlat lats)
        ∧ nc_variables nc !! "lon" = Some (Var1 dlon lons)
        ∧ nc_variables nc !! "day" = Some (Var1 dday days)
        ∧ nc_variables nc !! "xch4" = Some fx
        ∧ nc_variables nc !! "xch4_err" = Some fe
        ∧ nc_variables nc !! "N" = Some fN
        ∧ ret_y g = Arr1 ys ∧ ret_x g = Arr1 xs ∧ ret_d g = Var1 dday ds
        ∧ StronglySorted lt pa ∧ StronglySorted lt pb ∧ StronglySorted lt pc
        ∧ (∀ r, ys !! r = pa !! r ≫= (lats !!.))
        ∧ (∀ r, xs !! r = pb !! r ≫= (lons !!.))
        ∧ (∀ r, ds !! r = pc !! r ≫= (days !!.))
        ∧ (∀ r1 r2 r3,
             var_cell (ret_xch4 g) r1 r2 r3
             = i ← pa !! r1; j ← pb !! r2; k ← pc !! r3; var_cell fx i j k)
        ∧ (∀ r1 r2 r3,
             var_cell (ret_sdev g) r1 r2 r3
             = i ← pa !! r1; j ← pb !! r2; k ← pc !! r3; var_cell fe i j k)
        ∧ (∀ r1 r2 r3,
             var_cell (ret_N g) r1 r2 r3
             = i ← pa !! r1; j ← pb !! r2; k ← pc !! r3; var_cell fN i j k).
Proof.
  eexists. split; [vm_compute; reflexivity |].
  split; [repeat split; vm_compute; reflexivity |].
  eapply (X1_cells_stay_with_their_coordinates 2 1 2018 4 1 2018 "small.nc"
            (Some [VNum (-2); VNum 2; VNum 0; VNum 10]) small_world).
  apply outcome_eq. vm_compute. reflexivity.
Defined.

(** ** What the selection keeps *)

Lemma filter_sublist {A : Type} (p : A → bool) (l : list A) :
  List.filter p l `sublist_of` l.
Proof.
  induction l as [|x l IH]; simpl; [constructor |].
  destruct (p x); by constructor.
Qed.

Lemma filter_sorted {A : Type} (R : A → A → Prop) (p : A → bool) (l : list A) :
  StronglySorted R l → StronglySorted R (List.filter p l).
Proof.
  induction 1 as [|x l Hl IH Hx]; simpl; [constructor |].
  destruct (p x); [| done]. constructor; [done |].
  apply List.Forall_forall. intros y [Hy _]%filter_In.
  by eapply List.Forall_forall in Hx.
Qed.

(** X2. The loader neither sorts nor fills in: the latitudes, longitudes
    and days it returns are sublists of the file's (same order, nothing
    added, nothing repeated), so they are sorted when the file's are. *)
Theorem X2_selection_keeps_file_order (d1 m1 y1 d2 m2 y2 : Z)
    (path : string) (grid_dim : option (list pyval)) (w w' : world)
    (g : GridSlice) :
  load_grid_from_netcdf d1 m1 y1 d2 m2 y2 path grid_dim w = (inr g, w') →
  ∃ nc dlat dlon dday lats lons days ys xs ds,
    files w !! path = Some (Readable nc)
    ∧ nc_variables nc !! "lat" = Some (Var1 dlat lats)
    ∧ nc_variables nc !! "lon" = Some (Var1 dlon lons)
    ∧ nc_variables nc !! "day" = Some (Var1 dday days)
    ∧ ret_y g = Arr1 ys ∧ ret_x g = Arr1 xs ∧ ret_d g = Var1 dday ds
    ∧ ys `sublist_of` lats ∧ xs `sublist_of` lons ∧ ds `sublist_of` days
    ∧ ∀ R : Q → Q → Prop,
        (StronglySorted R lats → StronglySorted R ys)
        ∧ (StronglySorted R lons → StronglySorted R xs)
        ∧ (StronglySorted R days → StronglySorted R ds).
Proof.
  intros (date_min & date_max & nc & fv & [[[lat_min lat_max] lon_min] lon_max]
          & _ & _ & Hfile & [[] ? ? ?] & _ & -> & _)%load_grid_returns.
  exists nc, (fv_dlat fv), (fv_dlon fv), (fv_dday fv),
    (fv_lats fv), (fv_lons fv), (fv_days fv).
  do 3 eexists. simpl.
  split_and!; try done; try apply filter_sublist.
  intros R. split_and!; apply filter_sorted.
Qed.

Lemma X2_selection_keeps_file_order_witness :
  ∃ g,
    fst (load_grid_from_netcdf 1 1 2018 5 1 2018 "shuffled.nc" None odd_world)
    = inr g
    ∧ ret_d g = Var1 "day" [17536; 17532; 17534; 17533]%Q
    ∧ ∃ nc dlat dlon dday lats lons days ys xs ds,
        files odd_world !! "shuffled.nc" = Some (Readable nc)
        ∧ nc_variables nc !! "lat" = Some (Var1 dlat lats)
        ∧ nc_variables nc !! "lon" = Some (Var1 dlon lons)
        ∧ nc_variables nc !! "day" = Some (Var1 dday days)
        ∧ ret_y g = Arr1 ys ∧ ret_x g = Arr1 xs ∧ ret_d g = Var1 dday ds
        ∧ ys `sublist_of` lats ∧ xs `sublist_of` lons ∧ ds `sublist_of` days
        ∧ ∀ R : Q → Q → Prop,
            (StronglySorted R lats → StronglySorted R ys)
            ∧ (StronglySorted R lons → StronglySorted R xs)
            ∧ (StronglySorted R days → StronglySorted R ds).
Proof.
  eexists. split; [vm_compute; reflexivity |].
  split; [reflexivity |].
  eapply (X2_selection_keeps_file_order 1 1 2018 5 1 2018 "shuffled.nc" None
            odd_world).
  apply outcome_eq. vm_compute. reflexivity.
Defined.

(** ** How the loader raises *)

(** X3. A date that [datetime] refuses makes the loader raise before it
    touches the path: the world is as it was, whatever the path names.
    What is raised comes from the first date that is refused:
    [OverflowError] when one of its three numbers is beyond a C int,
    [ValueError] otherwise. *)
Theorem X3_invalid_date_raises_before_open (d1 m1 y1 d2 m2 y2 : Z)
    (path : string) (grid_dim : option (list pyval)) (w : world) :
  Datetime.check_date_fields y1 m1 d1 = false
  ∨ Datetime.check_date_fields y2 m2 d2 = false →
  ∃ e,
    load_grid_from_netcdf d1 m1 y1 d2 m2 y2 path grid_dim w = (inl e, w)
    ∧ (e = ValueError ∨ e = OverflowError)
    ∧ (e = OverflowError ↔
       if Datetime.check_date_fields y1 m1 d1
       then Datetime.fits_int y2 && Datetime.fits_int m2 && Datetime.fits_int d2
            = false
       else Datetime.fits_int y1 && Datetime.fits_int m1 && Datetime.fits_int d1
            = false).
Proof.
  intros Hbad. unfold load_grid_from_netcdf. rewrite bind_lift.
  destruct (days_since_epoch y1 m1 d1) as [e|date_min] eqn:Hmin.
  { exists e. split; [done |].
    apply days_since_epoch_inl in Hmin as [[Hfits ->] | (Hfits & -> & ->)].
    - split; [by right |].
      destruct (Datetime.check_date_fields y1 m1 d1) eqn:Hok; [| done].
      apply DatetimeFacts.check_date_fields_fits in Hok. congruence.
    - split; [by left |]. rewrite Hfits. split; intros; discriminate. }
  apply days_since_epoch_inr in Hmin as [Hok1 _].
  destruct Hbad as [Hbad | Hbad]; [congruence |].
  rewrite bind_lift, Hok1.
  destruct (days_since_epoch y2 m2 d2) as [e|date_max] eqn:Hmax.
  { exists e. split; [done |].
    apply days_since_epoch_inl in Hmax as [[Hfits ->] | (Hfits & _ & ->)].
    - split; [by right | done].
    - split; [by left |]. rewrite Hfits. split; intros; discriminate. }
  apply days_since_epoch_inr in Hmax as [Hok2 _]. congruence.
Qed.

Lemma X3_invalid_date_raises_before_open_witness :
  load_grid_from_netcdf 1 1 2018 30 2 2018 "small.nc" None small_world
  = (inl ValueError, small_world)
  ∧ load_grid_from_netcdf 0 1 2018 1 2 2018 "absent.nc" None small_world
    = (inl ValueError, small_world)
  ∧ load_grid_from_netcdf 1 1 2147483648 1 2 2018 "small.nc" None small_world
    = (inl OverflowError, small_world).
Proof.
  split_and!.
  - destruct (X3_invalid_date_raises_before_open 1 1 2018 30 2 2018 "small.nc"
                None small_world) as (e & Hload & [-> | ->] & Hkind);
      [right; reflexivity | exact Hload |].
    pose proof (proj1 Hkind eq_refl) as Hfits.
    vm_compute in Hfits. discriminate.
  - destruct (X3_invalid_date_raises_before_open 0 1 2018 1 2 2018 "absent.nc"
                None small_world) as (e & Hload & [-> | ->] & Hkind);
      [left; reflexivity | exact Hload |].
    pose proof (proj1 Hkind eq_refl) as Hfits.
    vm_compute in Hfits. discriminate.
  - destruct (X3_invalid_date_raises_before_open 1 1 2147483648 1 2 2018
                "small.nc" None small_world) as (e & Hload & _ & Hkind);
      [left; reflexivity |].
    rewrite Hload. by rewrite (proj2 Hkind eq_refl).
Defined.

(** X4. Whenever the loader raises, it leaves no handle open and the files
    as they were: [xr.load_dataset] has closed the file before it returns
    the dataset. With valid dates on a readable file the world the loader
    leaves is the one after the load, in which one more handle has been
    used and the handles open before are the only ones open; otherwise the
    world is as it was. *)
Theorem X4_raising_leaves_no_handle_open (d1 m1 y1 d2 m2 y2 : Z)
    (path : string) (grid_dim : option (list pyval)) (w w' : world) (e : exn) :
  load_grid_from_netcdf d1 m1 y1 d2 m2 y2 path grid_dim w = (inl e, w') →
  files w' = files w
  ∧ open_handles w' ⊆ open_handles w
  ∧ ((∃ date_min date_max nc,
        days_since_epoch y1 m1 d1 = inr date_min
        ∧ days_since_epoch y2 m2 d2 = inr date_max
        ∧ files w !! path = Some (Readable nc)) →
     w' = after_load w
     ∧ next_handle w' = S (next_handle w)
     ∧ (next_handle w ∉ open_handles w'))
  ∧ (¬ (∃ date_min date_max nc,
          days_since_epoch y1 m1 d1 = inr date_min
          ∧ days_since_epoch y2 m2 d2 = inr date_max
          ∧ files w !! path = Some (Readable nc)) →
     w' = w).
Proof.
  intros Hload.
  pose proof Hload as Hcases. apply load_grid_raises in Hcases.
  assert (w' = w ∨ w' = after_load w) as Hw.
  { destruct Hcases
      as [(-> & _) | [(-> & _) | [(-> & _) | [(-> & _) | (_ & _ & -> & _)]]]];
      auto. }
  split_and!.
  - by destruct Hw as [-> | ->].
  - destruct Hw as [-> | ->]; [done | simpl; set_solver].
  - intros (date_min & date_max & nc & Hmin & Hmax & Hfile).
    destruct Hcases
      as [(_ & [? | ?]) | [(_ & ? & _) | [(_ & ? & _) | [(_ & ? & _)
         | (nc' & _ & -> & _)]]]];
      try congruence.
    split_and!; [done | done | simpl; set_solver].
  - intros Hnot. clear Hcases Hw. unfold load_grid_from_netcdf in Hload.
    rewrite bind_lift in Hload.
    destruct (days_since_epoch y1 m1 d1) as [x|date_min] eqn:Hmin;
      [by injection Hload as _ <- |].
    rewrite bind_lift in Hload.
    destruct (days_since_epoch y2 m2 d2) as [x|date_max] eqn:Hmax;
      [by injection Hload as _ <- |].
    rewrite bind_load_dataset in Hload.
    destruct (files w !! path) as [[| |nc]|] eqn:Hfile;
      [by injection Hload as _ <- | by injection Hload as _ <- |
      | by injection Hload as _ <-].
    destruct Hnot. by exists date_min, date_max, nc.
Qed.

Lemma X4_raising_leaves_no_handle_open_witness :
  (load_grid_from_netcdf 2 1 2018 4 1 2018 "no_err.nc" None broken_world
   = (inl (KeyError "xch4_err"), after_load broken_world)
   ∧ open_handles (after_load broken_world) ⊆ open_handles broken_world
   ∧ next_handle (after_load broken_world) = S (next_handle broken_world)
   ∧ (next_handle broken_world ∉ open_handles (after_load broken_world)))
  ∧ (∀ e w',
       load_grid_from_netcdf 2 1 2018 4 1 2018 "notes.txt" None broken_world
       = (inl e, w') →
       w' = broken_world).
Proof.
  assert (load_grid_from_netcdf 2 1 2018 4 1 2018 "no_err.nc" None broken_world
          = (inl (KeyError "xch4_err"), after_load broken_world)) as Hkey
    by (apply outcome_eq; vm_compute; reflexivity).
  split.
  - split; [exact Hkey |].
    destruct (X4_raising_leaves_no_handle_open _ _ _ _ _ _ _ _ _ _ _ Hkey)
      as (_ & Hsub & Hafter & _).
    split; [exact Hsub |]. apply Hafter.
    exists 17533, 17535, no_err_file. repeat split; reflexivity.
  - intros e w' Hload.
    apply (X4_raising_leaves_no_handle_open _ _ _ _ _ _ _ _ _ _ _ Hload).
    intros (? & ? & nc & _ & _ & Hfile). vm_compute in Hfile. discriminate.
Defined.

(** X5. The declared extent enters no selection, yet it can stop the
    loader: on a readable file whose [lat_res] or [lon_res] is zero, or
    whose declared number of latitude or longitude cells
    [int((high - low) / step)] is negative, the loader never returns, and
    what it raises is not of the [OSError] kind. *)
Theorem X5_degenerate_declared_grid_never_loads (d1 m1 y1 d2 m2 y2 : Z)
    (path : string) (grid_dim : option (list pyval)) (w : world) (nc : NetCDF)
    (low high step : Q) :
  files w !! path = Some (Readable nc) →
  (nc_attrs nc !! "lat_low" = Some (VNum low)
   ∧ nc_attrs nc !! "lat_high" = Some (VNum high)
   ∧ nc_attrs nc !! "lat_res" = Some (VNum step))
  ∨ (nc_attrs nc !! "lon_low" = Some (VNum low)
     ∧ nc_attrs nc !! "lon_high" = Some (VNum high)
     ∧ nc_attrs nc !! "lon_res" = Some (VNum step)) →
  (step == 0)%Q ∨ py_int ((high - low) / step) < 0 →
  ∃ e w',
    load_grid_from_netcdf d1 m1 y1 d2 m2 y2 path grid_dim w = (inl e, w')
    ∧ is_OSError e = false.
Proof.
  intros Hfile Haxis Hbad.
  destruct (load_grid_from_netcdf d1 m1 y1 d2 m2 y2 path grid_dim w)
    as [[e|g] w'] eqn:Hload.
  - exists e, w'. split; [done |].
    apply load_grid_raises in Hload
      as [(_ & [He | He]) | [(_ & ? & _) | [(_ & ? & _) | [(_ & ? & _)
         | (nc' & _ & _ & Hrao)]]]];
      try congruence; try (by destruct Hrao);
      apply days_since_epoch_inl in He as [[_ ->] | (_ & _ & ->)]; done.
  - apply load_grid_returns in Hload
      as (_ & _ & nc' & fv & _ & _ & _ & Hfile' & [[] ? ? ?] & _).
    simplify_eq.
    destruct Haxis as [(Hlow & Hhigh & Hres) | (Hlow & Hhigh & Hres)];
      simplify_eq;
      (destruct Hbad as [Hz%Qeq_bool_iff | Hneg]; [congruence | lia]).
Qed.

Lemma X5_degenerate_declared_grid_never_loads_witness :
  (∃ e w',
     load_grid_from_netcdf 2 1 2018 4 1 2018 "zero_step.nc" None odd_world
     = (inl e, w')
     ∧ is_OSError e = false)
  ∧ (∃ e w',
       load_grid_from_netcdf 2 1 2018 4 1 2018 "reversed.nc"
         (Some [VNum (-4); VNum 4; VNum (-6); VNum 6]) odd_world
       = (inl e, w')
       ∧ is_OSError e = false).
Proof.
  split.
  - apply (X5_degenerate_declared_grid_never_loads 2 1 2018 4 1 2018
             "zero_step.nc" None odd_world zero_step_file (-4) 4 0);
      [reflexivity | left; repeat split; reflexivity | by left].
  - apply (X5_degenerate_declared_grid_never_loads 2 1 2018 4 1 2018
             "reversed.nc" (Some [VNum (-4); VNum 4; VNum (-6); VNum 6])
             odd_world reversed_file 4 (-4) 2);
      [reflexivity | left; repeat split; reflexivity | right; by vm_compute].
Defined.



(** ** Requests inside requests *)

Lemma accepts_unique (nc : NetCDF) (fv fv' : file_view) :
  accepts nc fv → accepts nc fv' → fv = fv'.
Proof.
  intros [[] ? ? ?] [[] ? ? ?].
  destruct fv, fv'. unfold fv_dims in *. simpl in *.
  repeat match goal with
         | H1 : ?x = Some _, H2 : ?x = Some _ |- _ =>
             rewrite H1 in H2; injection H2 as ?; clear H1
         end.
  by subst.
Qed.

Lemma mask_select_fmap {A B : Type} (f : A → B) (m : list bool) (l : list A) :
  mask_select m (map f l) = map f (mask_select m l).
Proof.
  revert l. induction m as [|b m IH]; intros [|x l]; simpl; try done.
  destruct b; simpl; by rewrite IH.
Qed.

Lemma mask_select_nil_r {A : Type} (m : list bool) :
  mask_select m (@nil A) = [].
Proof. by destruct m. Qed.

Lemma filter_filter_implies {A : Type} (p p' : A → bool) (l : list A) :
  (∀ x, p' x = true → p x = true) →
  List.filter p' (List.filter p l) = List.filter p' l.
Proof.
  intros Himp. induction l as [|x l IH]; simpl; [done |].
  destruct (p x) eqn:Hp; simpl; destruct (p' x) eqn:Hp'; rewrite ?IH; try done.
  apply Himp in Hp'. congruence.
Qed.

(** Selecting from a selection with a narrower mask is selecting with the
    narrower mask. *)
Lemma mask_select_narrow {A B : Type} (p p' : A → bool) (l : list A)
    (xs : list B) :
  (∀ x, p' x = true → p x = true) →
  mask_select (map p' (List.filter p l)) (mask_select (map p l) xs)
  = mask_select (map p' l) xs.
Proof.
  intros Himp. revert xs.
  induction l as [|a l IH]; intros [|x xs]; simpl; try done.
  - by rewrite mask_select_nil_r.
  - destruct (p a) eqn:Hp; simpl.
    + destruct (p' a); by rewrite IH.
    + destruct (p' a) eqn:Hp'; [| apply IH]. apply Himp in Hp'. congruence.
Qed.

Lemma select3_narrow {A B C D : Type} (p p' : A → bool) (q q' : B → bool)
    (r r' : C → bool) (la : list A) (lb : list B) (lc : list C)
    (a : ndarray3 D) :
  (∀ x, p' x = true → p x = true) →
  (∀ x, q' x = true → q x = true) →
  (∀ x, r' x = true → r x = true) →
  select3 (map p' (List.filter p la)) (map q' (List.filter q lb))
          (map r' (List.filter r lc))
          (select3 (map p la) (map q lb) (map r lc) a)
  = select3 (map p' la) (map q' lb) (map r' lc) a.
Proof.
  intros Hp Hq Hr. unfold select3. simpl.
  rewrite !count_true_map, !filter_filter_implies by done. f_equal.
  rewrite mask_select_fmap, map_map, mask_select_narrow by done.
  apply map_ext. intros plane.
  rewrite mask_select_fmap, map_map, mask_select_narrow by done.
  apply map_ext. intros row. by apply mask_select_narrow.
Qed.

Lemma in_range_narrow (lo hi lo' hi' v : Q) :
  (lo <= lo')%Q → (hi' <= hi)%Q →
  in_range lo' hi' v = true → in_range lo hi v = true.
Proof.
  rewrite !in_range_spec. intros Hlo Hhi [Hlo' Hhi']. split.
  - by eapply Qle_trans.
  - by eapply Qlt_le_trans.
Qed.

Lemma in_days_narrow (lo hi lo' hi' : Z) (v : Q) :
  lo ≤ lo' → hi' ≤ hi →
  in_days lo' hi' v = true → in_days lo hi v = true.
Proof.
  rewrite !in_days_spec. intros Hlo Hhi [Hlo' Hhi'].
  rewrite Zle_Qle in Hlo, Hhi. split; by eapply Qle_trans.
Qed.

(** The bounds a call compares the coordinates of a file with are fixed by
    the call and the file. *)
Lemma bounds_in_force_unique (grid_dim : option (list pyval)) (nc : NetCDF)
    (fv : file_view) (b b' : Q * Q * Q * Q) :
  reads nc fv → effective_bounds grid_dim fv b → bounds_in_force grid_dim nc b' →
  b = b'.
Proof.
  intros Hrd Hb%(effective_bounds_in_force _ nc) Hb'; [| done].
  destruct b as [[[a1 a2] a3] a4], b' as [[[c1 c2] c3] c4].
  unfold bounds_in_force in *. destruct grid_dim as [seq|].
  - destruct Hb as (? & ? & ? & ? & -> & ? & ? & ? & ?).
    destruct Hb' as (? & ? & ? & ? & [= <- <- <- <-] & ? & ? & ? & ?).
    repeat f_equal; congruence.
  - destruct Hb as (? & ? & ? & ?), Hb' as (? & ? & ? & ?).
    repeat f_equal; congruence.
Qed.

(** X7. Loading a request that lies inside another (later start, earlier
    end, bounds within the bounds, each bound taken as numpy compares it
    with the coordinate of the file: a Python number converted to the type
    of the coordinate) gives what slicing the result of the wider request
    gives: the coordinates of the wider result within the narrower bounds
    and dates, and its three arrays indexed by the masks of those
    coordinates. *)
Theorem X7_narrower_request_is_slice_of_wider (d1 m1 y1 d2 m2 y2 : Z)
    (d1' m1' y1' d2' m2' y2' : Z) (path : string)
    (grid_dim grid_dim' : option (list pyval)) (nc : NetCDF)
    (lat_min lat_max lon_min lon_max lat_min' lat_max' lon_min' lon_max' : Q)
    (date_min date_max date_min' date_max' : Z)
    (w w1 w2 : world) (g g' : GridSlice) :
  load_grid_from_netcdf d1 m1 y1 d2 m2 y2 path grid_dim w = (inr g, w1) →
  load_grid_from_netcdf d1' m1' y1' d2' m2' y2' path grid_dim' w
  = (inr g', w2) →
  files w !! path = Some (Readable nc) →
  bounds_in_force grid_dim nc (lat_min, lat_max, lon_min, lon_max) →
  bounds_in_force grid_dim' nc (lat_min', lat_max', lon_min', lon_max') →
  days_since_epoch y1 m1 d1 = inr date_min →
  days_since_epoch y2 m2 d2 = inr date_max →
  days_since_epoch y1' m1' d1' = inr date_min' →
  days_since_epoch y2' m2' d2' = inr date_max' →
  date_min ≤ date_min' → date_max' ≤ date_max →
  (lat_min <= lat_min')%Q → (lat_max' <= lat_max)%Q →
  (lon_min <= lon_min')%Q → (lon_max' <= lon_max)%Q →
  ∃ ys xs dday ds dims a1 a2 a3,
    ret_y g = Arr1 ys ∧ ret_x g = Arr1 xs ∧ ret_d g = Var1 dday ds
    ∧ ret_xch4 g = Var3 dims a1 ∧ ret_sdev g = Var3 dims a2
    ∧ ret_N g = Var3 dims a3
    ∧ ret_y g' = Arr1 (List.filter (in_range lat_min' lat_max') ys)
    ∧ ret_x g' = Arr1 (List.filter (in_range lon_min' lon_max') xs)
    ∧ ret_d g' = Var1 dday (List.filter (in_days date_min' date_max') ds)
    ∧ ret_xch4 g'
      = Var3 dims (select3 (map (in_range lat_min' lat_max') ys)
                           (map (in_range lon_min' lon_max') xs)
                           (map (in_days date_min' date_max') ds) a1)
    ∧ ret_sdev g'
      = Var3 dims (select3 (map (in_range lat_min' lat_max') ys)
                           (map (in_range lon_min' lon_max') xs)
                           (map (in_days date_min' date_max') ds) a2)
    ∧ ret_N g'
      = Var3 dims (select3 (map (in_range lat_min' lat_max') ys)
                           (map (in_range lon_min' lon_max') xs)
                           (map (in_days date_min' date_max') ds) a3).
Proof.
  intros (dmin & dmax & nc1 & fv & b
          & Hmin & Hmax & Hfile1 & Hacc & Hb & -> & _)%load_grid_returns
         (dmin' & dmax' & nc2 & fv' & b'
          & Hmin' & Hmax' & Hfile2 & Hacc' & Hb' & -> & _)%load_grid_returns
         Hfile Hforce Hforce'
         Hd1 Hd2 Hd1' Hd2' Hdlo Hdhi Hlatlo Hlathi Hlonlo Hlonhi.
  assert (dmin = date_min ∧ dmax = date_max ∧ dmin' = date_min'
          ∧ dmax' = date_max') as (-> & -> & -> & ->)
    by (split_and!; congruence).
  assert (nc1 = nc ∧ nc2 = nc) as [-> ->] by (split; congruence).
  pose proof (accepts_unique _ _ _ Hacc Hacc') as <-.
  pose proof (bounds_in_force_unique _ _ _ _ _ (acc_reads _ _ Hacc) Hb Hforce)
    as ->.
  pose proof (bounds_in_force_unique _ _ _ _ _ (acc_reads _ _ Hacc) Hb' Hforce')
    as ->.
  do 8 eexists. simpl. split_and!; try reflexivity.
  - by rewrite filter_filter_implies by (intros v; by apply in_range_narrow).
  - by rewrite filter_filter_implies by (intros v; by apply in_range_narrow).
  - by rewrite filter_filter_implies by (intros v; by apply in_days_narrow).
  - by rewrite select3_narrow
      by (intros v; first [by apply in_range_narrow | by apply in_days_narrow]).
  - by rewrite select3_narrow
      by (intros v; first [by apply in_range_narrow | by apply in_days_narrow]).
  - by rewrite select3_narrow
      by (intros v; first [by apply in_range_narrow | by apply in_days_narrow]).
Qed.

Lemma X7_narrower_request_is_slice_of_wider_witness :
  ∃ g g',
    fst (load_grid_from_netcdf 1 1 2018 5 1 2018 "single.nc"
           (Some [VPy double_0_7; VPy 4; VPy 0; VPy 3]) varied_world) = inr g
    ∧ fst (load_grid_from_netcdf 2 1 2018 4 1 2018 "single.nc"
             (Some [VPy 1; VPy 3; VPy 0; VPy 2]) varied_world) = inr g'
    ∧ ret_y g = Arr1 [single_0_7; 3 # 2; 2]%Q
    ∧ ret_y g' = Arr1 [3 # 2; 2]%Q
    ∧ ∃ ys xs dday ds dims a1 a2 a3,
        ret_y g = Arr1 ys ∧ ret_x g = Arr1 xs ∧ ret_d g = Var1 dday ds
        ∧ ret_xch4 g = Var3 dims a1 ∧ ret_sdev g = Var3 dims a2
        ∧ ret_N g = Var3 dims a3
        ∧ ret_y g' = Arr1 (List.filter (in_range (to_float32 1) (to_float32 3)) ys)
        ∧ ret_x g' = Arr1 (List.filter (in_range (to_float32 0) (to_float32 2)) xs)
        ∧ ret_d g' = Var1 dday (List.filter (in_days 17533 17535) ds)
        ∧ ret_xch4 g'
          = Var3 dims (select3 (map (in_range (to_float32 1) (to_float32 3)) ys)
                               (map (in_range (to_float32 0) (to_float32 2)) xs)
                               (map (in_days 17533 17535) ds) a1)
        ∧ ret_sdev g'
          = Var3 dims (select3 (map (in_range (to_float32 1) (to_float32 3)) ys)
                               (map (in_range (to_float32 0) (to_float32 2)) xs)
                               (map (in_days 17533 17535) ds) a2)
        ∧ ret_N g'
          = Var3 dims (select3 (map (in_range (to_float32 1) (to_float32 3)) ys)
                               (map (in_range (to_float32 0) (to_float32 2)) xs)
                               (map (in_days 17533 17535) ds) a3).
Proof.
  eexists _, _. split; [vm_compute; reflexivity |].
  split; [vm_compute; reflexivity |].
  split; [by vm_compute |]. split; [by vm_compute |].
  eapply (X7_narrower_request_is_slice_of_wider
            1 1 2018 5 1 2018 2 1 2018 4 1 2018 "single.nc"
            (Some [VPy double_0_7; VPy 4; VPy 0; VPy 3])
            (Some [VPy 1; VPy 3; VPy 0; VPy 2]) single_file
            (to_float32 double_0_7) (to_float32 4) (to_float32 0) (to_float32 3)
            (to_float32 1) (to_float32 3) (to_float32 0) (to_float32 2)
            17532 17536 17533 17535 varied_world);
    [apply outcome_eq; vm_compute; reflexivity
    | apply outcome_eq; vm_compute; reflexivity
    | reflexivity
    | do 4 eexists; split; [reflexivity |]; split_and!; by vm_compute
    | do 4 eexists; split; [reflexivity |]; split_and!; by vm_compute
    | reflexivity | reflexivity | reflexivity | reflexivity
    | lia | lia | by vm_compute | by vm_compute | by vm_compute
    | by vm_compute].
Defined.

(** ** Requests that cover the file *)

Lemma mask_select_all {A B : Type} (p : A → bool) (l : list A) (xs : list B) :
  Forall (λ x, p x = true) l → length xs = length l →
  mask_select (map p l) xs = xs.
Proof.
  intros Hall. revert xs.
  induction Hall as [|a l Ha _ IH]; intros [|x xs] Hlen; simpl in *; try done.
  rewrite Ha. f_equal. apply IH. lia.
Qed.

Lemma filter_all {A : Type} (p : A → bool) (l : list A) :
  Forall (λ x, p x = true) l → List.filter p l = l.
Proof.
  induction 1 as [|a l Ha _ IH]; simpl; [done |]. by rewrite Ha, IH.
Qed.

Lemma select3_all {A B C D : Type} (p : A → bool) (q : B → bool) (r : C → bool)
    (la : list A) (lb : list B) (lc : list C) (a : ndarray3 D) :
  Forall (λ x, p x = true) la → Forall (λ x, q x = true) lb →
  Forall (λ x, r x = true) lc →
  shape a = (length la, length lb, length lc) → rectangular a = true →
  select3 (map p la) (map q lb) (map r lc) a = a.
Proof.
  intros Hp Hq Hr Hshape Hrect. destruct a as [[[n1 n2] n3] cs].
  unfold select3, rectangular in *. simpl in *.
  injection Hshape as -> -> ->.
  apply andb_prop in Hrect as [Hn1%Nat.eqb_eq Hcs].
  rewrite !count_true_map, !filter_all by done. f_equal.
  rewrite mask_select_all by done.
  rewrite forallb_forall in Hcs.
  rewrite <- (map_id cs) at 2. apply map_ext_in. intros plane Hplane.
  apply Hcs in Hplane as [Hn2%Nat.eqb_eq Hrows]%andb_prop.
  rewrite mask_select_all by done.
  rewrite forallb_forall in Hrows.
  rewrite <- (map_id plane) at 2. apply map_ext_in. intros row Hrow.
  apply Hrows in Hrow as Hn3%Nat.eqb_eq. by apply mask_select_all.
Qed.

(** X8. A request that covers the file returns the file: when every
    latitude and longitude of the file lies within the bounds in force
    (the caller's, each as numpy compares it with the coordinate, a Python
    number converted to the type of the coordinate; or the extent the file
    declares), every day within the two offsets, and the cells of the three
    arrays fill their shapes, the loader returns the coordinates and the
    three variables exactly as the file has them. *)
Theorem X8_covering_request_returns_file (d1 m1 y1 d2 m2 y2 : Z)
    (path : string) (grid_dim : option (list pyval)) (w w' : world)
    (g : GridSlice) (nc : NetCDF) (date_min date_max : Z)
    (lat_min lat_max lon_min lon_max : Q) (dlat dlon dday : string)
    (lats lons days : list Q) (fx fe fN : XrVariable Q) :
  load_grid_from_netcdf d1 m1 y1 d2 m2 y2 path grid_dim w = (inr g, w') →
  files w !! path = Some (Readable nc) →
  days_since_epoch y1 m1 d1 = inr date_min →
  days_since_epoch y2 m2 d2 = inr date_max →
  bounds_in_force grid_dim nc (lat_min, lat_max, lon_min, lon_max) →
  nc_variables nc !! "lat" = Some (Var1 dlat lats) →
  nc_variables nc !! "lon" = Some (Var1 dlon lons) →
  nc_variables nc !! "day" = Some (Var1 dday days) →
  nc_variables nc !! "xch4" = Some fx →
  nc_variables nc !! "xch4_err" = Some fe →
  nc_variables nc !! "N" = Some fN →
  Forall (λ v, lat_min <= v ∧ v < lat_max)%Q lats →
  Forall (λ v, lon_min <= v ∧ v < lon_max)%Q lons →
  Forall (λ v, inject_Z date_min <= v ∧ v <= inject_Z date_max)%Q days →
  var_rectangular fx = true → var_rectangular fe = true →
  var_rectangular fN = true →
  ret_xch4 g = fx ∧ ret_sdev g = fe ∧ ret_N g = fN
  ∧ ret_y g = Arr1 lats ∧ ret_x g = Arr1 lons ∧ ret_d g = Var1 dday days.
Proof.
  intros (dmin & dmax & nc' & fv & b
          & Hmin & Hmax & Hfile & Hacc & Hb & -> & _)%load_grid_returns
         Hfile' Hmin' Hmax' Hgrid Hlat Hlon Hday Hfx Hfe HfN
         Hlats Hlons Hdays Hrx Hre HrN.
  assert (dmin = date_min ∧ dmax = date_max) as [-> ->]
    by (split; congruence).
  assert (nc' = nc) as -> by congruence.
  pose proof (bounds_in_force_unique _ _ _ _ _ (acc_reads _ _ Hacc) Hb Hgrid)
    as ->.
  destruct Hacc as [[] ? ? ?].
  assert (fv_lats fv = lats ∧ fv_lons fv = lons ∧ fv_days fv = days
          ∧ fv_dday fv = dday) as (Hl1 & Hl2 & Hl3 & Hl4)
    by (split_and!; congruence).
  assert (fx = Var3 (fv_dims fv) (fv_xch4 fv)
          ∧ fe = Var3 (fv_dims fv) (fv_xch4_err fv)
          ∧ fN = Var3 (fv_dims fv) (fv_N fv)) as (-> & -> & ->)
    by (split_and!; congruence).
  unfold fv_shape in *. simpl in Hrx, Hre, HrN |- *.
  rewrite Hl1, Hl2, Hl3, Hl4 in *.
  assert (Forall (λ v, in_range lat_min lat_max v = true) lats) as Hpa.
  { eapply Forall_impl; [exact Hlats |]. intros v. by rewrite in_range_spec. }
  assert (Forall (λ v, in_range lon_min lon_max v = true) lons) as Hpb.
  { eapply Forall_impl; [exact Hlons |]. intros v. by rewrite in_range_spec. }
  assert (Forall (λ v, in_days date_min date_max v = true) days) as Hpc.
  { eapply Forall_impl; [exact Hdays |]. intros v. by rewrite in_days_spec. }
  rewrite !filter_all by done.
  rewrite !select3_all by done. done.
Qed.

Lemma X8_covering_request_returns_file_witness :
  ∃ g,
    fst (load_grid_from_netcdf 1 1 2018 5 1 2018 "small.nc" None small_world)
    = inr g
    ∧ ret_xch4 g = Var3 ("lat", "lon", "day") (make_array3 4 6 5 index_cell)
    ∧ ret_sdev g
      = Var3 ("lat", "lon", "day") (make_array3 4 6 5 (λ _ _ _, 10%Q))
    ∧ ret_N g = Var3 ("lat", "lon", "day") (make_array3 4 6 5 (λ _ _ _, 5%Q))
    ∧ ret_y g = Arr1 (grid_coords (-4) 2 4)
    ∧ ret_x g = Arr1 (grid_coords (-6) 2 6)
    ∧ ret_d g = Var1 "day" (grid_coords 17532 1 5).
Proof.
  eexists. split; [vm_compute; reflexivity |].
  eapply (X8_covering_request_returns_file 1 1 2018 5 1 2018 "small.nc" None
            small_world _ _ small_file 17532 17536 (-4) 4 (-6) 6);
    [apply outcome_eq; vm_compute; reflexivity
    | reflexivity | reflexivity | reflexivity
    | by vm_compute
    | reflexivity | reflexivity | reflexivity
    | reflexivity | reflexivity | reflexivity
    | | | | by vm_compute | by vm_compute | by vm_compute ];
    unfold grid_coords; simpl;
    repeat constructor; unfold Qle, Qlt; simpl; lia.
Defined.

(** * Further properties of the date offsets *)

Lemma date_lt_trichotomy (y1 m1 d1 y2 m2 d2 : Z) :
  date_lt y1 m1 d1 y2 m2 d2 ∨ (y1, m1, d1) = (y2, m2, d2)
  ∨ date_lt y2 m2 d2 y1 m1 d1.
Proof.
  unfold date_lt.
  destruct (Z.lt_trichotomy y1 y2) as [? | [-> | ?]];
    [left; lia | | right; right; lia].
  destruct (Z.lt_trichotomy m1 m2) as [? | [-> | ?]];
    [left; lia | | right; right; lia].
  destruct (Z.lt_trichotomy d1 d2) as [? | [-> | ?]];
    [left; lia | by right; left | right; right; lia].
Qed.

Lemma date_lt_irrefl (y m d : Z) : ¬ date_lt y m d y m d.
Proof. unfold date_lt. lia. Qed.

(** X9. The offsets order the dates as the calendar does: of two valid
    dates the earlier has the smaller offset, and only equal dates have
    equal offsets. *)
Theorem X9_offsets_order_dates (y1 m1 d1 y2 m2 d2 k1 k2 : Z) :
  days_since_epoch y1 m1 d1 = inr k1 →
  days_since_epoch y2 m2 d2 = inr k2 →
  (k1 < k2 ↔ date_lt y1 m1 d1 y2 m2 d2)
  ∧ (k1 = k2 ↔ (y1, m1, d1) = (y2, m2, d2)).
Proof.
  intros H1 H2.
  pose proof (days_since_epoch_lt _ _ _ _ _ _ _ _ H1 H2) as Hlt.
  pose proof (days_since_epoch_lt _ _ _ _ _ _ _ _ H2 H1) as Hgt.
  destruct (date_lt_trichotomy y1 m1 d1 y2 m2 d2) as [Hd | [Heq | Hd]].
  - specialize (Hlt Hd). split; split; try done; try lia.
    intros [= -> -> ->]. by apply date_lt_irrefl in Hd.
  - injection Heq as -> -> ->. assert (k1 = k2) as -> by congruence.
    split; split; try done; try lia; try (by intros ?%date_lt_irrefl).
  - specialize (Hgt Hd). split; split; try lia.
    + intros Hd'. specialize (Hlt Hd'). lia.
    + intros [= -> -> ->]. by apply date_lt_irrefl in Hd.
Qed.

Lemma X9_offsets_order_dates_witness :
  (17652 < 18887 ↔ date_lt 2018 5 1 2021 9 17)
  ∧ (17652 = 18887 ↔ (2018, 5, 1) = (2021, 9, 17)).
Proof.
  apply (X9_offsets_order_dates 2018 5 1 2021 9 17 17652 18887); reflexivity.
Defined.

(** X10. The offsets count days: the day after a valid date (the next day
    of the month, else the first of the next month, else the first of
    January of the next year) is valid, unless the date is the last of year
    9999, and its offset is one more. *)
Theorem X10_next_day_is_one_more (y m d k : Z) :
  days_since_epoch y m d = inr k →
  (y, m, d) ≠ (Datetime.MAXYEAR, 12, 31) →
  let '(y', m', d') := next_day y m d in
  days_since_epoch y' m' d' = inr (k + 1).
Proof.
  intros [Hok ->]%days_since_epoch_inr Hlast.
  apply DatetimeFacts.check_date_fields_spec in Hok as (Hy & Hm & Hd).
  unfold next_day.
  destruct (d <? Datetime.days_in_month y m) eqn:Hlt;
    [apply Z.ltb_lt in Hlt | apply Z.ltb_ge in Hlt].
  { apply days_since_epoch_inr. split.
    - apply DatetimeFacts.check_date_fields_spec. lia.
    - unfold Datetime.ymd2ord. lia. }
  assert (d = Datetime.days_in_month y m) as Hd' by lia.
  destruct (m <? 12) eqn:Hm12; [apply Z.ltb_lt in Hm12 | apply Z.ltb_ge in Hm12].
  - apply days_since_epoch_inr.
    assert (Datetime.days_before_month y (m + 1)
            = Datetime.days_before_month y m + Datetime.days_in_month y m
            ∧ 1 ≤ Datetime.days_in_month y (m + 1)) as [Hnext Hpos].
    { assert (1 ≤ m ≤ 11) as Hcases by lia.
      unfold Datetime.days_before_month, Datetime.days_in_month.
      assert (m = 1 ∨ m = 2 ∨ m = 3 ∨ m = 4 ∨ m = 5 ∨ m = 6 ∨ m = 7 ∨ m = 8
              ∨ m = 9 ∨ m = 10 ∨ m = 11) as Hm' by lia.
      clear -Hm'. repeat destruct Hm' as [-> | Hm']; try subst m;
        destruct (Datetime.is_leap y); simpl; lia. }
    split.
    + apply DatetimeFacts.check_date_fields_spec. lia.
    + unfold Datetime.ymd2ord. lia.
  - assert (m = 12) as -> by lia.
    assert (d = 31) as ->.
    { rewrite Hd'. unfold Datetime.days_in_month. simpl. done. }
    assert (y < Datetime.MAXYEAR) as Hy'.
    { destruct (decide (y = Datetime.MAXYEAR)) as [-> | ?]; [done | lia]. }
    apply days_since_epoch_inr. split.
    + apply DatetimeFacts.check_date_fields_spec.
      unfold Datetime.days_in_month. simpl. unfold Datetime.MINYEAR in *. lia.
    + unfold Datetime.ymd2ord.
      rewrite DatetimeFacts.days_before_next_year.
      unfold Datetime.days_before_month, Datetime.leap_day.
      destruct (Datetime.is_leap y), (Datetime.is_leap (y + 1)); simpl; lia.
Qed.

Lemma X10_next_day_is_one_more_witness :
  days_since_epoch 2020 2 29 = inr (18320 + 1)
  ∧ days_since_epoch 2019 3 1 = inr (17955 + 1)
  ∧ days_since_epoch 2019 1 1 = inr (17896 + 1).
Proof.
  split_and!.
  - apply (X10_next_day_is_one_more 2020 2 28 18320); [reflexivity | done].
  - apply (X10_next_day_is_one_more 2019 2 28 17955); [reflexivity | done].
  - apply (X10_next_day_is_one_more 2018 12 31 17896); [reflexivity | done].
Defined.

(** * The cell "Load data" *)

Lemma bind_run_inr {A B : Type} (m : M A) (f : A → M B) (w w1 : world) (x : A) :
  m w = (inr x, w1) → (m ≫= f) w = f x w1.
Proof. intros Hm. unfold mbind, M_bind. by rewrite Hm. Qed.

Lemma bind_run_inl {A B : Type} (m : M A) (f : A → M B) (w w1 : world) (e : exn) :
  m w = (inl e, w1) → (m ≫= f) w = (inl e, w1).
Proof. intros Hm. unfold mbind, M_bind. by rewrite Hm. Qed.

Lemma zip_with_orb_map {A : Type} (p q : A → bool) (l : list A) :
  zip_with orb (map p l) (map q l) = map (λ x, p x || q x) l.
Proof. induction l as [|x l IH]; simpl; [done | by rewrite IH]. Qed.

Lemma var_or_map {A : Type} (p q : A → bool) (v : XrVariable A) :
  var_or (var_map p v) (var_map q v) = inr (var_map (λ e, p e || q e) v).
Proof.
  destruct v as [d l | ds a]; simpl.
  - rewrite bool_decide_eq_true_2, !length_map, Nat.eqb_refl by done. simpl.
    by rewrite zip_with_orb_map.
  - rewrite !bool_decide_eq_true_2 by done. simpl. do 3 f_equal.
    induction (cells a) as [|plane cs IH]; simpl; [done |]. f_equal; [| done].
    clear IH. induction plane as [|row plane IH]; simpl; [done |].
    f_equal; [| done]. apply zip_with_orb_map.
Qed.

(** [(d < data_min) | (d > data_max)] *)
Lemma outside_mask_eq (dt : dtype) (d : XrVariable Q) (data_min data_max : Z) :
  Z.abs data_min < 2 ^ 24 → Z.abs data_max < 2 ^ 24 →
  ebind (var_cmp dt Qlt_bool d (VPy (inject_Z data_min))) (λ lo,
  ebind (var_cmp dt Qgt_bool d (VPy (inject_Z data_max))) (λ hi, var_or lo hi))
  = inr (var_map (outside_days data_min data_max) d).
Proof.
  intros Hmin%(cast_Z dt) Hmax%(cast_Z dt).
  unfold var_cmp. simpl. rewrite var_or_map. f_equal.
  apply var_map_ext. intros e. unfold outside_days, Qlt_bool, Qgt_bool.
  by rewrite (Qle_bool_proper_l _ _ _ Hmin), (Qle_bool_proper_r _ _ _ Hmax).
Qed.

Lemma outside_days_spec (data_min data_max : Z) (v : Q) :
  outside_days data_min data_max v = true
  ↔ (v < inject_Z data_min ∨ inject_Z data_max < v)%Q.
Proof.
  unfold outside_days, Qlt_bool, Qgt_bool.
  rewrite orb_true_iff, !negb_true_iff.
  assert (∀ a b : Q, Qle_bool a b = false ↔ (b < a)%Q) as Hnle.
  { intros a b. split.
    - intros Hf. apply Qnot_le_lt. intros Hle%Qle_bool_iff. congruence.
    - intros Hlt. apply not_true_is_false. intros Hle%Qle_bool_iff.
      by apply Qlt_not_le in Hlt. }
  by rewrite !Hnle.
Qed.

Lemma outside_days_in_days (date_min date_max data_min data_max : Z) (v : Q) :
  data_min ≤ date_min → date_max ≤ data_max →
  in_days date_min date_max v = true →
  outside_days data_min data_max v = false.
Proof.
  intros Hlo Hhi [Hlo' Hhi']%in_days_spec. rewrite Zle_Qle in Hlo, Hhi.
  apply not_true_is_false. intros [Hlt | Hlt]%outside_days_spec.
  - apply (Qlt_not_le _ _ Hlt). by eapply Qle_trans.
  - apply (Qlt_not_le _ _ Hlt). by eapply Qle_trans.
Qed.

Lemma mask_assign_length {A : Type} (m : list bool) (x : A) (l : list A) :
  length (mask_assign m x l) = length l.
Proof.
  revert l. induction m as [|b m IH]; intros [|y l]; simpl; auto.
Qed.

(** Assignment under a mask writes where the mask is set and nowhere
    else. *)
Lemma mask_assign_lookup {A : Type} (m : list bool) (x : A) (l : list A)
    (k : nat) :
  mask_assign m x l !! k
  = (λ y, if default false (m !! k) then x else y) <$> l !! k.
Proof.
  revert l k. induction m as [|b m IH]; intros [|y l] [|k]; simpl; try done;
    first [apply IH | by destruct (l !! k)].
Qed.

Lemma mask_assign_none {A : Type} (m : list bool) (x : A) (l : list A) :
  Forall (λ b, b = false) m → mask_assign m x l = l.
Proof.
  intros Hm. revert l.
  induction Hm as [|b m Hb _ IH]; intros [|y l]; simpl; try done.
  by rewrite Hb, IH.
Qed.

Lemma var_shape_blanked (bits : list bool) (v : XrVariable Q) :
  var_shape (blanked bits v) = var_shape v.
Proof. destruct v; unfold var_shape; simpl; by rewrite ?length_map. Qed.

(** On a load that returns, the cell returns, with the two arrays blanked
    under the mask of the returned days. *)
Lemma load_data_cell_returns (d1 m1 y1 d2 m2 y2 dd1 md1 yd1 dd2 md2 yd2 : Z)
    (path_in : string) (grid : option (list pyval)) (w w' : world)
    (g : GridSlice) (data_min data_max : Z) :
  load_grid_from_netcdf d1 m1 y1 d2 m2 y2 path_in grid w = (inr g, w') →
  days_since_epoch yd1 md1 dd1 = inr data_min →
  days_since_epoch yd2 md2 dd2 = inr data_max →
  ∃ date_min date_max dday ds,
    days_since_epoch y1 m1 d1 = inr date_min
    ∧ days_since_epoch y2 m2 d2 = inr date_max
    ∧ ret_d g = Var1 dday ds
    ∧ Forall (λ v, in_days date_min date_max v = true) ds
    ∧ load_data_cell d1 m1 y1 d2 m2 y2 dd1 md1 yd1 dd2 md2 yd2 path_in grid w
      = (inr (mk_LoadedData date_min date_max
                (blanked (map (outside_days data_min data_max) ds) (ret_xch4 g))
                (blanked (map (outside_days data_min data_max) ds) (ret_sdev g))
                (ret_N g) (ret_x g) (ret_y g) (ret_d g) (ret_grid_dim g)
                (ret_product_type g) (ret_ref_time g) data_min data_max),
         w').
Proof.
  intros Hload Hdmin Hdmax.
  pose proof Hload as Hg. apply load_grid_returns in Hg
    as (date_min & date_max & nc & fv & [[[lat_min lat_max] lon_min] lon_max]
        & Hmin & Hmax & _ & _ & _ & Hg & _).
  exists date_min, date_max, (fv_dday fv),
    (List.filter (in_days date_min date_max) (fv_days fv)).
  split_and!; try done.
  { by rewrite Hg. }
  { apply Forall_filter_true. }
  unfold load_data_cell.
  do 2 (erewrite bind_lift_eq by eassumption).
  rewrite (bind_run_inr _ _ _ _ _ Hload). cbv zeta.
  do 2 (erewrite bind_lift_eq by eassumption).
  erewrite bind_lift_eq
    by (apply outside_mask_eq; by eapply days_since_epoch_range).
  rewrite Hg. simpl ret_d. simpl ret_xch4. simpl ret_sdev.
  cbn [var_map setitem_last fv_dims select3 shape cells].
  rewrite !length_map, count_true_map, Nat.eqb_refl, bool_decide_eq_true_2
    by done.
  cbn [andb]. rewrite !bind_lift. cbv beta iota.
  unfold blanked, select3, fv_dims. simpl. rewrite !count_true_map. reflexivity.
Qed.

(** X11. The cell adds no failure of its own to the loader's: when the
    loader returns and the two dates of the data are valid, the cell
    returns in the same world, with the count array, the coordinates and
    the metadata as the loader returned them and the value and error
    arrays in their shapes; and when the loader raises, the cell raises
    the same exception in the same world. *)
Theorem X11_load_cell_follows_loader
    (d1 m1 y1 d2 m2 y2 dd1 md1 yd1 dd2 md2 yd2 : Z)
    (path_in : string) (grid : option (list pyval)) (w w' : world) :
  (∀ g data_min data_max,
     load_grid_from_netcdf d1 m1 y1 d2 m2 y2 path_in grid w = (inr g, w') →
     days_since_epoch yd1 md1 dd1 = inr data_min →
     days_since_epoch yd2 md2 dd2 = inr data_max →
     ∃ r,
       load_data_cell d1 m1 y1 d2 m2 y2 dd1 md1 yd1 dd2 md2 yd2 path_in grid w
       = (inr r, w')
       ∧ ld_N r = ret_N g ∧ ld_lats r = ret_y g ∧ ld_lons r = ret_x g
       ∧ ld_d r = ret_d g ∧ ld_grid_dim r = ret_grid_dim g
       ∧ ld_product_type r = ret_product_type g
       ∧ ld_ref_time r = ret_ref_time g
       ∧ var_shape (ld_vmr r) = var_shape (ret_xch4 g)
       ∧ var_shape (ld_sdev r) = var_shape (ret_sdev g))
  ∧ (∀ e,
       load_grid_from_netcdf d1 m1 y1 d2 m2 y2 path_in grid w = (inl e, w') →
       load_data_cell d1 m1 y1 d2 m2 y2 dd1 md1 yd1 dd2 md2 yd2 path_in grid w
       = (inl e, w')).
Proof.
  split.
  - intros g data_min data_max Hload Hdmin Hdmax.
    destruct (load_data_cell_returns _ _ _ _ _ _ _ _ _ _ _ _ _ _ _ _ _ _ _
                Hload Hdmin Hdmax)
      as (date_min & date_max & dday & ds & _ & _ & _ & _ & Hcell).
    eexists. split; [exact Hcell |]. simpl.
    split_and!; try done; apply var_shape_blanked.
  - intros e Hload. unfold load_data_cell.
    pose proof Hload as Hload'. unfold load_grid_from_netcdf in Hload'.
    rewrite bind_lift in Hload'. rewrite bind_lift.
    destruct (days_since_epoch y1 m1 d1) as [x|date_min] eqn:Hmin;
      [by injection Hload' as -> -> |].
    cbv beta iota in Hload' |- *. rewrite bind_lift in Hload'. rewrite bind_lift.
    destruct (days_since_epoch y2 m2 d2) as [x|date_max] eqn:Hmax;
      [by injection Hload' as -> -> |].
    cbv beta iota. by rewrite (bind_run_inl _ _ _ _ _ Hload).
Qed.

Lemma X11_load_cell_follows_loader_witness :
  (∃ r,
     load_data_cell 1 1 2018 5 1 2018 3 1 2018 4 1 2018 "small.nc" None
       small_world
     = (inr r, after_load small_world)
     ∧ var_shape (ld_vmr r) = [4; 6; 5]%nat
     ∧ var_shape (ld_sdev r) = [4; 6; 5]%nat)
  ∧ load_data_cell 2 1 2018 4 1 2018 3 1 2018 4 1 2018 "no_err.nc" None
      broken_world
    = (inl (KeyError "xch4_err"), after_load broken_world).
Proof.
  split.
  - destruct (load_grid_from_netcdf 1 1 2018 5 1 2018 "small.nc" None
                small_world) as [r0 w0] eqn:Hload.
    assert (w0 = after_load small_world
            ∧ ∃ g, r0 = inr g ∧ var_shape (ret_xch4 g) = [4; 6; 5]%nat
                   ∧ var_shape (ret_sdev g) = [4; 6; 5]%nat)
      as (-> & g & -> & Hs1 & Hs2).
    { vm_compute in Hload. injection Hload as <- <-.
      split; [reflexivity |]. eexists. repeat split; reflexivity. }
    destruct (proj1 (X11_load_cell_follows_loader
                       1 1 2018 5 1 2018 3 1 2018 4 1 2018 "small.nc" None
                       small_world (after_load small_world))
                g 17534 17535 Hload eq_refl eq_refl)
      as (r & Hcell & _ & _ & _ & _ & _ & _ & _ & Hv & He).
    exists r. split; [exact Hcell |]. split; congruence.
  - apply (proj2 (X11_load_cell_follows_loader
                    2 1 2018 4 1 2018 3 1 2018 4 1 2018 "no_err.nc" None
                    broken_world (after_load broken_world))).
    apply outcome_eq. vm_compute. reflexivity.
Defined.

Lemma blanked_cell (bits : list bool) (v : XrVariable Q) (r1 r2 r3 : nat) :
  var_cell (blanked bits v) r1 r2 r3
  = (λ x, if default false (bits !! r3) then nan else Some x)
    <$> var_cell v r1 r2 r3.
Proof.
  destruct v as [d l | ds a]; simpl; [done |]. unfold cell_at. simpl.
  rewrite !lookup_map.
  destruct (cells a !! r1) as [plane|]; simpl; [| done].
  rewrite !lookup_map.
  destruct (plane !! r2) as [row|]; simpl; [| done].
  rewrite mask_assign_lookup, lookup_map.
  by destruct (row !! r3).
Qed.

Lemma blanked_none (bits : list bool) (v : XrVariable Q) :
  Forall (λ b, b = false) bits → blanked bits v = var_map Some v.
Proof.
  intros Hbits. destruct v as [d l | ds a]; simpl; [done |]. do 2 f_equal.
  rewrite <- (map_id (map (map (map Some)) (cells a))) at 2.
  apply map_ext. intros plane.
  rewrite <- (map_id plane) at 2. apply map_ext. intros row.
  by apply mask_assign_none.
Qed.

(** X12. The cell blanks by day and by nothing else: at every position of
    the value and error arrays whose day is before the first or after the
    last date of the data the cell leaves NaN, and at every position whose
    day is within these dates it leaves the number the loader returned. *)
Theorem X12_cells_blanked_outside_data_dates
    (d1 m1 y1 d2 m2 y2 dd1 md1 yd1 dd2 md2 yd2 : Z)
    (path_in : string) (grid : option (list pyval)) (w w' : world)
    (g : GridSlice) (data_min data_max : Z) :
  load_grid_from_netcdf d1 m1 y1 d2 m2 y2 path_in grid w = (inr g, w') →
  days_since_epoch yd1 md1 dd1 = inr data_min →
  days_since_epoch yd2 md2 dd2 = inr data_max →
  ∃ r dday ds,
    load_data_cell d1 m1 y1 d2 m2 y2 dd1 md1 yd1 dd2 md2 yd2 path_in grid w
    = (inr r, w')
    ∧ ret_d g = Var1 dday ds
    ∧ ∀ r1 r2 r3 dv,
        ds !! r3 = Some dv →
        ((dv < inject_Z data_min ∨ inject_Z data_max < dv)%Q →
         var_cell (ld_vmr r) r1 r2 r3
         = (λ _, nan) <$> var_cell (ret_xch4 g) r1 r2 r3
         ∧ var_cell (ld_sdev r) r1 r2 r3
           = (λ _, nan) <$> var_cell (ret_sdev g) r1 r2 r3)
        ∧ ((inject_Z data_min <= dv ∧ dv <= inject_Z data_max)%Q →
           var_cell (ld_vmr r) r1 r2 r3
           = Some <$> var_cell (ret_xch4 g) r1 r2 r3
           ∧ var_cell (ld_sdev r) r1 r2 r3
             = Some <$> var_cell (ret_sdev g) r1 r2 r3).
Proof.
  intros Hload Hdmin Hdmax.
  destruct (load_data_cell_returns _ _ _ _ _ _ _ _ _ _ _ _ _ _ _ _ _ _ _
              Hload Hdmin Hdmax)
    as (date_min & date_max & dday & ds & _ & _ & Hd & _ & Hcell).
  eexists _, dday, ds. split; [exact Hcell |]. split; [done |].
  intros r1 r2 r3 dv Hdv. simpl. rewrite !blanked_cell, lookup_map, Hdv. simpl.
  split.
  - intros Hout%outside_days_spec. by rewrite Hout.
  - intros [Hlo Hhi].
    assert (outside_days data_min data_max dv = false) as ->; [| done].
    apply not_true_is_false. intros [Hlt | Hlt]%outside_days_spec.
    + by apply Qlt_not_le in Hlt.
    + by apply Qlt_not_le in Hlt.
Qed.

Lemma X12_cells_blanked_outside_data_dates_witness :
  ∃ r,
    load_data_cell 1 1 2018 5 1 2018 3 1 2018 4 1 2018 "small.nc" None
      small_world
    = (inr r, after_load small_world)
    ∧ (var_cell (ld_vmr r) 1 2 0 = Some nan
       ∧ var_cell (ld_sdev r) 1 2 0 = Some nan)
    ∧ (var_cell (ld_vmr r) 1 2 3 = Some (Some (index_cell 1 2 3))
       ∧ var_cell (ld_sdev r) 1 2 3 = Some (Some 10%Q)).
Proof.
  destruct (load_grid_from_netcdf 1 1 2018 5 1 2018 "small.nc" None
              small_world) as [r0 w0] eqn:Hload.
  assert (w0 = after_load small_world
          ∧ ∃ g, r0 = inr g
                 ∧ ret_d g = Var1 "day" (grid_coords 17532 1 5)
                 ∧ var_cell (ret_xch4 g) 1 2 0 = Some (index_cell 1 2 0)
                 ∧ var_cell (ret_sdev g) 1 2 0 = Some 10%Q
                 ∧ var_cell (ret_xch4 g) 1 2 3 = Some (index_cell 1 2 3)
                 ∧ var_cell (ret_sdev g) 1 2 3 = Some 10%Q)
    as (-> & g & -> & Hd & Hx0 & He0 & Hx3 & He3).
  { vm_compute in Hload. injection Hload as <- <-.
    split; [reflexivity |]. eexists. repeat split; reflexivity. }
  destruct (X12_cells_blanked_outside_data_dates
              1 1 2018 5 1 2018 3 1 2018 4 1 2018 "small.nc" None
              small_world (after_load small_world) g 17534 17535
              Hload eq_refl eq_refl)
    as (r & dday & ds & Hcell & Hd' & Hcells).
  rewrite Hd in Hd'. injection Hd' as <- <-.
  exists r. split; [exact Hcell |]. split.
  - destruct (Hcells 1%nat 2%nat 0%nat 17532%Q eq_refl) as [Hout _].
    rewrite Hx0, He0 in Hout. apply Hout. left. by vm_compute.
  - destruct (Hcells 1%nat 2%nat 3%nat 17535%Q eq_refl) as [_ Hin].
    rewrite Hx3, He3 in Hin. apply Hin. split; by vm_compute.
Defined.

(** X13. When the dates of the data contain the dates of the time series,
    the cell blanks nothing: the value and error arrays are the loader's,
    number for number. *)
Theorem X13_nothing_blanked_when_data_dates_cover
    (d1 m1 y1 d2 m2 y2 dd1 md1 yd1 dd2 md2 yd2 : Z)
    (path_in : string) (grid : option (list pyval)) (w w' : world)
    (g : GridSlice) (date_min date_max data_min data_max : Z) :
  load_grid_from_netcdf d1 m1 y1 d2 m2 y2 path_in grid w = (inr g, w') →
  days_since_epoch y1 m1 d1 = inr date_min →
  days_since_epoch y2 m2 d2 = inr date_max →
  days_since_epoch yd1 md1 dd1 = inr data_min →
  days_since_epoch yd2 md2 dd2 = inr data_max →
  data_min ≤ date_min → date_max ≤ data_max →
  ∃ r,
    load_data_cell d1 m1 y1 d2 m2 y2 dd1 md1 yd1 dd2 md2 yd2 path_in grid w
    = (inr r, w')
    ∧ ld_vmr r = var_map Some (ret_xch4 g)
    ∧ ld_sdev r = var_map Some (ret_sdev g).
Proof.
  intros Hload Hmin Hmax Hdmin Hdmax Hlo Hhi.
  destruct (load_data_cell_returns _ _ _ _ _ _ _ _ _ _ _ _ _ _ _ _ _ _ _
              Hload Hdmin Hdmax)
    as (date_min' & date_max' & dday & ds & Hmin' & Hmax' & Hd & Hin & Hcell).
  assert (date_min' = date_min ∧ date_max' = date_max) as [-> ->]
    by (split; congruence).
  eexists. split; [exact Hcell |]. simpl.
  assert (Forall (λ b, b = false) (map (outside_days data_min data_max) ds))
    as Hnone.
  { apply List.Forall_forall. intros b (v & <- & Hv)%in_map_iff.
    eapply outside_days_in_days; [exact Hlo | exact Hhi |].
    by eapply List.Forall_forall in Hin. }
  by rewrite !blanked_none.
Qed.

Lemma X13_nothing_blanked_when_data_dates_cover_witness :
  ∃ g r,
    fst (load_grid_from_netcdf 2 1 2018 4 1 2018 "small.nc" None small_world)
    = inr g
    ∧ load_data_cell 2 1 2018 4 1 2018 1 1 2018 5 1 2018 "small.nc" None
        small_world
      = (inr r, after_load small_world)
    ∧ ld_vmr r = var_map Some (ret_xch4 g)
    ∧ ld_sdev r = var_map Some (ret_sdev g).
Proof.
  destruct (load_grid_from_netcdf 2 1 2018 4 1 2018 "small.nc" None
              small_world) as [r0 w0] eqn:Hload.
  assert (w0 = after_load small_world ∧ ∃ g, r0 = inr g) as (-> & g & ->).
  { vm_compute in Hload. injection Hload as <- <-.
    split; [reflexivity |]. by eexists. }
  destruct (X13_nothing_blanked_when_data_dates_cover
              2 1 2018 4 1 2018 1 1 2018 5 1 2018 "small.nc" None
              small_world (after_load small_world) g
              17533 17535 17532 17536 Hload eq_refl eq_refl eq_refl eq_refl)
    as (r & Hcell & Hv & He); [lia | lia |].
  exists g, r. by split_and!.
Defined.

(** ** The mesh of the inhomogeneity plot *)



Lemma slice_grid_dim (fv : file_view) (date_min date_max : Z)
    (grid_dim : option (list pyval)) (b : Q * Q * Q * Q) (key : string) :
  In key ["LAT_LOW"; "LAT_HIGH"; "LON_LOW"; "LON_HIGH"] →
  ∃ v, getitem (ret_grid_dim (slice_of fv date_min date_max grid_dim b)) key
       = inr v.
Proof.
  destruct b as [[[lat_min lat_max] lon_min] lon_max]. simpl.
  intros [<- | [<- | [<- | [<- | []]]]]; eexists; reflexivity.
Qed.

Lemma slice_steps (fv : file_view) (date_min date_max : Z)
    (grid_dim : option (list pyval)) (b : Q * Q * Q * Q) :
  getitem (ret_grid_dim (slice_of fv date_min date_max grid_dim b)) "LAT_STEP"
  = inr (VNum (fv_lat_res fv))
  ∧ getitem (ret_grid_dim (slice_of fv date_min date_max grid_dim b)) "LON_STEP"
    = inr (VNum (fv_lon_res fv)).
Proof. destruct b as [[[lat_min lat_max] lon_min] lon_max]. by split. Qed.

Lemma plot_mesh_keys (lats lons : list Q) (grid_dim : gmap string pyval)
    (b1 b2 b3 b4 : pyval) (lat_step lon_step : Q) :
  getitem grid_dim "LAT_LOW" = inr b1 →
  getitem grid_dim "LAT_HIGH" = inr b2 →
  getitem grid_dim "LON_LOW" = inr b3 →
  getitem grid_dim "LON_HIGH" = inr b4 →
  getitem grid_dim "LAT_STEP" = inr (VNum lat_step) →
  getitem grid_dim "LON_STEP" = inr (VNum lon_step) →
  inhomogeneity_plot_mesh lats lons grid_dim
  = ebind (last_item lats) (λ lat_n,
    ebind (last_item lons) (λ lon_n,
    let X2 := lats ++ [(lat_n + lon_step)%Q] in
    let Y2 := lons ++ [(lon_n + lat_step)%Q] in
    inr (mk_PlotMesh X2 Y2 (fst (meshgrid Y2 X2)) (snd (meshgrid Y2 X2))))).
Proof.
  intros H1 H2 H3 H4 H5 H6. unfold inhomogeneity_plot_mesh.
  rewrite H1, H2, H3, H4, H5, H6. simpl.
  destruct (last_item lats) as [e | lat_n]; simpl; [done |].
  by destruct (last_item lons) as [e | lon_n].
Qed.

Lemma plot_mesh_after_load (d1 m1 y1 d2 m2 y2 : Z) (path : string)
    (grid_dim : option (list pyval)) (w w' : world) (g : GridSlice) :
  load_grid_from_netcdf d1 m1 y1 d2 m2 y2 path grid_dim w = (inr g, w') →
  ∃ lats lons lat_step lon_step,
    ret_y g = Arr1 lats ∧ ret_x g = Arr1 lons
    ∧ ret_grid_dim g !! "LAT_STEP" = Some (VNum lat_step)
    ∧ ret_grid_dim g !! "LON_STEP" = Some (VNum lon_step)
    ∧ inhomogeneity_plot_mesh lats lons (ret_grid_dim g)
      = ebind (last_item lats) (λ lat_n,
        ebind (last_item lons) (λ lon_n,
        let X2 := lats ++ [(lat_n + lon_step)%Q] in
        let Y2 := lons ++ [(lon_n + lat_step)%Q] in
        inr (mk_PlotMesh X2 Y2 (fst (meshgrid Y2 X2))
               (snd (meshgrid Y2 X2))))).
Proof.
  intros (date_min & date_max & nc & fv & b & _ & _ & _ & _ & _ & -> & _)
    %load_grid_returns.
  destruct (slice_grid_dim fv date_min date_max grid_dim b "LAT_LOW") as [b1 H1];
    [simpl; tauto |].
  destruct (slice_grid_dim fv date_min date_max grid_dim b "LAT_HIGH") as [b2 H2];
    [simpl; tauto |].
  destruct (slice_grid_dim fv date_min date_max grid_dim b "LON_LOW") as [b3 H3];
    [simpl; tauto |].
  destruct (slice_grid_dim fv date_min date_max grid_dim b "LON_HIGH") as [b4 H4];
    [simpl; tauto |].
  destruct (slice_steps fv date_min date_max grid_dim b) as [H5 H6].
  destruct b as [[[lat_min lat_max] lon_min] lon_max].
  eexists _, _, (fv_lat_res fv), (fv_lon_res fv).
  split; [reflexivity |]. split; [reflexivity |].
  split; [reflexivity |]. split; [reflexivity |].
  by eapply plot_mesh_keys.
Qed.



(** X15. After a load that returned no latitude or no longitude, the mesh
    arithmetic of the plot cell raises IndexError: there is no last
    coordinate to continue from. *)
Theorem X15_plot_mesh_needs_a_cell (d1 m1 y1 d2 m2 y2 : Z) (path : string)
    (grid_dim : option (list pyval)) (w w' : world) (g : GridSlice)
    (lats lons : list Q) :
  load_grid_from_netcdf d1 m1 y1 d2 m2 y2 path grid_dim w = (inr g, w') →
  ret_y g = Arr1 lats → ret_x g = Arr1 lons →
  lats = [] ∨ lons = [] →
  inhomogeneity_plot_mesh lats lons (ret_grid_dim g) = inl IndexError.
Proof.
  intros (lats' & lons' & lat_step & lon_step & Hy' & Hx' & _ & _ & Hmesh)
    %plot_mesh_after_load Hy Hx Hempty.
  assert (lats' = lats ∧ lons' = lons) as [-> ->] by (split; congruence).
  rewrite Hmesh. destruct Hempty as [-> | ->]; [done |].
  unfold last_item. by destruct (last lats).
Qed.

Lemma X15_plot_mesh_needs_a_cell_witness :
  ∃ g,
    fst (load_grid_from_netcdf 1 1 2018 5 1 2018 "small.nc"
           (Some [VNum 20; VNum 30; VNum 0; VNum 10]) small_world)
    = inr g
    ∧ inhomogeneity_plot_mesh [] [0; 2; 4]%Q (ret_grid_dim g)
      = inl IndexError.
Proof.
  destruct (load_grid_from_netcdf 1 1 2018 5 1 2018 "small.nc"
              (Some [VNum 20; VNum 30; VNum 0; VNum 10]) small_world)
    as [r0 w0] eqn:Hload.
  assert (∃ g, r0 = inr g ∧ ret_y g = Arr1 [] ∧ ret_x g = Arr1 [0; 2; 4]%Q)
    as (g & -> & Hy & Hx).
  { vm_compute in Hload. injection Hload as <- _.
    eexists. repeat split; reflexivity. }
  exists g. split; [reflexivity |].
  apply (X15_plot_mesh_needs_a_cell
           1 1 2018 5 1 2018 "small.nc"
           (Some [VNum 20; VNum 30; VNum 0; VNum 10]) small_world w0 g
           [] [0; 2; 4]%Q Hload Hy Hx).
  by left.
Defined.
